(** * On-ledger election core: voter registry, ballot box, bulletin board, tally validator

    A shallow embedding of the four Move modules of the voting package
    ([voter_registry], [encrypted_ballot], [bulletin_board], [tally_validator])
    and the properties of their entry and view functions.

    Conventions of the embedding:
    - a function that borrows a resource takes the store of that resource type
      (accounts to resources) and, when it writes, returns the new store together
      with the events it emitted; [cast_vote], which calls into the registry,
      takes and returns both stores;
    - [timestamp::now_seconds()] is the argument [now]; within one transaction
      every call returns the same value;
    - a failed [assert!], an arithmetic overflow, a missing resource and a table
      precondition all end the call with [Err]; nothing is written then;
    - the field [is_finalized] of [TallyRecord] is [is_finalized_flag] here, the
      name [is_finalized] being taken by the view function. *)

From stdpp Require Import base gmap strings list fin_maps.
From Stdlib Require Import ZArith Lia.

Local Open Scope Z_scope.

(* stdpp's set_solver clears hypotheses by generated names. *)
Set Warnings "-clear-no-such-hyp".

(** ** Move values *)

(** [u64] and [address] values are integers; [vector<u8>] values are byte strings. *)
Abbreviation u64 := Z (only parsing).
Abbreviation address := Z (only parsing).
Abbreviation bytes := string (only parsing).

Definition MAX_U64 : Z := 18446744073709551615.

(** ** Transaction outcomes *)

(** A Move call either returns or aborts.  [Abort m c] is a failed
    [assert!(_, c)] in module [m]; the other failures are raised by the VM or
    by the framework's [table] module. *)
Inductive Failure : Type :=
| Abort (location : string) (code : Z)
| ArithmeticOverflow
| MissingResource
| ResourceAlreadyExists
| TableEntryExists
| TableEntryMissing.

Inductive Result (A : Type) : Type :=
| Ok (a : A)
| Err (f : Failure).

Arguments Ok {A} a.
Arguments Err {A} f.

Definition result_bind {A B : Type} (f : A -> Result B) (m : Result A) : Result B :=
  match m with
  | Ok a => f a
  | Err e => Err e
  end.

#[global] Instance Result_bind : MBind Result := @result_bind.
#[global] Instance Result_ret : MRet Result := @Ok.

(** [assert!(cond, code)] *)
Definition assert (location : string) (cond : bool) (code : Z) : Result unit :=
  if cond then Ok tt else Err (Abort location code).

(** Checked [u64] addition: Move aborts the transaction on overflow. *)
Definition add_u64 (a b : u64) : Result u64 :=
  if a + b <=? MAX_U64 then Ok (a + b) else Err ArithmeticOverflow.

Definition is_ok {A : Type} (r : Result A) : bool :=
  match r with Ok _ => true | Err _ => false end.

(** The address the package is published under (the named address [@voting]
    of the build configuration). *)
Class NamedAddresses : Type := { voting : address }.

(** ** Global storage and framework modules *)

(** Resources of one type, indexed by the account that holds them. *)
Definition borrow_global {R : Type} (st : gmap Z R) (a : address) : Result R :=
  match st !! a with
  | Some r => Ok r
  | None => Err MissingResource
  end.

Definition move_to {R : Type} (st : gmap Z R) (a : address) (r : R) : Result (gmap Z R) :=
  match st !! a with
  | Some _ => Err ResourceAlreadyExists
  | None => Ok (<[a := r]> st)
  end.

(** Writing back through a [borrow_global_mut] reference. *)
Definition write_global {R : Type} (st : gmap Z R) (a : address) (r : R) : gmap Z R :=
  <[a := r]> st.

Module signer.
Definition t : Type := Z.
Definition address_of (s : t) : address := s.
End signer.

(** [aptos_std::table] *)
Module table.
Definition contains {V : Type} (t : gmap string V) (k : bytes) : bool :=
  match t !! k with Some _ => true | None => false end.

Definition add {V : Type} (t : gmap string V) (k : bytes) (v : V) : Result (gmap string V) :=
  match t !! k with
  | Some _ => Err TableEntryExists
  | None => Ok (<[k := v]> t)
  end.

Definition upsert {V : Type} (t : gmap string V) (k : bytes) (v : V) : gmap string V :=
  <[k := v]> t.

Definition borrow {V : Type} (t : gmap string V) (k : bytes) : Result V :=
  match t !! k with
  | Some v => Ok v
  | None => Err TableEntryMissing
  end.
End table.

(** Events emitted by the four modules, in one stream. *)
Inductive Event : Type :=
| RegistrationEvent (epic_hash : bytes) (registered_at : u64)
| VotingEvent (epic_hash : bytes) (voted_at : u64)
| VoteCastEvent (tracking_code_hash : bytes) (cast_at : u64)
| VoteReplacedEvent (tracking_code_hash : bytes) (replaced_at : u64)
| RecordPublishedEvent (tracking_code_hash commitment : bytes) (timestamp : u64)
| TallyStartedEvent (election_id : bytes) (started_at total_votes : u64)
| TallyFinalizedEvent (election_id : bytes) (finalized_at total_votes valid_votes : u64)
| ResultPublishedEvent (candidate_id : bytes) (vote_count percentage : u64).

(** ** voting::voter_registry *)
Module voter_registry.

Definition this_module : string := "voting::voter_registry".

Definition EALREADY_REGISTERED : Z := 1.
Definition ENOT_REGISTERED : Z := 2.
Definition EINVALID_EPIC_HASH : Z := 3.
Definition EUNAUTHORIZED : Z := 4.

Record VoterRegistration : Type := {
  epic_hash : bytes;
  aadhaar_hash : bytes;
  biometric_hash : bytes;
  registered_at : u64;
  is_active : bool;
  is_struck_off : bool;
  has_voted : bool;
}.

Record Registry : Type := {
  voters : gmap string VoterRegistration;
  total_registered : u64;
  admin : address;
}.

Definition set_has_voted (b : bool) (v : VoterRegistration) : VoterRegistration :=
  {| epic_hash := v.(epic_hash); aadhaar_hash := v.(aadhaar_hash);
     biometric_hash := v.(biometric_hash); registered_at := v.(registered_at);
     is_active := v.(is_active); is_struck_off := v.(is_struck_off);
     has_voted := b |}.

Definition set_is_active (b : bool) (v : VoterRegistration) : VoterRegistration :=
  {| epic_hash := v.(epic_hash); aadhaar_hash := v.(aadhaar_hash);
     biometric_hash := v.(biometric_hash); registered_at := v.(registered_at);
     is_active := b; is_struck_off := v.(is_struck_off);
     has_voted := v.(has_voted) |}.

Definition set_voters (t : gmap string VoterRegistration) (r : Registry) : Registry :=
  {| voters := t; total_registered := r.(total_registered); admin := r.(admin) |}.

Section functions.
Context `{NamedAddresses}.

Definition initialize (st : gmap Z Registry) (admin : signer.t)
  : Result (gmap Z Registry * list Event) :=
  let admin_addr := signer.address_of admin in
  st' ← move_to st (signer.address_of admin)
          {| voters := ∅; total_registered := 0; admin := admin_addr |};
  Ok (st', []).

Definition register_voter (st : gmap Z Registry) (now : u64) (voter : signer.t)
    (epic_hash aadhaar_hash biometric_hash : bytes)
  : Result (gmap Z Registry * list Event) :=
  registry ← borrow_global st voting;
  assert this_module (negb (table.contains registry.(voters) epic_hash)) EALREADY_REGISTERED;;
  let registration :=
    {| epic_hash := epic_hash; aadhaar_hash := aadhaar_hash;
       biometric_hash := biometric_hash; registered_at := now;
       is_active := true; is_struck_off := true; has_voted := false |} in
  voters' ← table.add registry.(voters) epic_hash registration;
  total ← add_u64 registry.(total_registered) 1;
  Ok (write_global st voting
        {| voters := voters'; total_registered := total; admin := registry.(admin) |},
      [RegistrationEvent epic_hash now]).

Definition is_voter_eligible (st : gmap Z Registry) (epic_hash : bytes) : Result bool :=
  registry ← borrow_global st voting;
  if negb (table.contains registry.(voters) epic_hash) then Ok false
  else
    voter ← table.borrow registry.(voters) epic_hash;
    Ok (voter.(is_active) && negb voter.(has_voted)).

Definition mark_voted (st : gmap Z Registry) (now : u64) (epic_hash : bytes)
  : Result (gmap Z Registry * list Event) :=
  registry ← borrow_global st voting;
  assert this_module (table.contains registry.(voters) epic_hash) ENOT_REGISTERED;;
  voter ← table.borrow registry.(voters) epic_hash;
  Ok (write_global st voting
        (set_voters (<[epic_hash := set_has_voted true voter]> registry.(voters)) registry),
      [VotingEvent epic_hash now]).

Definition reset_voted_status (st : gmap Z Registry) (epic_hash : bytes)
  : Result (gmap Z Registry * list Event) :=
  registry ← borrow_global st voting;
  assert this_module (table.contains registry.(voters) epic_hash) ENOT_REGISTERED;;
  voter ← table.borrow registry.(voters) epic_hash;
  Ok (write_global st voting
        (set_voters (<[epic_hash := set_has_voted false voter]> registry.(voters)) registry),
      []).

Definition get_voter_details (st : gmap Z Registry) (epic_hash : bytes)
  : Result (bool * u64 * bool * bool) :=
  registry ← borrow_global st voting;
  if negb (table.contains registry.(voters) epic_hash) then Ok (false, 0, false, false)
  else
    voter ← table.borrow registry.(voters) epic_hash;
    Ok (voter.(is_active), voter.(registered_at), voter.(is_struck_off), voter.(has_voted)).

Definition get_total_registered (st : gmap Z Registry) : Result u64 :=
  registry ← borrow_global st voting;
  Ok registry.(total_registered).

Definition deactivate_voter (st : gmap Z Registry) (admin : signer.t) (epic_hash : bytes)
  : Result (gmap Z Registry * list Event) :=
  registry ← borrow_global st voting;
  let admin_addr := signer.address_of admin in
  assert this_module (admin_addr =? registry.(voter_registry.admin)) EUNAUTHORIZED;;
  assert this_module (table.contains registry.(voters) epic_hash) ENOT_REGISTERED;;
  voter ← table.borrow registry.(voters) epic_hash;
  Ok (write_global st voting
        (set_voters (<[epic_hash := set_is_active false voter]> registry.(voters)) registry),
      []).
End functions.

End voter_registry.

(** ** voting::bulletin_board *)
Module bulletin_board.

Definition this_module : string := "voting::bulletin_board".

Definition EALREADY_RECORDED : Z := 1.
Definition ENOT_FOUND : Z := 2.

Record VoteRecord : Type := {
  commitment : bytes;
  timestamp : u64;
  is_valid : bool;
  merkle_proof : list string;
}.

Record BulletinBoard : Type := {
  records : gmap string VoteRecord;
  total_records : u64;
  merkle_root : bytes;
  election_id : bytes;
}.

Definition set_merkle_proof (p : list string) (r : VoteRecord) : VoteRecord :=
  {| commitment := r.(commitment); timestamp := r.(timestamp);
     is_valid := r.(is_valid); merkle_proof := p |}.

Section functions.
Context `{NamedAddresses}.

Definition initialize (st : gmap Z BulletinBoard) (admin : signer.t) (election_id : bytes)
  : Result (gmap Z BulletinBoard * list Event) :=
  st' ← move_to st (signer.address_of admin)
          {| records := ∅; total_records := 0; merkle_root := "";
             election_id := election_id |};
  Ok (st', []).

Definition record_vote (st : gmap Z BulletinBoard) (now : u64) (_publisher : signer.t)
    (tracking_code_hash commitment : bytes)
  : Result (gmap Z BulletinBoard * list Event) :=
  board ← borrow_global st voting;
  let is_update := table.contains board.(records) tracking_code_hash in
  let record :=
    {| commitment := commitment; timestamp := now; is_valid := true;
       merkle_proof := [] |} in
  '(records', total) ←
    (if is_update
     then Ok (table.upsert board.(records) tracking_code_hash record,
              board.(total_records))
     else
       t ← table.add board.(records) tracking_code_hash record;
       n ← add_u64 board.(total_records) 1;
       Ok (t, n));
  Ok (write_global st voting
        {| records := records'; total_records := total;
           merkle_root := board.(bulletin_board.merkle_root);
           election_id := board.(bulletin_board.election_id) |},
      [RecordPublishedEvent tracking_code_hash commitment now]).

Definition get_vote_record (st : gmap Z BulletinBoard) (tracking_code_hash : bytes)
  : Result (bytes * u64 * bool) :=
  board ← borrow_global st voting;
  if negb (table.contains board.(records) tracking_code_hash) then Ok ("", 0, false)
  else
    record ← table.borrow board.(records) tracking_code_hash;
    Ok (record.(bulletin_board.commitment), record.(timestamp), record.(is_valid)).

(** The signer's address is read and discarded: no comparison follows. *)
Definition update_merkle_proof (st : gmap Z BulletinBoard) (admin : signer.t)
    (tracking_code_hash : bytes) (merkle_proof : list string)
  : Result (gmap Z BulletinBoard * list Event) :=
  board ← borrow_global st voting;
  let _ := signer.address_of admin in
  assert this_module (table.contains board.(records) tracking_code_hash) ENOT_FOUND;;
  record ← table.borrow board.(records) tracking_code_hash;
  Ok (write_global st voting
        {| records := <[tracking_code_hash := set_merkle_proof merkle_proof record]>
                        board.(records);
           total_records := board.(total_records);
           merkle_root := board.(bulletin_board.merkle_root);
           election_id := board.(bulletin_board.election_id) |},
      []).

Definition update_merkle_root (st : gmap Z BulletinBoard) (admin : signer.t)
    (merkle_root : bytes)
  : Result (gmap Z BulletinBoard * list Event) :=
  board ← borrow_global st voting;
  let _ := signer.address_of admin in
  Ok (write_global st voting
        {| records := board.(records); total_records := board.(total_records);
           merkle_root := merkle_root; election_id := board.(bulletin_board.election_id) |},
      []).

Definition get_statistics (st : gmap Z BulletinBoard) : Result (u64 * bytes * bytes) :=
  board ← borrow_global st voting;
  Ok (board.(total_records), board.(bulletin_board.merkle_root),
      board.(bulletin_board.election_id)).

Definition verify_merkle_proof (st : gmap Z BulletinBoard)
    (tracking_code_hash merkle_root : bytes) : Result bool :=
  board ← borrow_global st voting;
  if negb (table.contains board.(records) tracking_code_hash) then Ok false
  else Ok (String.eqb merkle_root board.(bulletin_board.merkle_root)).
End functions.

End bulletin_board.

(** ** voting::encrypted_ballot *)
Module encrypted_ballot.

Definition this_module : string := "voting::encrypted_ballot".

Definition EPOLLING_NOT_STARTED : Z := 1.
Definition EPOLLING_ENDED : Z := 2.
Definition ENOT_ELIGIBLE : Z := 3.
Definition EINVALID_COMMITMENT : Z := 4.
Definition EUNAUTHORIZED : Z := 5.

Record VoteCommitment : Type := {
  voter_commitment : bytes;
  vote_hash : bytes;
  ipfs_hash : bytes;
  tracking_code_hash : bytes;
  cast_at : u64;
  is_final : bool;
}.

Record BallotBox : Type := {
  votes : gmap string VoteCommitment;
  vote_count : u64;
  polling_start : u64;
  polling_end : u64;
  admin : address;
  merkle_root : bytes;
}.

Definition set_is_final (b : bool) (c : VoteCommitment) : VoteCommitment :=
  {| voter_commitment := c.(voter_commitment); vote_hash := c.(vote_hash);
     ipfs_hash := c.(ipfs_hash); tracking_code_hash := c.(tracking_code_hash);
     cast_at := c.(cast_at); is_final := b |}.

Section functions.
Context `{NamedAddresses}.

Definition initialize (st : gmap Z BallotBox) (admin : signer.t)
    (polling_start polling_end : u64)
  : Result (gmap Z BallotBox * list Event) :=
  let admin_addr := signer.address_of admin in
  st' ← move_to st (signer.address_of admin)
          {| votes := ∅; vote_count := 0; polling_start := polling_start;
             polling_end := polling_end; admin := admin_addr; merkle_root := "" |};
  Ok (st', []).

Definition cast_vote (reg : gmap Z voter_registry.Registry) (st : gmap Z BallotBox)
    (now : u64) (voter : signer.t)
    (epic_hash voter_commitment vote_hash ipfs_hash tracking_code_hash : bytes)
  : Result (gmap Z voter_registry.Registry * gmap Z BallotBox * list Event) :=
  ballot_box ← borrow_global st voting;
  assert this_module (ballot_box.(encrypted_ballot.polling_start) <=? now) EPOLLING_NOT_STARTED;;
  assert this_module (now <=? ballot_box.(encrypted_ballot.polling_end)) EPOLLING_ENDED;;
  eligible ← voter_registry.is_voter_eligible reg epic_hash;
  assert this_module eligible ENOT_ELIGIBLE;;
  let is_revote := table.contains ballot_box.(votes) tracking_code_hash in
  '(votes1, replaced) ←
    (if is_revote
     then
       old_vote ← table.borrow ballot_box.(votes) tracking_code_hash;
       Ok (<[tracking_code_hash := set_is_final false old_vote]> ballot_box.(votes),
           [VoteReplacedEvent tracking_code_hash now])
     else Ok (ballot_box.(votes), []));
  let commitment :=
    {| voter_commitment := voter_commitment; vote_hash := vote_hash;
       ipfs_hash := ipfs_hash; tracking_code_hash := tracking_code_hash;
       cast_at := now; is_final := true |} in
  '(votes2, count) ←
    (if is_revote
     then Ok (table.upsert votes1 tracking_code_hash commitment,
              ballot_box.(vote_count))
     else
       t ← table.add votes1 tracking_code_hash commitment;
       n ← add_u64 ballot_box.(vote_count) 1;
       Ok (t, n));
  '(reg', voted) ← voter_registry.mark_voted reg now epic_hash;
  Ok (reg',
      write_global st voting
        {| votes := votes2; vote_count := count;
           polling_start := ballot_box.(encrypted_ballot.polling_start);
           polling_end := ballot_box.(encrypted_ballot.polling_end);
           admin := ballot_box.(encrypted_ballot.admin);
           merkle_root := ballot_box.(encrypted_ballot.merkle_root) |},
      replaced ++ voted ++ [VoteCastEvent tracking_code_hash now]).

Definition verify_vote (st : gmap Z BallotBox) (tracking_code_hash : bytes)
  : Result (bool * bytes * u64) :=
  ballot_box ← borrow_global st voting;
  if negb (table.contains ballot_box.(votes) tracking_code_hash) then Ok (false, "", 0)
  else
    vote ← table.borrow ballot_box.(votes) tracking_code_hash;
    let hash := vote.(encrypted_ballot.vote_hash) in
    Ok (vote.(is_final), hash, vote.(cast_at)).

Definition is_polling_active (st : gmap Z BallotBox) (now : u64) : Result bool :=
  ballot_box ← borrow_global st voting;
  Ok ((ballot_box.(encrypted_ballot.polling_start) <=? now)
      && (now <=? ballot_box.(encrypted_ballot.polling_end))).

Definition get_vote_count (st : gmap Z BallotBox) : Result u64 :=
  ballot_box ← borrow_global st voting;
  Ok ballot_box.(vote_count).

Definition update_merkle_root (st : gmap Z BallotBox) (admin : signer.t)
    (merkle_root : bytes)
  : Result (gmap Z BallotBox * list Event) :=
  ballot_box ← borrow_global st voting;
  let admin_addr := signer.address_of admin in
  assert this_module (admin_addr =? ballot_box.(encrypted_ballot.admin)) EUNAUTHORIZED;;
  Ok (write_global st voting
        {| votes := ballot_box.(votes); vote_count := ballot_box.(vote_count);
           polling_start := ballot_box.(encrypted_ballot.polling_start);
           polling_end := ballot_box.(encrypted_ballot.polling_end);
           admin := ballot_box.(encrypted_ballot.admin);
           merkle_root := merkle_root |},
      []).

Definition get_merkle_root (st : gmap Z BallotBox) : Result bytes :=
  ballot_box ← borrow_global st voting;
  Ok ballot_box.(encrypted_ballot.merkle_root).
End functions.

End encrypted_ballot.

(** ** voting::tally_validator *)
Module tally_validator.

Definition this_module : string := "voting::tally_validator".

Definition EPOLLING_NOT_ENDED : Z := 1.
Definition EALREADY_FINALIZED : Z := 2.
Definition EUNAUTHORIZED : Z := 3.
Definition EINVALID_PROOF : Z := 4.
Definition ENOT_FINALIZED : Z := 5.

Record CandidateResult : Type := {
  candidate_id : bytes;
  vote_count : u64;
  percentage : u64;
}.

Record TallyRecord : Type := {
  election_id : bytes;
  results : gmap string CandidateResult;
  total_votes : u64;
  valid_votes : u64;
  invalid_votes : u64;
  polling_end_time : u64;
  tally_start_time : u64;
  tally_end_time : u64;
  is_finalized_flag : bool;
  admin : address;
  result_hash : bytes;
  zkp_proof : bytes;
}.

Section functions.
Context `{NamedAddresses}.

Definition initialize (st : gmap Z TallyRecord) (admin : signer.t)
    (election_id : bytes) (polling_end_time : u64)
  : Result (gmap Z TallyRecord * list Event) :=
  let admin_addr := signer.address_of admin in
  st' ← move_to st (signer.address_of admin)
          {| election_id := election_id; results := ∅; total_votes := 0;
             valid_votes := 0; invalid_votes := 0;
             polling_end_time := polling_end_time; tally_start_time := 0;
             tally_end_time := 0; is_finalized_flag := false; admin := admin_addr;
             result_hash := ""; zkp_proof := "" |};
  Ok (st', []).

Definition start_tally (st : gmap Z TallyRecord) (now : u64) (admin : signer.t)
    (total_votes : u64)
  : Result (gmap Z TallyRecord * list Event) :=
  tally ← borrow_global st voting;
  let admin_addr := signer.address_of admin in
  assert this_module (admin_addr =? tally.(tally_validator.admin)) EUNAUTHORIZED;;
  assert this_module (tally.(tally_validator.polling_end_time) <=? now) EPOLLING_NOT_ENDED;;
  assert this_module (negb tally.(is_finalized_flag)) EALREADY_FINALIZED;;
  let election_id := tally.(tally_validator.election_id) in
  Ok (write_global st voting
        {| election_id := tally.(tally_validator.election_id);
           results := tally.(results);
           total_votes := total_votes;
           valid_votes := tally.(tally_validator.valid_votes);
           invalid_votes := tally.(tally_validator.invalid_votes);
           polling_end_time := tally.(tally_validator.polling_end_time);
           tally_start_time := now;
           tally_end_time := tally.(tally_end_time);
           is_finalized_flag := tally.(is_finalized_flag);
           admin := tally.(tally_validator.admin);
           result_hash := tally.(tally_validator.result_hash);
           zkp_proof := tally.(tally_validator.zkp_proof) |},
      [TallyStartedEvent election_id now total_votes]).

Definition record_result (st : gmap Z TallyRecord) (admin : signer.t)
    (candidate_id : bytes) (vote_count percentage : u64)
  : Result (gmap Z TallyRecord * list Event) :=
  tally ← borrow_global st voting;
  let admin_addr := signer.address_of admin in
  assert this_module (admin_addr =? tally.(tally_validator.admin)) EUNAUTHORIZED;;
  assert this_module (negb tally.(is_finalized_flag)) EALREADY_FINALIZED;;
  let result :=
    {| candidate_id := candidate_id; vote_count := vote_count;
       percentage := percentage |} in
  results' ←
    (if table.contains tally.(results) candidate_id
     then Ok (table.upsert tally.(results) candidate_id result)
     else table.add tally.(results) candidate_id result);
  Ok (write_global st voting
        {| election_id := tally.(tally_validator.election_id);
           results := results';
           total_votes := tally.(tally_validator.total_votes);
           valid_votes := tally.(tally_validator.valid_votes);
           invalid_votes := tally.(tally_validator.invalid_votes);
           polling_end_time := tally.(tally_validator.polling_end_time);
           tally_start_time := tally.(tally_start_time);
           tally_end_time := tally.(tally_end_time);
           is_finalized_flag := tally.(is_finalized_flag);
           admin := tally.(tally_validator.admin);
           result_hash := tally.(tally_validator.result_hash);
           zkp_proof := tally.(tally_validator.zkp_proof) |},
      [ResultPublishedEvent candidate_id vote_count percentage]).

Definition finalize_tally (st : gmap Z TallyRecord) (now : u64) (admin : signer.t)
    (valid_votes invalid_votes : u64) (result_hash zkp_proof : bytes)
  : Result (gmap Z TallyRecord * list Event) :=
  tally ← borrow_global st voting;
  let admin_addr := signer.address_of admin in
  assert this_module (admin_addr =? tally.(tally_validator.admin)) EUNAUTHORIZED;;
  assert this_module (negb tally.(is_finalized_flag)) EALREADY_FINALIZED;;
  let election_id := tally.(tally_validator.election_id) in
  Ok (write_global st voting
        {| election_id := tally.(tally_validator.election_id);
           results := tally.(results);
           total_votes := tally.(tally_validator.total_votes);
           valid_votes := valid_votes;
           invalid_votes := invalid_votes;
           polling_end_time := tally.(tally_validator.polling_end_time);
           tally_start_time := tally.(tally_start_time);
           tally_end_time := now;
           is_finalized_flag := true;
           admin := tally.(tally_validator.admin);
           result_hash := result_hash;
           zkp_proof := zkp_proof |},
      [TallyFinalizedEvent election_id now tally.(tally_validator.total_votes) valid_votes]).

Definition get_candidate_result (st : gmap Z TallyRecord) (candidate_id : bytes)
  : Result (bool * u64 * u64) :=
  tally ← borrow_global st voting;
  if negb (table.contains tally.(results) candidate_id) then Ok (false, 0, 0)
  else
    result ← table.borrow tally.(results) candidate_id;
    Ok (true, result.(tally_validator.vote_count), result.(tally_validator.percentage)).

Definition get_tally_summary (st : gmap Z TallyRecord)
  : Result (u64 * u64 * u64 * bool * u64) :=
  tally ← borrow_global st voting;
  Ok (tally.(tally_validator.total_votes), tally.(tally_validator.valid_votes),
      tally.(tally_validator.invalid_votes),
      tally.(is_finalized_flag), tally.(tally_end_time)).

Definition verify_tally_proof (st : gmap Z TallyRecord) (result_hash : bytes)
  : Result bool :=
  tally ← borrow_global st voting;
  if negb tally.(is_finalized_flag) then Ok false
  else Ok (String.eqb result_hash tally.(tally_validator.result_hash)).

Definition get_zkp_proof (st : gmap Z TallyRecord) : Result bytes :=
  tally ← borrow_global st voting;
  assert this_module tally.(is_finalized_flag) ENOT_FINALIZED;;
  let proof := tally.(tally_validator.zkp_proof) in
  Ok proof.

Definition is_finalized (st : gmap Z TallyRecord) : Result bool :=
  tally ← borrow_global st voting;
  Ok tally.(is_finalized_flag).
End functions.

End tally_validator.

(** ** The ledger: all four resource stores and the event stream *)

Record World : Type := {
  registries : gmap Z voter_registry.Registry;
  ballot_boxes : gmap Z encrypted_ballot.BallotBox;
  boards : gmap Z bulletin_board.BulletinBoard;
  tallies : gmap Z tally_validator.TallyRecord;
  event_log : list Event;
}.

Definition genesis : World :=
  {| registries := ∅; ballot_boxes := ∅; boards := ∅; tallies := ∅; event_log := [] |}.

(** The entry functions of the package with their non-signer arguments. *)
Inductive EntryFunction : Type :=
| RegistryInitialize
| RegisterVoter (epic_hash aadhaar_hash biometric_hash : bytes)
| MarkVoted (epic_hash : bytes)
| ResetVotedStatus (epic_hash : bytes)
| DeactivateVoter (epic_hash : bytes)
| BoardInitialize (election_id : bytes)
| RecordVote (tracking_code_hash commitment : bytes)
| BoardUpdateMerkleProof (tracking_code_hash : bytes) (merkle_proof : list string)
| BoardUpdateMerkleRoot (merkle_root : bytes)
| BallotInitialize (polling_start polling_end : u64)
| CastVote (epic_hash voter_commitment vote_hash ipfs_hash tracking_code_hash : bytes)
| BallotUpdateMerkleRoot (merkle_root : bytes)
| TallyInitialize (election_id : bytes) (polling_end_time : u64)
| StartTally (total_votes : u64)
| RecordResult (candidate_id : bytes) (vote_count percentage : u64)
| FinalizeTally (valid_votes invalid_votes : u64) (result_hash zkp_proof : bytes).

(** A transaction: who signed it, the block time it runs at, and the call. *)
Record Transaction : Type := {
  sender : address;
  block_time : u64;
  payload : EntryFunction;
}.

Section ledger.
Context `{NamedAddresses}.

Definition with_registries (w : World)
    (r : Result (gmap Z voter_registry.Registry * list Event)) : Result World :=
  '(st, ev) ← r;
  Ok {| registries := st; ballot_boxes := w.(ballot_boxes); boards := w.(boards);
        tallies := w.(tallies); event_log := w.(event_log) ++ ev |}.

Definition with_boards (w : World)
    (r : Result (gmap Z bulletin_board.BulletinBoard * list Event)) : Result World :=
  '(st, ev) ← r;
  Ok {| registries := w.(registries); ballot_boxes := w.(ballot_boxes); boards := st;
        tallies := w.(tallies); event_log := w.(event_log) ++ ev |}.

Definition with_ballot_boxes (w : World)
    (r : Result (gmap Z encrypted_ballot.BallotBox * list Event)) : Result World :=
  '(st, ev) ← r;
  Ok {| registries := w.(registries); ballot_boxes := st; boards := w.(boards);
        tallies := w.(tallies); event_log := w.(event_log) ++ ev |}.

Definition with_tallies (w : World)
    (r : Result (gmap Z tally_validator.TallyRecord * list Event)) : Result World :=
  '(st, ev) ← r;
  Ok {| registries := w.(registries); ballot_boxes := w.(ballot_boxes);
        boards := w.(boards); tallies := st; event_log := w.(event_log) ++ ev |}.

(** Running one transaction against the ledger. *)
Definition run (w : World) (tx : Transaction) : Result World :=
  let who := tx.(sender) in
  let now := tx.(block_time) in
  match tx.(payload) with
  | RegistryInitialize =>
      with_registries w (voter_registry.initialize w.(registries) who)
  | RegisterVoter e a b =>
      with_registries w (voter_registry.register_voter w.(registries) now who e a b)
  | MarkVoted e =>
      with_registries w (voter_registry.mark_voted w.(registries) now e)
  | ResetVotedStatus e =>
      with_registries w (voter_registry.reset_voted_status w.(registries) e)
  | DeactivateVoter e =>
      with_registries w (voter_registry.deactivate_voter w.(registries) who e)
  | BoardInitialize eid =>
      with_boards w (bulletin_board.initialize w.(boards) who eid)
  | RecordVote code c =>
      with_boards w (bulletin_board.record_vote w.(boards) now who code c)
  | BoardUpdateMerkleProof code p =>
      with_boards w (bulletin_board.update_merkle_proof w.(boards) who code p)
  | BoardUpdateMerkleRoot root =>
      with_boards w (bulletin_board.update_merkle_root w.(boards) who root)
  | BallotInitialize s e =>
      with_ballot_boxes w (encrypted_ballot.initialize w.(ballot_boxes) who s e)
  | CastVote e vc vh ipfs code =>
      '(reg, st, ev) ←
        encrypted_ballot.cast_vote w.(registries) w.(ballot_boxes) now who e vc vh ipfs code;
      Ok {| registries := reg; ballot_boxes := st; boards := w.(boards);
            tallies := w.(tallies); event_log := w.(event_log) ++ ev |}
  | BallotUpdateMerkleRoot root =>
      with_ballot_boxes w (encrypted_ballot.update_merkle_root w.(ballot_boxes) who root)
  | TallyInitialize eid e =>
      with_tallies w (tally_validator.initialize w.(tallies) who eid e)
  | StartTally total =>
      with_tallies w (tally_validator.start_tally w.(tallies) now who total)
  | RecordResult cid n pct =>
      with_tallies w (tally_validator.record_result w.(tallies) who cid n pct)
  | FinalizeTally valid invalid h p =>
      with_tallies w (tally_validator.finalize_tally w.(tallies) now who valid invalid h p)
  end.

(** A transaction commits all of its writes or, when it aborts, none. *)
Definition commit (w : World) (tx : Transaction) : World :=
  match run w tx with
  | Ok w' => w'
  | Err _ => w
  end.

Definition replay (w : World) (txs : list Transaction) : World :=
  fold_left commit txs w.

(** Tracking codes of the [cast_vote] transactions of a history that committed. *)
Fixpoint cast_codes (w : World) (txs : list Transaction) : list string :=
  match txs with
  | [] => []
  | tx :: rest =>
      match tx.(payload), run w tx with
      | CastVote _ _ _ _ code, Ok _ => code :: cast_codes (commit w tx) rest
      | _, _ => cast_codes (commit w tx) rest
      end
  end.

(** Number of [finalize_tally] transactions of a history that committed. *)
Fixpoint finalize_count (w : World) (txs : list Transaction) : nat :=
  match txs with
  | [] => 0%nat
  | tx :: rest =>
      match tx.(payload), run w tx with
      | FinalizeTally _ _ _ _, Ok _ => S (finalize_count (commit w tx) rest)
      | _, _ => finalize_count (commit w tx) rest
      end
  end.
End ledger.

(** ** Auxiliary definitions used in the statements *)

(** A record is eligible when it is active and has not voted. *)
Definition eligible_record (v : voter_registry.VoterRegistration) : bool :=
  v.(voter_registry.is_active) && negb v.(voter_registry.has_voted).

(** The commitment [cast_vote] stores for its arguments at time [now]. *)
Definition final_commitment (voter_commitment vote_hash ipfs_hash tracking_code_hash : bytes)
    (now : u64) : encrypted_ballot.VoteCommitment :=
  {| encrypted_ballot.voter_commitment := voter_commitment;
     encrypted_ballot.vote_hash := vote_hash;
     encrypted_ballot.ipfs_hash := ipfs_hash;
     encrypted_ballot.tracking_code_hash := tracking_code_hash;
     encrypted_ballot.cast_at := now;
     encrypted_ballot.is_final := true |}.

(** The tally record at [@voting] has been finalized. *)
Definition tally_finalized `{NamedAddresses} (w : World) : bool :=
  match w.(tallies) !! voting with
  | Some t => t.(tally_validator.is_finalized_flag)
  | None => false
  end.

(** The result hash and proof the tally record at [@voting] holds; a record
    that does not exist yet will be created with both empty. *)
Definition tally_proof `{NamedAddresses} (w : World) : bytes * bytes :=
  match w.(tallies) !! voting with
  | Some t => (t.(tally_validator.result_hash), t.(tally_validator.zkp_proof))
  | None => ("", "")
  end.

(** ** A concrete deployment, used to exercise the statements *)

Definition demo_addresses : NamedAddresses := {| voting := 1 |}.

Definition tx (who : address) (now : u64) (f : EntryFunction) : Transaction :=
  {| sender := who; block_time := now; payload := f |}.

(** The package account [1] initialises the four modules; polling runs from
    time 100 to time 200; voter [h1] registers at time 10. *)
Definition demo_setup : list Transaction :=
  [ tx 1 0 RegistryInitialize;
    tx 1 0 (BoardInitialize "E2025");
    tx 1 0 (BallotInitialize 100 200);
    tx 1 0 (TallyInitialize "E2025" 200) ].

Definition demo_world : World :=
  @replay demo_addresses genesis (demo_setup ++ [tx 5 10 (RegisterVoter "h1" "a1" "b1")]).

(** The registration of [h1] and the registry holding it, as [register_voter]
    leaves them on the demo deployment. *)
Definition demo_voter : voter_registry.VoterRegistration :=
  {| voter_registry.epic_hash := "h1";
     voter_registry.aadhaar_hash := "a1";
     voter_registry.biometric_hash := "b1";
     voter_registry.registered_at := 10;
     voter_registry.is_active := true;
     voter_registry.is_struck_off := true;
     voter_registry.has_voted := false |}.

Definition demo_registry : voter_registry.Registry :=
  {| voter_registry.voters := <["h1" := demo_voter]> ∅;
     voter_registry.total_registered := 1;
     voter_registry.admin := 1 |}.

Definition empty_registry : voter_registry.Registry :=
  {| voter_registry.voters := ∅;
     voter_registry.total_registered := 0;
     voter_registry.admin := 1 |}.

(** The ballot box of the demo deployment as [initialize] leaves it. *)
Definition demo_box : encrypted_ballot.BallotBox :=
  {| encrypted_ballot.votes := ∅;
     encrypted_ballot.vote_count := 0;
     encrypted_ballot.polling_start := 100;
     encrypted_ballot.polling_end := 200;
     encrypted_ballot.admin := 1;
     encrypted_ballot.merkle_root := "" |}.

(** ** Proof automation *)

(** Peel one layer of a monadic computation known to have returned. *)
Ltac peel_as H a Ha :=
  lazymatch type of H with
  | (?m ≫= _) = Ok _ => destruct m as [a|] eqn:Ha; [simpl in H | discriminate H]
  end.

Tactic Notation "peel" hyp(H) "as" simple_intropattern(a) ident(Ha) := peel_as H a Ha.

(** Open a committed [run] into the call it dispatched to. *)
Ltac open_run H :=
  unfold with_registries, with_boards, with_ballot_boxes, with_tallies in H;
  let out := fresh "out" in
  let Hcall := fresh "Hcall" in
  peel H as out Hcall;
  repeat match goal with p : (_ * _)%type |- _ => destruct p end;
  simpl in H; injection H as <-.

(** ** Definitions for the statements about histories *)

(** The record [register_voter] inserts. *)
Definition new_registration (epic_hash aadhaar_hash biometric_hash : bytes) (now : u64)
  : voter_registry.VoterRegistration :=
  {| voter_registry.epic_hash := epic_hash;
     voter_registry.aadhaar_hash := aadhaar_hash;
     voter_registry.biometric_hash := biometric_hash;
     voter_registry.registered_at := now;
     voter_registry.is_active := true;
     voter_registry.is_struck_off := true;
     voter_registry.has_voted := false |}.

(** The voter a call names, when it names one. *)
Definition voter_of (f : EntryFunction) : option string :=
  match f with
  | RegisterVoter e _ _ | MarkVoted e | ResetVotedStatus e | DeactivateVoter e
  | CastVote e _ _ _ _ => Some e
  | _ => None
  end.

(** The calls that compare the signer with a stored admin. *)
Definition admin_checked (f : EntryFunction) : bool :=
  match f with
  | DeactivateVoter _ | BallotUpdateMerkleRoot _ | StartTally _ | RecordResult _ _ _
  | FinalizeTally _ _ _ _ => true
  | _ => false
  end.

(** The record [record_vote] writes. *)
Definition published_record (commitment : bytes) (now : u64) : bulletin_board.VoteRecord :=
  {| bulletin_board.commitment := commitment;
     bulletin_board.timestamp := now;
     bulletin_board.is_valid := true;
     bulletin_board.merkle_proof := [] |}.

(** Tracking codes of the vote-cast events of an event stream, in order. *)
Fixpoint cast_event_codes (log : list Event) : list string :=
  match log with
  | [] => []
  | VoteCastEvent code _ :: rest => code :: cast_event_codes rest
  | _ :: rest => cast_event_codes rest
  end.

(** Number of vote-replaced events of an event stream. *)
Fixpoint replaced_events (log : list Event) : nat :=
  match log with
  | [] => 0%nat
  | VoteReplacedEvent _ _ :: rest => S (replaced_events rest)
  | _ :: rest => replaced_events rest
  end.

(** The call is a [cast_vote] under a tracking code the ballot box at
    [@voting] already stores. *)
Definition targets_stored_code `{NamedAddresses} (w : World) (f : EntryFunction) : bool :=
  match f with
  | CastVote _ _ _ _ code =>
      match w.(ballot_boxes) !! voting with
      | Some bb => table.contains bb.(encrypted_ballot.votes) code
      | None => false
      end
  | _ => false
  end.

(** The distinct-vote counter of the ballot box at [@voting], 0 before the
    box exists. *)
Definition counted_votes `{NamedAddresses} (w : World) : Z :=
  match w.(ballot_boxes) !! voting with
  | Some bb => bb.(encrypted_ballot.vote_count)
  | None => 0
  end.

(** Split a call known to have returned along every test it made. *)
Ltac split_call H :=
  unfold mbind, Result_bind, result_bind, assert, borrow_global, move_to, add_u64,
    table.contains, table.add, table.borrow, table.upsert in H;
  repeat match type of H with
         | context [match ?x with _ => _ end] =>
             let E := fresh "E" in destruct x eqn:E; simpl in H; try discriminate H
         | context [if ?x then _ else _] =>
             let E := fresh "E" in destruct x eqn:E; simpl in H; try discriminate H
         end.

(** The demo deployment after [h1] cast [v1] under [T1] at time 150, and the
    same with a second registered voter [h2]. *)
Definition demo_cast : Transaction := tx 5 150 (CastVote "h1" "vc" "v1" "ipfs" "T1").

Definition demo_history : list Transaction :=
  demo_setup ++ [tx 5 10 (RegisterVoter "h1" "a1" "b1"); demo_cast].

Definition demo_voted : World := @replay demo_addresses genesis demo_history.

Definition demo_two_voters : World :=
  @replay demo_addresses demo_voted [tx 6 151 (RegisterVoter "h2" "a2" "b2")].

Definition demo_voted_box : encrypted_ballot.BallotBox :=
  {| encrypted_ballot.votes := <["T1" := final_commitment "vc" "v1" "ipfs" "T1" 150]> ∅;
     encrypted_ballot.vote_count := 1;
     encrypted_ballot.polling_start := 100;
     encrypted_ballot.polling_end := 200;
     encrypted_ballot.admin := 1;
     encrypted_ballot.merkle_root := "" |}.

(** The demo deployment after the commitment of [T1] was published on the
    bulletin board, and the board holding it. *)
Definition demo_published_history : list Transaction :=
  demo_history ++ [tx 9 150 (RecordVote "T1" "v1")].

Definition demo_published : World := @replay demo_addresses genesis demo_published_history.

Definition demo_board : bulletin_board.BulletinBoard :=
  {| bulletin_board.records := <["T1" := published_record "v1" 150]> ∅;
     bulletin_board.total_records := 1;
     bulletin_board.merkle_root := "";
     bulletin_board.election_id := "E2025" |}.

(** The tally record of the demo deployment as [initialize] leaves it. *)
Definition demo_tally : tally_validator.TallyRecord :=
  {| tally_validator.election_id := "E2025";
     tally_validator.results := ∅;
     tally_validator.total_votes := 0;
     tally_validator.valid_votes := 0;
     tally_validator.invalid_votes := 0;
     tally_validator.polling_end_time := 200;
     tally_validator.tally_start_time := 0;
     tally_validator.tally_end_time := 0;
     tally_validator.is_finalized_flag := false;
     tally_validator.admin := 1;
     tally_validator.result_hash := "";
     tally_validator.zkp_proof := "" |}.

(** ** Reasoning about aborting computations *)

Lemma assert_Ok (m : string) (c : bool) (code : Z) (u : unit) :
  assert m c code = Ok u -> c = true.
Proof. destruct c; simpl; [reflexivity | discriminate]. Qed.

Lemma borrow_global_Some {R : Type} (st : gmap Z R) (a : Z) (r : R) :
  st !! a = Some r -> borrow_global st a = Ok r.
Proof. intros E. unfold borrow_global. rewrite E. reflexivity. Qed.

Lemma borrow_global_Ok {R : Type} (st : gmap Z R) (a : Z) (r : R) :
  borrow_global st a = Ok r -> st !! a = Some r.
Proof. unfold borrow_global. destruct (st !! a); [congruence | discriminate]. Qed.

Lemma add_u64_Ok (a b c : Z) : add_u64 a b = Ok c -> c = a + b /\ a + b <= MAX_U64.
Proof.
  unfold add_u64. destruct (a + b <=? MAX_U64) eqn:E; [|discriminate].
  intros [= <-]. apply Z.leb_le in E. auto.
Qed.

Lemma add_u64_fits (a b : Z) : a + b <= MAX_U64 -> add_u64 a b = Ok (a + b).
Proof. intros L. unfold add_u64. apply Z.leb_le in L. rewrite L. reflexivity. Qed.

Lemma contains_false {V : Type} (t : gmap string V) (k : string) :
  table.contains t k = false <-> t !! k = None.
Proof. unfold table.contains. destruct (t !! k); split; congruence. Qed.

(** ** Properties of the voter registry *)
Module registry_facts.
Import voter_registry.

Section facts.
Context `{NamedAddresses}.

Lemma is_voter_eligible_eq (st : gmap Z Registry) (r : Registry) (x : string) :
st !! voting = Some r ->
is_voter_eligible st x =
  Ok (match r.(voters) !! x with Some v => eligible_record v | None => false end).
Proof.
intros Hr. unfold is_voter_eligible. rewrite (borrow_global_Some _ _ _ Hr). simpl.
unfold table.contains, table.borrow.
destruct (voters r !! x); reflexivity.
Qed.

Lemma register_voter_Ok st now s x a b st' ev :
register_voter st now s x a b = Ok (st', ev) ->
exists r, st !! voting = Some r /\ r.(voters) !! x = None /\
  r.(total_registered) + 1 <= MAX_U64 /\
  ev = [RegistrationEvent x now] /\
  st' = <[voting :=
           {| voters := <[x := {| epic_hash := x; aadhaar_hash := a; biometric_hash := b;
                                  registered_at := now; is_active := true;
                                  is_struck_off := true; has_voted := false |}]>
                          r.(voters);
              total_registered := r.(total_registered) + 1;
              admin := r.(admin) |}]> st.
Proof.
unfold register_voter. intros Hx.
peel Hx as r Hr. apply borrow_global_Ok in Hr.
peel Hx as u Hfree. apply assert_Ok, negb_true_iff, contains_false in Hfree.
peel Hx as t Ht. unfold table.add in Ht. rewrite Hfree in Ht. injection Ht as <-.
peel Hx as n Hn. apply add_u64_Ok in Hn as [-> Hle].
injection Hx as <- <-. exists r. auto.
Qed.

Lemma register_voter_fresh st r now s x a b :
st !! voting = Some r -> r.(voters) !! x = None ->
r.(total_registered) + 1 <= MAX_U64 ->
is_ok (register_voter st now s x a b) = true.
Proof.
intros Hr Hx Hle. unfold register_voter.
rewrite (borrow_global_Some _ _ _ Hr). simpl.
unfold table.contains, table.add. rewrite Hx. simpl.
rewrite (add_u64_fits _ _ Hle). reflexivity.
Qed.

Lemma register_voter_taken st r now s x a b :
st !! voting = Some r -> is_Some (r.(voters) !! x) ->
register_voter st now s x a b = Err (Abort this_module EALREADY_REGISTERED).
Proof.
intros Hr [v Hx]. unfold register_voter.
rewrite (borrow_global_Some _ _ _ Hr). simpl.
unfold table.contains. rewrite Hx. reflexivity.
Qed.

Lemma mark_voted_eq st r now x :
st !! voting = Some r ->
mark_voted st now x =
  match r.(voters) !! x with
  | Some v => Ok (<[voting := set_voters (<[x := set_has_voted true v]> r.(voters)) r]> st,
                  [VotingEvent x now])
  | None => Err (Abort this_module ENOT_REGISTERED)
  end.
Proof.
intros Hr. unfold mark_voted. rewrite (borrow_global_Some _ _ _ Hr). simpl.
unfold table.contains, table.borrow. destruct (voters r !! x); reflexivity.
Qed.

Lemma reset_voted_status_eq st r x :
st !! voting = Some r ->
reset_voted_status st x =
  match r.(voters) !! x with
  | Some v => Ok (<[voting := set_voters (<[x := set_has_voted false v]> r.(voters)) r]> st,
                  [])
  | None => Err (Abort this_module ENOT_REGISTERED)
  end.
Proof.
intros Hr. unfold reset_voted_status. rewrite (borrow_global_Some _ _ _ Hr). simpl.
unfold table.contains, table.borrow. destruct (voters r !! x); reflexivity.
Qed.

Lemma register_voter_eq st r now s x a b :
st !! voting = Some r -> r.(voters) !! x = None ->
r.(total_registered) + 1 <= MAX_U64 ->
register_voter st now s x a b =
  Ok (<[voting :=
         {| voters := <[x := {| epic_hash := x; aadhaar_hash := a; biometric_hash := b;
                                registered_at := now; is_active := true;
                                is_struck_off := true; has_voted := false |}]>
                        r.(voters);
            total_registered := r.(total_registered) + 1;
            admin := r.(admin) |}]> st,
      [RegistrationEvent x now]).
Proof.
intros Hr Hx Hle. unfold register_voter.
rewrite (borrow_global_Some _ _ _ Hr). simpl.
unfold table.contains, table.add. rewrite Hx. simpl.
rewrite (add_u64_fits _ _ Hle). reflexivity.
Qed.

(** C7. [is_voter_eligible] is a query (it returns no new state and never
  aborts on an initialised registry) that answers true exactly when a record
  exists for [x] that is active and has not voted.  It answers true right
  after [register_voter x], false right after [mark_voted x], and true again
  after [reset_voted_status x] when the record is active.  These calls do
  commit: on a registered [x], [mark_voted] and [reset_voted_status] commit
  and leave the eligibility false, respectively the record's [is_active];
  for an absent [x] and a counter with room, [register_voter], then
  [mark_voted], then [reset_voted_status] all commit, with eligibility
  true, false and true again. *)
Theorem eligibility_lifecycle (st : gmap Z Registry) (r : Registry) (x : string) :
st !! voting = Some r ->
(is_voter_eligible st x = Ok true <->
   exists v, r.(voters) !! x = Some v /\ v.(is_active) = true /\ v.(has_voted) = false)
/\ (exists b, is_voter_eligible st x = Ok b)
/\ (forall now s a b st' ev,
      register_voter st now s x a b = Ok (st', ev) -> is_voter_eligible st' x = Ok true)
/\ (forall now st' ev,
      mark_voted st now x = Ok (st', ev) -> is_voter_eligible st' x = Ok false)
/\ (forall st' ev v,
      reset_voted_status st x = Ok (st', ev) ->
      r.(voters) !! x = Some v -> v.(is_active) = true ->
      is_voter_eligible st' x = Ok true)
/\ (forall v now,
      r.(voters) !! x = Some v ->
      exists st',
        mark_voted st now x = Ok (st', [VotingEvent x now])
        /\ is_voter_eligible st' x = Ok false)
/\ (forall v,
      r.(voters) !! x = Some v ->
      exists st',
        reset_voted_status st x = Ok (st', [])
        /\ is_voter_eligible st' x = Ok v.(is_active))
/\ (r.(voters) !! x = None -> r.(total_registered) + 1 <= MAX_U64 ->
    forall t0 s a b t1,
    exists st1 st2 st3,
      register_voter st t0 s x a b = Ok (st1, [RegistrationEvent x t0])
      /\ is_voter_eligible st1 x = Ok true
      /\ mark_voted st1 t1 x = Ok (st2, [VotingEvent x t1])
      /\ is_voter_eligible st2 x = Ok false
      /\ reset_voted_status st2 x = Ok (st3, [])
      /\ is_voter_eligible st3 x = Ok true).
Proof.
intros Hr. rewrite (is_voter_eligible_eq _ _ _ Hr).
split; [|split; [|split; [|split; [|split; [|split; [|split]]]]]].
- split.
  + intros [= Hx]. destruct (voters r !! x) as [v|]; [|discriminate].
    exists v. unfold eligible_record in Hx.
    apply andb_true_iff in Hx as [Ha Hv]. apply negb_true_iff in Hv. auto.
  + intros (v & -> & Ha & Hv). unfold eligible_record. rewrite Ha, Hv. reflexivity.
- eauto.
- intros now s a b st' ev Hreg.
  apply register_voter_Ok in Hreg as (r0 & Hr0 & _ & _ & _ & ->).
  erewrite is_voter_eligible_eq by apply lookup_insert_eq.
  simpl. rewrite lookup_insert_eq. reflexivity.
- intros now st' ev Hm. rewrite (mark_voted_eq _ _ _ _ Hr) in Hm.
  destruct (voters r !! x) as [v|]; [|discriminate]. injection Hm as <- <-.
  erewrite is_voter_eligible_eq by apply lookup_insert_eq.
  simpl. rewrite lookup_insert_eq. unfold eligible_record. simpl.
  apply f_equal, andb_false_r.
- intros st' ev v Hm Hv Ha. rewrite (reset_voted_status_eq _ _ _ Hr), Hv in Hm.
  injection Hm as <- <-.
  erewrite is_voter_eligible_eq by apply lookup_insert_eq.
  simpl. rewrite lookup_insert_eq. unfold eligible_record. simpl.
  rewrite Ha. reflexivity.
- intros v now Hv. rewrite (mark_voted_eq _ _ _ _ Hr), Hv.
  eexists. split; [reflexivity|].
  erewrite is_voter_eligible_eq by apply lookup_insert_eq.
  simpl. rewrite lookup_insert_eq. unfold eligible_record. simpl.
  rewrite andb_false_r. reflexivity.
- intros v Hv. rewrite (reset_voted_status_eq _ _ _ Hr), Hv.
  eexists. split; [reflexivity|].
  erewrite is_voter_eligible_eq by apply lookup_insert_eq.
  simpl. rewrite lookup_insert_eq. unfold eligible_record. simpl.
  rewrite andb_true_r. reflexivity.
- intros Hx Hroom t0 s a b t1.
  rewrite (register_voter_eq _ _ t0 s x a b Hr Hx Hroom).
  eexists _, _, _. split; [reflexivity|].
  split.
  { erewrite is_voter_eligible_eq by apply lookup_insert_eq.
    simpl. rewrite lookup_insert_eq. reflexivity. }
  split.
  { erewrite mark_voted_eq by apply lookup_insert_eq.
    simpl. rewrite lookup_insert_eq. reflexivity. }
  split.
  { erewrite is_voter_eligible_eq by apply lookup_insert_eq.
    simpl. rewrite lookup_insert_eq. reflexivity. }
  split.
  { erewrite reset_voted_status_eq by apply lookup_insert_eq.
    simpl. rewrite lookup_insert_eq. reflexivity. }
  erewrite is_voter_eligible_eq by apply lookup_insert_eq.
  simpl. rewrite lookup_insert_eq. reflexivity.
Qed.
End facts.

(** The lifecycle run on the demo deployment: on the empty registry [h1]
    registers at 10, is marked as voted at 150 and reset; the three calls
    commit and the eligibility is true, false, true. *)
Lemma eligibility_lifecycle_witness :
  let st0 := <[1 := empty_registry]> ∅ in
  @is_voter_eligible demo_addresses st0 "h1" = Ok false
  /\ exists st1 st2 st3,
       @register_voter demo_addresses st0 10 5 "h1" "a1" "b1"
         = Ok (st1, [RegistrationEvent "h1" 10])
       /\ @is_voter_eligible demo_addresses st1 "h1" = Ok true
       /\ @mark_voted demo_addresses st1 150 "h1" = Ok (st2, [VotingEvent "h1" 150])
       /\ @is_voter_eligible demo_addresses st2 "h1" = Ok false
       /\ @reset_voted_status demo_addresses st2 "h1" = Ok (st3, [])
       /\ @is_voter_eligible demo_addresses st3 "h1" = Ok true.
Proof.
  intros st0.
  destruct (@eligibility_lifecycle demo_addresses st0 empty_registry "h1" eq_refl)
    as (_ & _ & _ & _ & _ & _ & _ & Hrun).
  split; [vm_compute; reflexivity|].
  apply (Hrun eq_refl).
  vm_compute. discriminate.
Defined.
End registry_facts.

(** ** Properties of the ballot box *)
Module ballot_facts.
Import encrypted_ballot.

Section facts.
Context `{NamedAddresses}.

(** What a committed [cast_vote] checked and wrote. *)
Lemma cast_vote_Ok reg st now who e vc vh ipfs code reg' st' ev :
  cast_vote reg st now who e vc vh ipfs code = Ok (reg', st', ev) ->
  exists bb voted,
    st !! voting = Some bb /\
    bb.(polling_start) <= now <= bb.(polling_end) /\
    voter_registry.is_voter_eligible reg e = Ok true /\
    voter_registry.mark_voted reg now e = Ok (reg', voted) /\
    (bb.(votes) !! code = None -> bb.(vote_count) + 1 <= MAX_U64) /\
    st' = <[voting :=
             {| votes := <[code := final_commitment vc vh ipfs code now]> bb.(votes);
                vote_count := (if table.contains bb.(votes) code
                               then bb.(vote_count) else bb.(vote_count) + 1);
                polling_start := bb.(polling_start);
                polling_end := bb.(polling_end);
                admin := bb.(admin);
                merkle_root := bb.(merkle_root) |}]> st /\
    ev = (if table.contains bb.(votes) code then [VoteReplacedEvent code now] else [])
           ++ voted ++ [VoteCastEvent code now].
Proof.
  unfold cast_vote. intros Hx.
  peel Hx as bb Hbb. apply borrow_global_Ok in Hbb.
  peel Hx as u1 Hs. apply assert_Ok, Z.leb_le in Hs.
  peel Hx as u2 He. apply assert_Ok, Z.leb_le in He.
  peel Hx as el Hel. peel Hx as u3 Hel'. apply assert_Ok in Hel'. subst el.
  unfold table.contains, table.borrow, table.add, table.upsert in *.
  destruct (votes bb !! code) as [old|] eqn:Hold; simpl in Hx.
  - peel Hx as [reg1 voted] Hm. injection Hx as <- <- <-.
    exists bb, voted. rewrite insert_insert_eq, Hold.
    repeat split; auto; try lia. intros [=].
  - rewrite Hold in Hx. simpl in Hx.
    peel Hx as [votes2 count] Hstore.
    peel Hstore as n Hn. apply add_u64_Ok in Hn as [-> Hle].
    injection Hstore as <- <-.
    peel Hx as [reg1 voted] Hm. injection Hx as <- <- <-.
    exists bb, voted. rewrite Hold. repeat split; auto; try lia.
Qed.

(** When every precondition holds, [cast_vote] commits. *)
Lemma cast_vote_succeeds reg st bb now who e vc vh ipfs code :
  st !! voting = Some bb ->
  bb.(polling_start) <= now <= bb.(polling_end) ->
  voter_registry.is_voter_eligible reg e = Ok true ->
  (bb.(votes) !! code = None -> bb.(vote_count) + 1 <= MAX_U64) ->
  is_ok (cast_vote reg st now who e vc vh ipfs code) = true.
Proof.
  intros Hbb [Hs He] Hel Hroom. unfold cast_vote.
  rewrite (borrow_global_Some _ _ _ Hbb). simpl.
  apply Z.leb_le in Hs, He. rewrite Hs, He. simpl. rewrite Hel. simpl.
  assert (exists out, voter_registry.mark_voted reg now e = Ok out) as [[reg1 voted] Hm].
  { unfold voter_registry.is_voter_eligible in Hel. peel Hel as r Hr.
    apply borrow_global_Ok in Hr.
    rewrite (registry_facts.mark_voted_eq _ _ _ _ Hr).
    unfold table.contains in Hel.
    destruct (voter_registry.voters r !! e); [eauto | discriminate]. }
  unfold table.contains, table.borrow, table.add, table.upsert.
  destruct (votes bb !! code) as [old|] eqn:Hold; simpl.
  - rewrite Hm. reflexivity.
  - rewrite Hold. simpl. rewrite (add_u64_fits _ _ (Hroom eq_refl)). simpl.
    rewrite Hm. reflexivity.
Qed.

Lemma verify_vote_eq st bb code :
  st !! voting = Some bb ->
  verify_vote st code =
    Ok (match bb.(votes) !! code with
        | Some c => (c.(is_final), c.(vote_hash), c.(cast_at))
        | None => (false, "", 0)
        end).
Proof.
  intros Hbb. unfold verify_vote. rewrite (borrow_global_Some _ _ _ Hbb). simpl.
  unfold table.contains, table.borrow. destruct (votes bb !! code); reflexivity.
Qed.

(** C3, as the code has it.  The polling window is the closed interval
    [polling_start, polling_end]: on an initialised ballot box [cast_vote]
    aborts with EPOLLING_NOT_STARTED when [now < polling_start], with
    EPOLLING_ENDED when [polling_start <= now] and [polling_end < now], and
    commits at every [now] of the window, its two ends included, when the
    voter is eligible and the counter has room; [is_polling_active] answers
    true exactly for [polling_start <= now <= polling_end]. *)
Theorem polling_window_closed reg st bb now who e vc vh ipfs code :
  st !! voting = Some bb ->
  (now < bb.(polling_start) ->
     cast_vote reg st now who e vc vh ipfs code = Err (Abort this_module EPOLLING_NOT_STARTED))
  /\ (bb.(polling_start) <= now -> bb.(polling_end) < now ->
     cast_vote reg st now who e vc vh ipfs code = Err (Abort this_module EPOLLING_ENDED))
  /\ (bb.(polling_start) <= now <= bb.(polling_end) ->
      voter_registry.is_voter_eligible reg e = Ok true ->
      (bb.(votes) !! code = None -> bb.(vote_count) + 1 <= MAX_U64) ->
      is_ok (cast_vote reg st now who e vc vh ipfs code) = true)
  /\ (is_polling_active st now = Ok true <->
      bb.(polling_start) <= now <= bb.(polling_end)).
Proof.
  intros Hbb.
  assert (is_polling_active st now
          = Ok ((bb.(polling_start) <=? now) && (now <=? bb.(polling_end)))) as Hactive.
  { unfold is_polling_active. rewrite (borrow_global_Some _ _ _ Hbb). reflexivity. }
  split; [|split; [|split]].
  - intros Hlt. unfold cast_vote. rewrite (borrow_global_Some _ _ _ Hbb). simpl.
    apply Z.leb_gt in Hlt. rewrite Hlt. reflexivity.
  - intros Hs Hgt. unfold cast_vote. rewrite (borrow_global_Some _ _ _ Hbb). simpl.
    apply Z.leb_le in Hs. apply Z.leb_gt in Hgt. rewrite Hs, Hgt. reflexivity.
  - intros Hin Hel Hroom. eapply cast_vote_succeeds; eauto.
  - rewrite Hactive. split.
    + intros [= Hb]. apply andb_true_iff in Hb as [Hs He].
      apply Z.leb_le in Hs, He. auto.
    + intros [Hs He]. apply Z.leb_le in Hs, He. rewrite Hs, He. reflexivity.
Qed.

(** What two committed [cast_vote] calls under one tracking code leave
    behind: [verify_vote] returns the second vote as final; the second call
    emits a replace event, leaves the counter alone, and writes its
    commitment into the table slot that held the first one. *)
Lemma last_vote_overwrites
    reg0 st0 t1 who1 e1 vc1 v1 ipfs1 reg1 st1 ev1
    reg1' t2 who2 e2 vc2 v2 ipfs2 reg2 st2 ev2 code :
  cast_vote reg0 st0 t1 who1 e1 vc1 v1 ipfs1 code = Ok (reg1, st1, ev1) ->
  cast_vote reg1' st1 t2 who2 e2 vc2 v2 ipfs2 code = Ok (reg2, st2, ev2) ->
  verify_vote st2 code = Ok (true, v2, t2)
  /\ (exists bb1 bb2,
        st1 !! voting = Some bb1 /\ st2 !! voting = Some bb2 /\
        bb1.(votes) !! code = Some (final_commitment vc1 v1 ipfs1 code t1) /\
        bb2.(votes) = <[code := final_commitment vc2 v2 ipfs2 code t2]> bb1.(votes) /\
        bb2.(vote_count) = bb1.(vote_count))
  /\ In (VoteReplacedEvent code t2) ev2.
Proof.
  intros H1 H2.
  apply cast_vote_Ok in H1 as (bb0 & voted1 & Hbb0 & _ & _ & _ & _ & -> & _).
  apply cast_vote_Ok in H2 as (bb1 & voted2 & Hbb1 & _ & _ & _ & _ & -> & ->).
  rewrite lookup_insert_eq in Hbb1. injection Hbb1 as <-.
  split; [|split].
  - erewrite verify_vote_eq by apply lookup_insert_eq.
    simpl. rewrite lookup_insert_eq. reflexivity.
  - eexists _, _. split; [apply lookup_insert_eq|].
    split; [apply lookup_insert_eq|]. simpl.
    rewrite lookup_insert_eq. repeat split.
    unfold table.contains. rewrite lookup_insert_eq. reflexivity.
  - simpl. unfold table.contains. rewrite lookup_insert_eq. simpl. auto.
Qed.
End facts.

(** Polling on the demo deployment runs from 100 to 200: a cast at 200, the
    end of the window, commits, and polling is reported active then. *)
Lemma cast_at_polling_end_commits :
  polling_end <$> (demo_world.(ballot_boxes) !! 1) = Some 200
  /\ @is_polling_active demo_addresses demo_world.(ballot_boxes) 200 = Ok true
  /\ is_ok (@cast_vote demo_addresses demo_world.(registries) demo_world.(ballot_boxes)
              200 5 "h1" "vc" "v1" "ipfs" "T1") = true.
Proof. vm_compute. auto. Qed.

Lemma polling_window_closed_witness :
  @cast_vote demo_addresses demo_world.(registries) demo_world.(ballot_boxes)
     99 5 "h1" "vc" "v1" "ipfs" "T1" = Err (Abort this_module EPOLLING_NOT_STARTED)
  /\ is_ok (@cast_vote demo_addresses demo_world.(registries) demo_world.(ballot_boxes)
              100 5 "h1" "vc" "v1" "ipfs" "T1") = true.
Proof.
  split.
  - refine (proj1 (@polling_window_closed demo_addresses demo_world.(registries)
                     demo_world.(ballot_boxes) demo_box 99 5 "h1" "vc" "v1" "ipfs" "T1"
                     _) _).
    + vm_compute. reflexivity.
    + vm_compute. reflexivity.
  - refine (proj1 (proj2 (proj2
             (@polling_window_closed demo_addresses demo_world.(registries)
                demo_world.(ballot_boxes) demo_box 100 5 "h1" "vc" "v1" "ipfs" "T1"
                _))) _ _ _).
    + vm_compute. reflexivity.
    + vm_compute. split; discriminate.
    + vm_compute. reflexivity.
    + intros _. vm_compute. discriminate.
Defined.

(** C2, at the failing input.  On the demo deployment [h1] casts [v1] under
    [T1] at 150, the voted flag is reset, and [h1] casts [v2] under [T1] at
    170.  After the first cast [verify_vote] reports [v1] as final.  After
    the second it reports [(true, v2, 170)], and the table holds the [v2]
    commitment alone: [cast_vote] marked the [v1] commitment as not final
    and then overwrote it in the same slot.  Neither the stores nor the
    event stream depend on what the first vote hash was, so the superseded
    commitment cannot be retrieved. *)
Theorem superseded_vote_not_retained :
  let history v :=
    [ tx 5 150 (CastVote "h1" "vc" v "ipfs" "T1");
      tx 5 160 (ResetVotedStatus "h1");
      tx 5 170 (CastVote "h1" "vc" "v2" "ipfs" "T1") ] in
  let w1 := @replay demo_addresses demo_world
              [tx 5 150 (CastVote "h1" "vc" "v1" "ipfs" "T1")] in
  let w2 := @replay demo_addresses demo_world (history "v1") in
  @verify_vote demo_addresses w1.(ballot_boxes) "T1" = Ok (true, "v1", 150)
  /\ @verify_vote demo_addresses w2.(ballot_boxes) "T1" = Ok (true, "v2", 170)
  /\ map_to_list <$> (votes <$> (w2.(ballot_boxes) !! 1))
     = Some [("T1", final_commitment "vc" "v2" "ipfs" "T1" 170)]
  /\ w2 = @replay demo_addresses demo_world (history "another hash").
Proof. vm_compute. auto. Qed.
End ballot_facts.

(** ** Properties of histories of transactions *)
Module ledger_facts.

Section facts.
Context `{NamedAddresses}.

Lemma move_to_Ok {R : Type} (st : gmap Z R) (a : Z) (r : R) (st' : gmap Z R) :
  move_to st a r = Ok st' -> st !! a = None /\ st' = <[a := r]> st.
Proof.
  unfold move_to. destruct (st !! a); [discriminate|]. intros [= <-]. auto.
Qed.

(** Publishing a resource under some account leaves the one at [@voting],
    when there is one, as it was. *)
Lemma move_to_keeps {R : Type} (st : gmap Z R) (a : Z) (r x : R) (st' : gmap Z R) :
  move_to st a r = Ok st' -> st !! voting = Some x -> st' !! voting = Some x.
Proof.
  intros Hm Hx. apply move_to_Ok in Hm as [Hnone ->].
  rewrite lookup_insert_ne; [exact Hx|]. intros ->. congruence.
Qed.

Lemma replay_cons w tx txs : replay w (tx :: txs) = replay (commit w tx) txs.
Proof. reflexivity. Qed.

(** *** The registry only grows *)

Lemma registry_call_grows call (st st' : gmap Z voter_registry.Registry) ev r :
  call = Ok (st', ev) ->
  st !! voting = Some r ->
  (exists who, call = voter_registry.initialize st who)
  \/ (exists now who e a b, call = voter_registry.register_voter st now who e a b)
  \/ (exists now e, call = voter_registry.mark_voted st now e)
  \/ (exists e, call = voter_registry.reset_voted_status st e)
  \/ (exists who e, call = voter_registry.deactivate_voter st who e) ->
  exists r', st' !! voting = Some r' /\
    forall x, is_Some (r.(voter_registry.voters) !! x) ->
              is_Some (r'.(voter_registry.voters) !! x).
Proof.
  intros Hcall Hr Hwhich.
  destruct Hwhich as [[who ->]|[(now & who & e & a & b & ->)|[(now & e & ->)|
                      [(e & ->)|(who & e & ->)]]]].
  - unfold voter_registry.initialize in Hcall. peel Hcall as st1 Hm.
    injection Hcall as <- <-. exists r. split; [|auto].
    eapply move_to_keeps; eauto.
  - apply registry_facts.register_voter_Ok in Hcall as (r0 & Hr0 & _ & _ & _ & ->).
    rewrite Hr in Hr0. injection Hr0 as <-.
    eexists. split; [apply lookup_insert_eq|]. simpl. intros x Hx.
    destruct (decide (e = x)) as [->|Hne].
    + rewrite lookup_insert_eq. eauto.
    + rewrite lookup_insert_ne by exact Hne. exact Hx.
  - rewrite (registry_facts.mark_voted_eq _ _ _ _ Hr) in Hcall.
    destruct (voter_registry.voters r !! e) eqn:He; [|discriminate].
    injection Hcall as <- <-.
    eexists. split; [apply lookup_insert_eq|]. simpl. intros x Hx.
    destruct (decide (e = x)) as [->|Hne].
    + rewrite lookup_insert_eq. eauto.
    + rewrite lookup_insert_ne by exact Hne. exact Hx.
  - rewrite (registry_facts.reset_voted_status_eq _ _ _ Hr) in Hcall.
    destruct (voter_registry.voters r !! e) eqn:He; [|discriminate].
    injection Hcall as <- <-.
    eexists. split; [apply lookup_insert_eq|]. simpl. intros x Hx.
    destruct (decide (e = x)) as [->|Hne].
    + rewrite lookup_insert_eq. eauto.
    + rewrite lookup_insert_ne by exact Hne. exact Hx.
  - unfold voter_registry.deactivate_voter in Hcall.
    rewrite (borrow_global_Some _ _ _ Hr) in Hcall. simpl in Hcall.
    peel Hcall as u1 Hadm. peel Hcall as u2 Hreg. peel Hcall as v Hv.
    injection Hcall as <- <-.
    eexists. split; [apply lookup_insert_eq|]. simpl. intros x Hx.
    destruct (decide (e = x)) as [->|Hne].
    + rewrite lookup_insert_eq. eauto.
    + rewrite lookup_insert_ne by exact Hne. exact Hx.
Qed.

Lemma registry_step w tx r :
  w.(registries) !! voting = Some r ->
  exists r', (commit w tx).(registries) !! voting = Some r' /\
    forall x, is_Some (r.(voter_registry.voters) !! x) ->
              is_Some (r'.(voter_registry.voters) !! x).
Proof.
  intros Hr. unfold commit. destruct (run w tx) as [w'|] eqn:Hrun; [|eauto].
  destruct tx as [who now p].
  destruct p; unfold run in Hrun; simpl in Hrun; open_run Hrun; simpl; eauto;
    try (eapply registry_call_grows; [exact Hcall | exact Hr | eauto 12]).
  apply ballot_facts.cast_vote_Ok in Hcall as (bb & voted & _ & _ & _ & Hm & _).
  eapply registry_call_grows; [exact Hm | exact Hr | eauto 12].
Qed.

Lemma registry_replay txs : forall w r,
  w.(registries) !! voting = Some r ->
  exists r', (replay w txs).(registries) !! voting = Some r' /\
    forall x, is_Some (r.(voter_registry.voters) !! x) ->
              is_Some (r'.(voter_registry.voters) !! x).
Proof.
  induction txs as [|tx txs IH]; intros w r Hr; [eauto|].
  rewrite replay_cons.
  destruct (registry_step w tx r Hr) as (r1 & Hr1 & Hgrow1).
  destruct (IH _ _ Hr1) as (r2 & Hr2 & Hgrow2).
  exists r2. split; auto.
Qed.

(** C9. On an initialised registry, [register_voter x] inserts a record
    for an absent [x] (active, struck off the physical roll, not voted) as
    long as the counter has room; it commits only for an absent [x]; and
    once it has committed, every later [register_voter x], whatever
    happened in between, aborts with EALREADY_REGISTERED and leaves the
    ledger as it was. *)
Theorem register_voter_at_most_once w r who now x a b :
  w.(registries) !! voting = Some r ->
  (r.(voter_registry.voters) !! x = None ->
   r.(voter_registry.total_registered) + 1 <= MAX_U64 ->
   is_ok (run w (tx who now (RegisterVoter x a b))) = true)
  /\ (is_Some (r.(voter_registry.voters) !! x) ->
      run w (tx who now (RegisterVoter x a b))
        = Err (Abort voter_registry.this_module voter_registry.EALREADY_REGISTERED)
      /\ commit w (tx who now (RegisterVoter x a b)) = w)
  /\ (forall w1, run w (tx who now (RegisterVoter x a b)) = Ok w1 ->
      r.(voter_registry.voters) !! x = None
      /\ (exists r1 v,
            w1.(registries) !! voting = Some r1 /\
            r1.(voter_registry.voters) !! x = Some v /\
            v.(voter_registry.is_struck_off) = true /\
            v.(voter_registry.has_voted) = false /\
            v.(voter_registry.is_active) = true)
      /\ (forall txs who' now' a' b',
            let later := replay w1 txs in
            run later (tx who' now' (RegisterVoter x a' b'))
              = Err (Abort voter_registry.this_module voter_registry.EALREADY_REGISTERED)
            /\ commit later (tx who' now' (RegisterVoter x a' b')) = later)).
Proof.
  intros Hr.
  assert (Htaken : forall w0 r0 who0 now0 a0 b0,
             w0.(registries) !! voting = Some r0 ->
             is_Some (r0.(voter_registry.voters) !! x) ->
             run w0 (tx who0 now0 (RegisterVoter x a0 b0))
               = Err (Abort voter_registry.this_module voter_registry.EALREADY_REGISTERED)
             /\ commit w0 (tx who0 now0 (RegisterVoter x a0 b0)) = w0).
  { intros w0 r0 who0 now0 a0 b0 Hr0 Hx0.
    assert (run w0 (tx who0 now0 (RegisterVoter x a0 b0))
            = Err (Abort voter_registry.this_module voter_registry.EALREADY_REGISTERED)) as Hrun.
    { unfold run, with_registries. simpl.
      rewrite (registry_facts.register_voter_taken _ _ _ _ _ _ _ Hr0 Hx0).
      reflexivity. }
    split; [exact Hrun|]. unfold commit. rewrite Hrun. reflexivity. }
  split; [|split].
  - intros Hx Hroom. unfold run, with_registries. simpl.
    pose proof (registry_facts.register_voter_fresh _ _ now who x a b Hr Hx Hroom) as Hok.
    destruct (voter_registry.register_voter (registries w) now who x a b)
      as [[st ev]|]; [reflexivity | discriminate].
  - intros Hx. eapply Htaken; eauto.
  - intros w1 Hrun.
    assert (exists st ev,
               voter_registry.register_voter (registries w) now who x a b = Ok (st, ev)
               /\ registries w1 = st) as (st & ev & Hcall & Hreg).
    { unfold run in Hrun. simpl in Hrun. open_run Hrun. eauto. }
    apply registry_facts.register_voter_Ok in Hcall as (r0 & Hr0 & Hx & _ & _ & Hst).
    rewrite Hr in Hr0. injection Hr0 as <-.
    assert (exists r1 v,
               registries w1 !! voting = Some r1 /\
               voter_registry.voters r1 !! x = Some v /\
               voter_registry.is_struck_off v = true /\
               voter_registry.has_voted v = false /\
               voter_registry.is_active v = true) as (r1 & v & Hw1 & Hv & Hflags).
    { rewrite Hreg, Hst. eexists _, _. split; [apply lookup_insert_eq|]. simpl.
      split; [apply lookup_insert_eq|]. auto. }
    split; [exact Hx|]. split; [eauto 7|].
    intros txs who' now' a' b' later.
    destruct (registry_replay txs w1 r1 Hw1) as (r2 & Hr2 & Hgrow).
    eapply Htaken; [exact Hr2|]. apply Hgrow. eauto.
Qed.

(** C10. [mark_voted] and [reset_voted_status] take no signer and compare
    no address: whoever sends the transaction, on an initialised registry
    each aborts with ENOT_REGISTERED exactly when no record exists for
    [epic_hash], and otherwise commits, setting respectively clearing
    [has_voted], so that the voter's eligibility becomes false respectively
    the record's [is_active]. *)
Theorem voted_flag_open_to_any_sender w r who now e :
  w.(registries) !! voting = Some r ->
  (run w (tx who now (MarkVoted e))
     = Err (Abort voter_registry.this_module voter_registry.ENOT_REGISTERED)
     <-> r.(voter_registry.voters) !! e = None)
  /\ (run w (tx who now (ResetVotedStatus e))
      = Err (Abort voter_registry.this_module voter_registry.ENOT_REGISTERED)
      <-> r.(voter_registry.voters) !! e = None)
  /\ (forall v, r.(voter_registry.voters) !! e = Some v ->
      (exists w', run w (tx who now (MarkVoted e)) = Ok w' /\
         voter_registry.get_voter_details w'.(registries) e
           = Ok (v.(voter_registry.is_active), v.(voter_registry.registered_at),
                 v.(voter_registry.is_struck_off), true) /\
         voter_registry.is_voter_eligible w'.(registries) e = Ok false)
      /\ (exists w', run w (tx who now (ResetVotedStatus e)) = Ok w' /\
         voter_registry.get_voter_details w'.(registries) e
           = Ok (v.(voter_registry.is_active), v.(voter_registry.registered_at),
                 v.(voter_registry.is_struck_off), false) /\
         voter_registry.is_voter_eligible w'.(registries) e
           = Ok v.(voter_registry.is_active))).
Proof.
  intros Hr. unfold run, with_registries. simpl.
  rewrite (registry_facts.mark_voted_eq _ _ _ _ Hr).
  rewrite (registry_facts.reset_voted_status_eq _ _ _ Hr).
  destruct (voter_registry.voters r !! e) as [v0|] eqn:He; simpl.
  - split; [split; discriminate|]. split; [split; discriminate|].
    intros v [= <-]. split.
    + eexists. split; [reflexivity|]. simpl.
      erewrite registry_facts.is_voter_eligible_eq by apply lookup_insert_eq.
      unfold voter_registry.get_voter_details.
      erewrite borrow_global_Some by apply lookup_insert_eq. simpl.
      unfold table.contains, table.borrow. rewrite lookup_insert_eq. simpl.
      split; [reflexivity|]. unfold eligible_record. simpl.
      rewrite andb_false_r. reflexivity.
    + eexists. split; [reflexivity|]. simpl.
      erewrite registry_facts.is_voter_eligible_eq by apply lookup_insert_eq.
      unfold voter_registry.get_voter_details.
      erewrite borrow_global_Some by apply lookup_insert_eq. simpl.
      unfold table.contains, table.borrow. rewrite lookup_insert_eq. simpl.
      split; [reflexivity|]. unfold eligible_record. simpl.
      rewrite andb_true_r. reflexivity.
  - split; [split; auto|]. split; [split; auto|]. intros v [=].
Qed.
End facts.

(** On the demo deployment the registration of [h1] commits on the empty
    registry, and a later one, by another sender after other transactions,
    aborts. *)
Lemma register_voter_witness :
  let w0 := @replay demo_addresses genesis demo_setup in
  let later := @replay demo_addresses demo_world [tx 7 20 (MarkVoted "h1")] in
  is_ok (@run demo_addresses w0 (tx 5 10 (RegisterVoter "h1" "a1" "b1"))) = true
  /\ @run demo_addresses later (tx 6 30 (RegisterVoter "h1" "a2" "b2"))
     = Err (Abort voter_registry.this_module voter_registry.EALREADY_REGISTERED).
Proof.
  intros w0 later.
  destruct (@register_voter_at_most_once demo_addresses w0 empty_registry
              5 10 "h1" "a1" "b1" eq_refl) as (Hfresh & _ & Honce).
  split.
  - apply Hfresh; [reflexivity | vm_compute; discriminate].
  - destruct (Honce demo_world) as (_ & _ & Hlater); [vm_compute; reflexivity|].
    exact (proj1 (Hlater [tx 7 20 (MarkVoted "h1")] 6 30 "a2" "b2")).
Defined.

(** On the demo deployment account 9, neither the admin nor the voter, sets
    the voted flag of [h1]; an unknown hash is rejected. *)
Lemma voted_flag_witness :
  @run demo_addresses demo_world (tx 9 50 (MarkVoted "nobody"))
    = Err (Abort voter_registry.this_module voter_registry.ENOT_REGISTERED)
  /\ exists w',
       @run demo_addresses demo_world (tx 9 50 (MarkVoted "h1")) = Ok w'
       /\ @voter_registry.is_voter_eligible demo_addresses w'.(registries) "h1"
          = Ok false.
Proof.
  destruct (@voted_flag_open_to_any_sender demo_addresses demo_world demo_registry
              9 50 "nobody" eq_refl) as (Hnone & _ & _).
  destruct (@voted_flag_open_to_any_sender demo_addresses demo_world demo_registry
              9 50 "h1" eq_refl) as (_ & _ & Hsome).
  split.
  - apply Hnone. reflexivity.
  - destruct (Hsome demo_voter eq_refl) as [(w' & Hrun & _ & Hel) _].
    exists w'. auto.
Defined.
End ledger_facts.

(** ** The ballot box and the bulletin board over histories *)
Module mirror_facts.

Section facts.
Context `{NamedAddresses}.

Lemma cast_codes_cons w t rest :
  cast_codes w (t :: rest) = cast_codes w [t] ++ cast_codes (commit w t) rest.
Proof.
  simpl. destruct (payload t); try reflexivity.
  destruct (run w t); reflexivity.
Qed.

Lemma cast_codes_aborted w t : is_ok (run w t) = false -> cast_codes w [t] = [].
Proof.
  intros Hr. simpl. destruct (run w t); [discriminate|].
  destruct (payload t); reflexivity.
Qed.

Lemma size_dom_insert {V : Type} (m : gmap string V) (k : string) (v : V) :
  Z.of_nat (size (dom (<[k := v]> m)))
  = if table.contains m k then Z.of_nat (size (dom m)) else Z.of_nat (size (dom m)) + 1.
Proof.
  rewrite dom_insert_L. unfold table.contains.
  destruct (m !! k) as [x|] eqn:Hk.
  - assert (k ∈ dom m) as Hin by (apply elem_of_dom; eauto).
    f_equal. f_equal. set_solver.
  - assert (k ∉ dom m) as Hout by (apply not_elem_of_dom; exact Hk).
    rewrite size_union by set_solver. rewrite size_singleton. lia.
Qed.

(** One transaction: the box at [@voting] stays, its table gains at most
    the code of a committed [cast_vote], and the counter keeps counting
    the codes of the table. *)
Lemma ballot_step w t bb :
  w.(ballot_boxes) !! voting = Some bb ->
  exists bb',
    (commit w t).(ballot_boxes) !! voting = Some bb' /\
    dom bb'.(encrypted_ballot.votes)
      = dom bb.(encrypted_ballot.votes) ∪ list_to_set (cast_codes w [t]) /\
    (bb.(encrypted_ballot.vote_count)
       = Z.of_nat (size (dom bb.(encrypted_ballot.votes))) ->
     bb'.(encrypted_ballot.vote_count)
       = Z.of_nat (size (dom bb'.(encrypted_ballot.votes)))).
Proof.
  intros Hbb. unfold commit.
  destruct (run w t) as [w'|f] eqn:Hrun.
  2:{ exists bb. rewrite cast_codes_aborted by (rewrite Hrun; reflexivity).
      split; [exact Hbb|]. split; [set_solver|auto]. }
  destruct t as [who now p].
  destruct p; simpl cast_codes; rewrite ?Hrun;
    unfold run in Hrun; simpl in Hrun; open_run Hrun; simpl;
    try (exists bb; split; [exact Hbb|]; split; [set_solver|auto]; fail).
  - (* initialize *)
    unfold encrypted_ballot.initialize in Hcall. peel Hcall as st1 Hm.
    injection Hcall as <- <-. exists bb.
    split; [eapply ledger_facts.move_to_keeps; eauto|]. split; [set_solver|auto].
  - (* cast_vote *)
    apply ballot_facts.cast_vote_Ok in Hcall
      as (bb0 & voted & Hbb0 & _ & _ & _ & _ & -> & _).
    rewrite Hbb in Hbb0. injection Hbb0 as <-.
    eexists. split; [apply lookup_insert_eq|]. simpl. split.
    + rewrite dom_insert_L. set_solver.
    + intros Hcount. rewrite size_dom_insert, Hcount. reflexivity.
  - (* update_merkle_root *)
    unfold encrypted_ballot.update_merkle_root in Hcall.
    rewrite (borrow_global_Some _ _ _ Hbb) in Hcall. simpl in Hcall.
    peel Hcall as u Hadm. injection Hcall as <- <-.
    eexists. split; [apply lookup_insert_eq|]. simpl. split; [set_solver|auto].
Qed.

Lemma ballot_replay txs : forall w bb,
  w.(ballot_boxes) !! voting = Some bb ->
  bb.(encrypted_ballot.vote_count)
    = Z.of_nat (size (dom bb.(encrypted_ballot.votes))) ->
  exists bb',
    (replay w txs).(ballot_boxes) !! voting = Some bb' /\
    dom bb'.(encrypted_ballot.votes)
      = dom bb.(encrypted_ballot.votes) ∪ list_to_set (cast_codes w txs) /\
    bb'.(encrypted_ballot.vote_count)
      = Z.of_nat (size (dom bb'.(encrypted_ballot.votes))).
Proof.
  induction txs as [|t txs IH]; intros w bb Hbb Hcount.
  - exists bb. split; [exact Hbb|]. split; [set_solver|exact Hcount].
  - rewrite ledger_facts.replay_cons, cast_codes_cons.
    destruct (ballot_step w t bb Hbb) as (bb1 & Hbb1 & Hdom1 & Hcount1).
    destruct (IH _ _ Hbb1 (Hcount1 Hcount)) as (bb2 & Hbb2 & Hdom2 & Hcount2).
    exists bb2. split; [exact Hbb2|]. split; [|exact Hcount2].
    rewrite Hdom2, Hdom1, list_to_set_app_L. set_solver.
Qed.

(** C8. From a freshly initialised ballot box, after any history of
    transactions [get_vote_count] returns the number of distinct tracking
    codes among the [cast_vote] transactions that committed. *)
Theorem vote_count_is_distinct_codes w bb txs :
  w.(ballot_boxes) !! voting = Some bb ->
  bb.(encrypted_ballot.votes) = ∅ ->
  bb.(encrypted_ballot.vote_count) = 0 ->
  encrypted_ballot.get_vote_count (replay w txs).(ballot_boxes)
    = Ok (Z.of_nat (size (list_to_set (cast_codes w txs) : gset string))).
Proof.
  intros Hbb Hvotes Hcount.
  destruct (ballot_replay txs w bb Hbb) as (bb' & Hbb' & Hdom & Hcount').
  { rewrite Hvotes, Hcount, dom_empty_L, size_empty. reflexivity. }
  unfold encrypted_ballot.get_vote_count.
  rewrite (borrow_global_Some _ _ _ Hbb'). simpl.
  rewrite Hcount', Hdom, Hvotes, dom_empty_L, (left_id_L ∅ (∪)). reflexivity.
Qed.

Lemma record_vote_Ok st now who code c st' ev :
  bulletin_board.record_vote st now who code c = Ok (st', ev) ->
  exists board total,
    st !! voting = Some board /\
    st' = <[voting :=
             {| bulletin_board.records :=
                  <[code := {| bulletin_board.commitment := c;
                               bulletin_board.timestamp := now;
                               bulletin_board.is_valid := true;
                               bulletin_board.merkle_proof := [] |}]>
                    board.(bulletin_board.records);
                bulletin_board.total_records := total;
                bulletin_board.merkle_root := board.(bulletin_board.merkle_root);
                bulletin_board.election_id := board.(bulletin_board.election_id) |}]> st.
Proof.
  unfold bulletin_board.record_vote. intros Hx.
  peel Hx as board Hb. apply borrow_global_Ok in Hb.
  peel Hx as [records' total] Hstore. injection Hx as <- <-.
  exists board, total. split; [exact Hb|].
  unfold table.contains, table.add, table.upsert in Hstore.
  destruct (bulletin_board.records board !! code) eqn:Hc; simpl in Hstore.
  - injection Hstore as <- <-. reflexivity.
  - rewrite ?Hc in Hstore. simpl in Hstore. peel Hstore as n Hn.
    injection Hstore as <- <-. reflexivity.
Qed.

Lemma get_vote_record_eq st board code :
  st !! voting = Some board ->
  bulletin_board.get_vote_record st code =
    Ok (match board.(bulletin_board.records) !! code with
        | Some rec => (rec.(bulletin_board.commitment), rec.(bulletin_board.timestamp),
                       rec.(bulletin_board.is_valid))
        | None => ("", 0, false)
        end).
Proof.
  intros Hb. unfold bulletin_board.get_vote_record.
  rewrite (borrow_global_Some _ _ _ Hb). simpl.
  unfold table.contains, table.borrow.
  destruct (bulletin_board.records board !! code); reflexivity.
Qed.

(** C1, as the code has it.  A committed [cast_vote] with tracking code
    [code] and vote hash [vh] at time [now] leaves the bulletin board
    untouched and makes [verify_vote code] return [(true, vh, now)].  The
    mirror is the separate entry function [record_vote]: once any signer
    has committed [record_vote code vh] at the same block time,
    [get_vote_record code] returns [vh] and [now] (and valid), the hash and
    timestamp [verify_vote code] reports. *)
Theorem bulletin_mirror_is_separate_call w who now e vc vh ipfs code w1 :
  run w (tx who now (CastVote e vc vh ipfs code)) = Ok w1 ->
  w1.(boards) = w.(boards)
  /\ encrypted_ballot.verify_vote w1.(ballot_boxes) code = Ok (true, vh, now)
  /\ forall publisher w2,
       run w1 (tx publisher now (RecordVote code vh)) = Ok w2 ->
       bulletin_board.get_vote_record w2.(boards) code = Ok (vh, now, true)
       /\ encrypted_ballot.verify_vote w2.(ballot_boxes) code = Ok (true, vh, now).
Proof.
  intros Hrun.
  assert (boards w1 = boards w /\
          encrypted_ballot.verify_vote (ballot_boxes w1) code = Ok (true, vh, now))
    as [Hboards Hverify].
  { unfold run in Hrun. simpl in Hrun. open_run Hrun. simpl. split; [reflexivity|].
    apply ballot_facts.cast_vote_Ok in Hcall
      as (bb & voted & Hbb & _ & _ & _ & _ & -> & _).
    erewrite ballot_facts.verify_vote_eq by apply lookup_insert_eq.
    simpl. rewrite lookup_insert_eq. reflexivity. }
  split; [exact Hboards|]. split; [exact Hverify|].
  intros publisher w2 Hrec.
  assert (ballot_boxes w2 = ballot_boxes w1 /\
          bulletin_board.get_vote_record (boards w2) code = Ok (vh, now, true))
    as [Hsame Hget].
  { unfold run in Hrec. simpl in Hrec. open_run Hrec. simpl. split; [reflexivity|].
    apply record_vote_Ok in Hcall as (board & total & Hb & ->).
    erewrite get_vote_record_eq by apply lookup_insert_eq.
    simpl. rewrite lookup_insert_eq. reflexivity. }
  rewrite Hsame. auto.
Qed.
End facts.

(** On the demo deployment a committed cast under [T1] leaves no record on
    the bulletin board: the two queries disagree. *)
Lemma cast_vote_writes_no_bulletin_record :
  let cast := tx 5 150 (CastVote "h1" "vc" "v1" "ipfs" "T1") in
  let w1 := @commit demo_addresses demo_world cast in
  is_ok (@run demo_addresses demo_world cast) = true
  /\ @encrypted_ballot.verify_vote demo_addresses w1.(ballot_boxes) "T1"
     = Ok (true, "v1", 150)
  /\ @bulletin_board.get_vote_record demo_addresses w1.(boards) "T1"
     = Ok ("", 0, false).
Proof. vm_compute. auto. Qed.

Lemma bulletin_mirror_witness :
  let cast := tx 5 150 (CastVote "h1" "vc" "v1" "ipfs" "T1") in
  let w1 := @commit demo_addresses demo_world cast in
  let w2 := @commit demo_addresses w1 (tx 9 150 (RecordVote "T1" "v1")) in
  @bulletin_board.get_vote_record demo_addresses w2.(boards) "T1" = Ok ("v1", 150, true)
  /\ @encrypted_ballot.verify_vote demo_addresses w2.(ballot_boxes) "T1"
     = Ok (true, "v1", 150).
Proof.
  intros cast w1 w2.
  refine (proj2 (proj2 (@bulletin_mirror_is_separate_call demo_addresses demo_world
                          5 150 "h1" "vc" "v1" "ipfs" "T1" w1 _)) 9 w2 _).
  - vm_compute. reflexivity.
  - vm_compute. reflexivity.
Defined.

(** Codes cast in the order A, A, B give a count of 2. *)
Lemma vote_count_witness :
  let history :=
    [ tx 5 110 (CastVote "h1" "vc" "v1" "ipfs" "A");
      tx 5 120 (ResetVotedStatus "h1");
      tx 5 130 (CastVote "h1" "vc" "v2" "ipfs" "A");
      tx 5 140 (ResetVotedStatus "h1");
      tx 5 150 (CastVote "h1" "vc" "v3" "ipfs" "B") ] in
  @cast_codes demo_addresses demo_world history = ["A"; "A"; "B"]
  /\ @encrypted_ballot.get_vote_count demo_addresses
       (@replay demo_addresses demo_world history).(ballot_boxes) = Ok 2.
Proof.
  intros history. split; [vm_compute; reflexivity|].
  refine (eq_trans (@vote_count_is_distinct_codes demo_addresses demo_world demo_box
                      history _ _ _) _).
  - vm_compute. reflexivity.
  - reflexivity.
  - reflexivity.
  - vm_compute. reflexivity.
Defined.
End mirror_facts.

(** ** Properties of the tally validator and of the admin checks *)
Module tally_facts.
Import tally_validator.

Section facts.
Context `{NamedAddresses}.

Lemma start_tally_eq st t now who total :
  st !! voting = Some t ->
  start_tally st now who total =
    if negb (who =? t.(admin)) then Err (Abort this_module EUNAUTHORIZED)
    else if negb (t.(polling_end_time) <=? now) then Err (Abort this_module EPOLLING_NOT_ENDED)
    else if t.(is_finalized_flag) then Err (Abort this_module EALREADY_FINALIZED)
    else Ok (<[voting :=
                {| election_id := t.(election_id); results := t.(results);
                   total_votes := total; valid_votes := t.(valid_votes);
                   invalid_votes := t.(invalid_votes);
                   polling_end_time := t.(polling_end_time);
                   tally_start_time := now; tally_end_time := t.(tally_end_time);
                   is_finalized_flag := t.(is_finalized_flag); admin := t.(admin);
                   result_hash := t.(result_hash); zkp_proof := t.(zkp_proof) |}]> st,
             [TallyStartedEvent t.(election_id) now total]).
Proof.
  intros Ht. unfold start_tally. rewrite (borrow_global_Some _ _ _ Ht). simpl.
  unfold signer.address_of.
  destruct (who =? admin t); simpl; [|reflexivity].
  destruct (polling_end_time t <=? now); simpl; [|reflexivity].
  destruct (is_finalized_flag t); reflexivity.
Qed.

Lemma record_result_eq st t who cid n pct :
  st !! voting = Some t ->
  record_result st who cid n pct =
    if negb (who =? t.(admin)) then Err (Abort this_module EUNAUTHORIZED)
    else if t.(is_finalized_flag) then Err (Abort this_module EALREADY_FINALIZED)
    else Ok (<[voting :=
                {| election_id := t.(election_id);
                   results := <[cid := {| candidate_id := cid; vote_count := n;
                                          percentage := pct |}]> t.(results);
                   total_votes := t.(total_votes); valid_votes := t.(valid_votes);
                   invalid_votes := t.(invalid_votes);
                   polling_end_time := t.(polling_end_time);
                   tally_start_time := t.(tally_start_time);
                   tally_end_time := t.(tally_end_time);
                   is_finalized_flag := t.(is_finalized_flag); admin := t.(admin);
                   result_hash := t.(result_hash); zkp_proof := t.(zkp_proof) |}]> st,
             [ResultPublishedEvent cid n pct]).
Proof.
  intros Ht. unfold record_result. rewrite (borrow_global_Some _ _ _ Ht). simpl.
  unfold signer.address_of.
  destruct (who =? admin t); simpl; [|reflexivity].
  destruct (is_finalized_flag t); simpl; [reflexivity|].
  unfold table.contains, table.add, table.upsert.
  destruct (results t !! cid) eqn:Hc; simpl; [reflexivity|].
  rewrite ?Hc. reflexivity.
Qed.

Lemma finalize_tally_eq st t now who valid invalid h p :
  st !! voting = Some t ->
  finalize_tally st now who valid invalid h p =
    if negb (who =? t.(admin)) then Err (Abort this_module EUNAUTHORIZED)
    else if t.(is_finalized_flag) then Err (Abort this_module EALREADY_FINALIZED)
    else Ok (<[voting :=
                {| election_id := t.(election_id); results := t.(results);
                   total_votes := t.(total_votes); valid_votes := valid;
                   invalid_votes := invalid;
                   polling_end_time := t.(polling_end_time);
                   tally_start_time := t.(tally_start_time);
                   tally_end_time := now;
                   is_finalized_flag := true; admin := t.(admin);
                   result_hash := h; zkp_proof := p |}]> st,
             [TallyFinalizedEvent t.(election_id) now t.(total_votes) valid]).
Proof.
  intros Ht. unfold finalize_tally. rewrite (borrow_global_Some _ _ _ Ht). simpl.
  unfold signer.address_of.
  destruct (who =? admin t); simpl; [|reflexivity].
  destruct (is_finalized_flag t); reflexivity.
Qed.

(** C5, as the code has it.  On an initialised tally record, [start_tally]
    called by the admin aborts with EPOLLING_NOT_ENDED before
    [polling_end_time]; from then on it aborts with EALREADY_FINALIZED
    when the tally is finalized and otherwise commits, writing the total
    and the start time, also when the tally was started before: a repeated
    [start_tally] commits again and overwrites the total and the start
    time, leaving the results and the other counters alone.  A second
    [finalize_tally] by the admin aborts with EALREADY_FINALIZED, and
    [get_zkp_proof] aborts with ENOT_FINALIZED before finalization. *)
Theorem tally_sequencing st t now total :
  st !! voting = Some t ->
  (now < t.(polling_end_time) ->
     start_tally st now t.(admin) total = Err (Abort this_module EPOLLING_NOT_ENDED))
  /\ (t.(polling_end_time) <= now -> t.(is_finalized_flag) = true ->
     start_tally st now t.(admin) total = Err (Abort this_module EALREADY_FINALIZED))
  /\ (t.(polling_end_time) <= now -> t.(is_finalized_flag) = false ->
     exists st1 t1,
       start_tally st now t.(admin) total
         = Ok (st1, [TallyStartedEvent t.(election_id) now total]) /\
       st1 !! voting = Some t1 /\
       t1.(total_votes) = total /\ t1.(tally_start_time) = now /\
       forall now' total', t.(polling_end_time) <= now' ->
         exists st2 t2,
           start_tally st1 now' t.(admin) total'
             = Ok (st2, [TallyStartedEvent t.(election_id) now' total']) /\
           st2 !! voting = Some t2 /\
           t2.(total_votes) = total' /\ t2.(tally_start_time) = now' /\
           t2.(results) = t.(results) /\
           get_tally_summary st2
             = Ok (total', t.(valid_votes), t.(invalid_votes), false,
                   t.(tally_end_time)))
  /\ (forall now1 valid invalid h p st1 ev1,
        finalize_tally st now1 t.(admin) valid invalid h p = Ok (st1, ev1) ->
        forall now2 valid' invalid' h' p',
          finalize_tally st1 now2 t.(admin) valid' invalid' h' p'
            = Err (Abort this_module EALREADY_FINALIZED))
  /\ (t.(is_finalized_flag) = false ->
      get_zkp_proof st = Err (Abort this_module ENOT_FINALIZED)).
Proof.
  intros Ht. rewrite (start_tally_eq _ _ _ _ _ Ht), Z.eqb_refl. simpl.
  split; [|split; [|split; [|split]]].
  - intros Hlt. apply Z.leb_gt in Hlt. rewrite Hlt. reflexivity.
  - intros Hle Hfin. apply Z.leb_le in Hle. rewrite Hle, Hfin. reflexivity.
  - intros Hle Hfin. apply Z.leb_le in Hle. rewrite Hle, Hfin. simpl.
    eexists _, _. split; [reflexivity|].
    split; [apply lookup_insert_eq|]. simpl.
    split; [reflexivity|]. split; [reflexivity|].
    intros now' total' Hle'.
    erewrite start_tally_eq by apply lookup_insert_eq. simpl.
    apply Z.leb_le in Hle'. rewrite Z.eqb_refl, Hle', ?Hfin. simpl.
    eexists _, _. split; [reflexivity|].
    split; [apply lookup_insert_eq|]. simpl.
    split; [reflexivity|]. split; [reflexivity|]. split; [reflexivity|].
    unfold get_tally_summary.
    erewrite borrow_global_Some by apply lookup_insert_eq. simpl.
    rewrite ?Hfin. reflexivity.
  - intros now1 valid invalid h p st1 ev1 Hfin now2 valid' invalid' h' p'.
    rewrite (finalize_tally_eq _ _ _ _ _ _ _ _ Ht), Z.eqb_refl in Hfin. simpl in Hfin.
    destruct (is_finalized_flag t); [discriminate|]. injection Hfin as <- <-.
    erewrite finalize_tally_eq by apply lookup_insert_eq. simpl.
    rewrite Z.eqb_refl. reflexivity.
  - intros Hfin. unfold get_zkp_proof. rewrite (borrow_global_Some _ _ _ Ht). simpl.
    rewrite Hfin. reflexivity.
Qed.

(** The calls that do compare the signer with the stored admin reject
    everyone else, whatever the state of the resource. *)
Lemma admin_checked_calls_reject_strangers
    (reg : gmap Z voter_registry.Registry) (r : voter_registry.Registry)
    (box : gmap Z encrypted_ballot.BallotBox) (bb : encrypted_ballot.BallotBox)
    (st : gmap Z TallyRecord) (t : TallyRecord) (who : Z) :
  reg !! voting = Some r -> box !! voting = Some bb -> st !! voting = Some t ->
  (who <> r.(voter_registry.admin) ->
     forall e, voter_registry.deactivate_voter reg who e
               = Err (Abort voter_registry.this_module voter_registry.EUNAUTHORIZED))
  /\ (who <> bb.(encrypted_ballot.admin) ->
     forall root, encrypted_ballot.update_merkle_root box who root
                  = Err (Abort encrypted_ballot.this_module encrypted_ballot.EUNAUTHORIZED))
  /\ (who <> t.(admin) ->
     (forall now total, start_tally st now who total = Err (Abort this_module EUNAUTHORIZED))
     /\ (forall cid n pct, record_result st who cid n pct = Err (Abort this_module EUNAUTHORIZED))
     /\ (forall now valid invalid h p,
           finalize_tally st now who valid invalid h p = Err (Abort this_module EUNAUTHORIZED))).
Proof.
  intros Hr Hbb Ht. split; [|split].
  - intros Hne e. unfold voter_registry.deactivate_voter.
    rewrite (borrow_global_Some _ _ _ Hr). simpl. unfold signer.address_of.
    apply Z.eqb_neq in Hne. rewrite Hne. reflexivity.
  - intros Hne root. unfold encrypted_ballot.update_merkle_root.
    rewrite (borrow_global_Some _ _ _ Hbb). simpl. unfold signer.address_of.
    apply Z.eqb_neq in Hne. rewrite Hne. reflexivity.
  - intros Hne. apply Z.eqb_neq in Hne. split; [|split]; intros.
    + rewrite (start_tally_eq _ _ _ _ _ Ht), Hne. reflexivity.
    + rewrite (record_result_eq _ _ _ _ _ _ Ht), Hne. reflexivity.
    + rewrite (finalize_tally_eq _ _ _ _ _ _ _ _ Ht), Hne. reflexivity.
Qed.

(** The bulletin board stores no admin and compares no address: its two
    update functions commit for every signer. *)
Lemma bulletin_updates_accept_any_signer
    (st : gmap Z bulletin_board.BulletinBoard) (board : bulletin_board.BulletinBoard)
    (who : Z) :
  st !! voting = Some board ->
  (forall root, exists st',
      bulletin_board.update_merkle_root st who root = Ok (st', []) /\
      bulletin_board.get_statistics st'
        = Ok (board.(bulletin_board.total_records), root,
              board.(bulletin_board.election_id)))
  /\ (forall code proof,
        is_Some (board.(bulletin_board.records) !! code) ->
        is_ok (bulletin_board.update_merkle_proof st who code proof) = true).
Proof.
  intros Hb. split.
  - intros root. unfold bulletin_board.update_merkle_root.
    rewrite (borrow_global_Some _ _ _ Hb). simpl.
    eexists. split; [reflexivity|]. unfold bulletin_board.get_statistics.
    erewrite borrow_global_Some by apply lookup_insert_eq. reflexivity.
  - intros code proof [rec Hrec]. unfold bulletin_board.update_merkle_proof.
    rewrite (borrow_global_Some _ _ _ Hb). simpl.
    unfold table.contains, table.borrow. rewrite Hrec. reflexivity.
Qed.
End facts.

(** A second [start_tally] on the demo deployment, after the first one
    committed and before any finalization, commits as well and overwrites
    the total. *)
Lemma second_start_tally_commits :
  let first := tx 1 300 (StartTally 1) in
  let second := tx 1 301 (StartTally 2) in
  let w1 := @commit demo_addresses demo_world first in
  is_ok (@run demo_addresses demo_world first) = true
  /\ is_ok (@run demo_addresses w1 second) = true
  /\ @get_tally_summary demo_addresses (@commit demo_addresses w1 second).(tallies)
     = Ok (2, 0, 0, false, 0).
Proof. vm_compute. auto. Qed.

(** On the demo deployment: a start before the end of polling is refused;
    a start at 300 with total 1 commits, and a second one at 301 with total
    2 commits too and overwrites both; the proof is not readable yet. *)
Lemma tally_sequencing_witness :
  @start_tally demo_addresses demo_world.(tallies) 150 1 7
    = Err (Abort this_module EPOLLING_NOT_ENDED)
  /\ (exists st1 t1,
        @start_tally demo_addresses demo_world.(tallies) 300 1 1
          = Ok (st1, [TallyStartedEvent "E2025" 300 1]) /\
        st1 !! 1 = Some t1 /\ t1.(total_votes) = 1 /\ t1.(tally_start_time) = 300 /\
        exists st2 t2,
          @start_tally demo_addresses st1 301 1 2
            = Ok (st2, [TallyStartedEvent "E2025" 301 2]) /\
          st2 !! 1 = Some t2 /\ t2.(total_votes) = 2 /\ t2.(tally_start_time) = 301 /\
          @get_tally_summary demo_addresses st2 = Ok (2, 0, 0, false, 0))
  /\ @get_zkp_proof demo_addresses demo_world.(tallies)
     = Err (Abort this_module ENOT_FINALIZED).
Proof.
  pose proof (@tally_sequencing demo_addresses demo_world.(tallies)
                {| election_id := "E2025"; results := ∅; total_votes := 0;
                   valid_votes := 0; invalid_votes := 0; polling_end_time := 200;
                   tally_start_time := 0; tally_end_time := 0;
                   is_finalized_flag := false; admin := 1;
                   result_hash := ""; zkp_proof := "" |}
                150 7 eq_refl) as (Hearly & _ & _ & _ & Hproof).
  pose proof (@tally_sequencing demo_addresses demo_world.(tallies)
                {| election_id := "E2025"; results := ∅; total_votes := 0;
                   valid_votes := 0; invalid_votes := 0; polling_end_time := 200;
                   tally_start_time := 0; tally_end_time := 0;
                   is_finalized_flag := false; admin := 1;
                   result_hash := ""; zkp_proof := "" |}
                300 1 eq_refl) as (_ & _ & Hstart & _ & _).
  split; [|split].
  - apply Hearly. reflexivity.
  - destruct Hstart as (st1 & t1 & Hfirst & Ht1 & Htotal & Htime & Hagain).
    + vm_compute. discriminate.
    + reflexivity.
    + exists st1, t1. repeat (split; [assumption|]).
      destruct (Hagain 301 2) as (st2 & t2 & Hsecond & Ht2 & Htotal2 & Htime2 & _ & Hsum).
      * vm_compute. discriminate.
      * exists st2, t2. auto.
  - apply Hproof. reflexivity.
Defined.

(** C4, at the failing input.  On the demo deployment every module was
    initialised by account 1.  Account 9 then overwrites the bulletin
    board's merkle root, and the merkle proof of a published record: both
    transactions commit, none aborts with an authorization error. *)
Theorem bulletin_board_accepts_stranger :
  let w1 := @replay demo_addresses demo_world [tx 1 150 (RecordVote "T1" "v1")] in
  let forged_root := tx 9 400 (BoardUpdateMerkleRoot "forged") in
  let forged_proof := tx 9 401 (BoardUpdateMerkleProof "T1" ["forged"]) in
  is_ok (@run demo_addresses w1 forged_root) = true
  /\ @bulletin_board.get_statistics demo_addresses
       (@commit demo_addresses w1 forged_root).(boards) = Ok (1, "forged", "E2025")
  /\ is_ok (@run demo_addresses w1 forged_proof) = true
  /\ @run demo_addresses w1 (tx 9 402 (BallotUpdateMerkleRoot "forged"))
     = Err (Abort encrypted_ballot.this_module encrypted_ballot.EUNAUTHORIZED).
Proof. vm_compute. auto. Qed.
End tally_facts.

(** ** The tally record over histories *)
Module finalization_facts.
Import tally_validator.

Section facts.
Context `{NamedAddresses}.

Lemma finalize_count_cons w t rest :
  finalize_count w (t :: rest)
  = (finalize_count w [t] + finalize_count (commit w t) rest)%nat.
Proof.
  simpl. destruct (payload t); try reflexivity.
  destruct (run w t); reflexivity.
Qed.

Lemma finalize_count_aborted w t :
  is_ok (run w t) = false -> finalize_count w [t] = 0%nat.
Proof.
  intros Hr. simpl. destruct (run w t); [discriminate|].
  destruct (payload t); reflexivity.
Qed.

Lemma tally_finalized_eq w t :
  w.(tallies) !! voting = Some t -> tally_finalized w = t.(is_finalized_flag).
Proof. intros Ht. unfold tally_finalized. rewrite Ht. reflexivity. Qed.

(** Once finalized, no transaction changes the tally record. *)
Lemma frozen_step w t :
  tally_finalized w = true ->
  (commit w t).(tallies) !! voting = w.(tallies) !! voting
  /\ finalize_count w [t] = 0%nat.
Proof.
  unfold tally_finalized.
  destruct (tallies w !! voting) as [tr|] eqn:Ht; [|discriminate].
  intros Hfin. unfold commit.
  destruct (run w t) as [w'|f] eqn:Hrun.
  2:{ rewrite finalize_count_aborted by (rewrite Hrun; reflexivity). auto. }
  destruct t as [who now p].
  destruct p; simpl finalize_count; rewrite ?Hrun;
    unfold run in Hrun; simpl in Hrun; open_run Hrun; simpl;
    try (split; [exact Ht | reflexivity]).
  - unfold initialize in Hcall. peel Hcall as st1 Hm. injection Hcall as <- <-.
    split; [|reflexivity]. eapply ledger_facts.move_to_keeps; eauto.
  - rewrite (tally_facts.start_tally_eq _ _ _ _ _ Ht), Hfin in Hcall.
    destruct (negb (who =? admin tr)); [discriminate|].
    destruct (negb (polling_end_time tr <=? now)); discriminate.
  - rewrite (tally_facts.record_result_eq _ _ _ _ _ _ Ht), Hfin in Hcall.
    destruct (negb (who =? admin tr)); discriminate.
  - rewrite (tally_facts.finalize_tally_eq _ _ _ _ _ _ _ _ Ht), Hfin in Hcall.
    destruct (negb (who =? admin tr)); discriminate.
Qed.

(** Before finalization a transaction either leaves the flag, the result
    hash and the proof alone, or it is the committed [finalize_tally] that
    sets all three. *)
Lemma open_step w t :
  tally_finalized w = false ->
  (finalize_count w [t] = 0%nat
   /\ tally_finalized (commit w t) = false
   /\ tally_proof (commit w t) = tally_proof w)
  \/ (finalize_count w [t] = 1%nat
      /\ tally_finalized (commit w t) = true
      /\ exists valid invalid h p,
           payload t = FinalizeTally valid invalid h p
           /\ tally_proof (commit w t) = (h, p)).
Proof.
  intros Hopen. unfold commit.
  destruct (run w t) as [w'|f] eqn:Hrun.
  2:{ left. rewrite finalize_count_aborted by (rewrite Hrun; reflexivity). auto. }
  destruct t as [who now p].
  destruct p; simpl finalize_count; rewrite ?Hrun;
    unfold run in Hrun; simpl in Hrun; open_run Hrun;
    try (left; split; [reflexivity|]; split; [exact Hopen | reflexivity]).
  - (* initialize *)
    left. split; [reflexivity|].
    unfold initialize in Hcall. peel Hcall as st1 Hm. injection Hcall as <- <-.
    apply ledger_facts.move_to_Ok in Hm as [Hnone ->].
    unfold tally_finalized, tally_proof in *. simpl.
    destruct (decide (signer.address_of who = voting)) as [Heq|Hne].
    + rewrite Heq in *. rewrite lookup_insert_eq, Hnone. auto.
    + rewrite lookup_insert_ne by exact Hne. auto.
  - (* start_tally *)
    left. split; [reflexivity|].
    destruct (tallies w !! voting) as [tr|] eqn:Ht;
      [|unfold start_tally, borrow_global in Hcall; rewrite Ht in Hcall; discriminate].
    rewrite (tally_facts.start_tally_eq _ _ _ _ _ Ht) in Hcall.
    rewrite (tally_finalized_eq _ _ Ht) in Hopen.
    destruct (negb (who =? admin tr)); [discriminate|].
    destruct (negb (polling_end_time tr <=? now)); [discriminate|].
    rewrite Hopen in Hcall. injection Hcall as <- <-.
    unfold tally_finalized, tally_proof. simpl.
    rewrite lookup_insert_eq, Ht. simpl. auto.
  - (* record_result *)
    left. split; [reflexivity|].
    destruct (tallies w !! voting) as [tr|] eqn:Ht;
      [|unfold record_result, borrow_global in Hcall; rewrite Ht in Hcall; discriminate].
    rewrite (tally_facts.record_result_eq _ _ _ _ _ _ Ht) in Hcall.
    rewrite (tally_finalized_eq _ _ Ht) in Hopen.
    destruct (negb (who =? admin tr)); [discriminate|].
    rewrite Hopen in Hcall. injection Hcall as <- <-.
    unfold tally_finalized, tally_proof. simpl.
    rewrite lookup_insert_eq, Ht. simpl. auto.
  - (* finalize_tally *)
    right. split; [reflexivity|].
    destruct (tallies w !! voting) as [tr|] eqn:Ht;
      [|unfold finalize_tally, borrow_global in Hcall; rewrite Ht in Hcall; discriminate].
    rewrite (tally_facts.finalize_tally_eq _ _ _ _ _ _ _ _ Ht) in Hcall.
    rewrite (tally_finalized_eq _ _ Ht) in Hopen.
    destruct (negb (who =? admin tr)); [discriminate|].
    rewrite Hopen in Hcall. injection Hcall as <- <-.
    unfold tally_finalized, tally_proof. simpl.
    rewrite lookup_insert_eq. simpl. eauto 8.
Qed.

Lemma frozen_replay txs : forall w,
  tally_finalized w = true ->
  (replay w txs).(tallies) !! voting = w.(tallies) !! voting
  /\ finalize_count w txs = 0%nat.
Proof.
  induction txs as [|t txs IH]; intros w Hfin; [auto|].
  rewrite ledger_facts.replay_cons, finalize_count_cons.
  destruct (frozen_step w t Hfin) as [Hsame Hzero].
  assert (tally_finalized (commit w t) = true) as Hfin'.
  { unfold tally_finalized in *. rewrite Hsame. exact Hfin. }
  destruct (IH _ Hfin') as [Hsame' Hzero'].
  rewrite Hsame', Hsame, Hzero, Hzero'. auto.
Qed.

Lemma open_replay txs : forall w,
  tally_finalized w = false ->
  (finalize_count w txs = 0%nat
   /\ tally_finalized (replay w txs) = false
   /\ tally_proof (replay w txs) = tally_proof w)
  \/ (finalize_count w txs = 1%nat
      /\ tally_finalized (replay w txs) = true
      /\ exists t valid invalid h p,
           In t txs /\ payload t = FinalizeTally valid invalid h p
           /\ tally_proof (replay w txs) = (h, p)).
Proof.
  induction txs as [|t txs IH]; intros w Hopen; [left; auto|].
  rewrite ledger_facts.replay_cons, finalize_count_cons.
  destruct (open_step w t Hopen)
    as [(Hzero & Hopen' & Hproof)|(Hone & Hfin & valid & invalid & h & p & Hpay & Hproof)].
  - destruct (IH _ Hopen')
      as [(Hzero' & Hopen'' & Hproof')
         |(Hone' & Hfin' & t' & valid & invalid & h & p & Hin & Hpay & Hproof')].
    + left. rewrite Hzero, Hzero', Hproof', Hproof. auto.
    + right. rewrite Hzero, Hone'. split; [reflexivity|]. split; [exact Hfin'|].
      exists t', valid, invalid, h, p. simpl. auto.
  - destruct (frozen_replay txs _ Hfin) as [Hsame Hzero].
    right. rewrite Hone, Hzero. split; [reflexivity|].
    unfold tally_finalized, tally_proof in *. rewrite Hsame.
    split; [exact Hfin|]. exists t, valid, invalid, h, p. simpl. auto.
Qed.

(** C6. Starting from a tally that is not finalized, over any history of
    transactions: at most one [finalize_tally] commits, and the tally is
    finalized exactly when one did; until then the result hash and the
    proof are the ones the record started with; once finalized they are the
    arguments of that one [finalize_tally], every later history leaves the
    whole record (flag, results, totals, hash, proof) as it is, and
    [record_result], [finalize_tally] and [start_tally] abort. *)
Theorem tally_finalization_one_way w txs :
  tally_finalized w = false ->
  (finalize_count w txs <= 1)%nat
  /\ (tally_finalized (replay w txs) = true <-> finalize_count w txs = 1%nat)
  /\ (tally_finalized (replay w txs) = false ->
      tally_proof (replay w txs) = tally_proof w)
  /\ (tally_finalized (replay w txs) = true ->
      (exists t valid invalid h p,
         In t txs /\ payload t = FinalizeTally valid invalid h p
         /\ tally_proof (replay w txs) = (h, p))
      /\ (forall more,
            (replay (replay w txs) more).(tallies) !! voting
              = (replay w txs).(tallies) !! voting
            /\ finalize_count (replay w txs) more = 0%nat)
      /\ (forall who now cid n pct valid invalid h p total,
            is_ok (run (replay w txs) (tx who now (RecordResult cid n pct))) = false
            /\ is_ok (run (replay w txs) (tx who now (FinalizeTally valid invalid h p)))
               = false
            /\ is_ok (run (replay w txs) (tx who now (StartTally total))) = false)).
Proof.
  intros Hopen.
  destruct (open_replay txs w Hopen)
    as [(Hzero & Hopen' & Hproof)
       |(Hone & Hfin & t & valid & invalid & h & p & Hin & Hpay & Hproof)].
  - rewrite Hzero, Hopen'. split; [lia|]. split; [split; discriminate|].
    split; [auto|]. discriminate.
  - rewrite Hone, Hfin. split; [lia|]. split; [split; reflexivity|].
    split; [discriminate|]. intros _.
    split; [exists t, valid, invalid, h, p; auto|].
    split; [intros more; apply frozen_replay; exact Hfin|].
    intros who now cid n pct valid' invalid' h' p' total.
    unfold tally_finalized in Hfin.
    destruct (tallies (replay w txs) !! voting) as [tr|] eqn:Ht; [|discriminate].
    unfold run, with_tallies. simpl.
    rewrite (tally_facts.record_result_eq _ _ _ _ _ _ Ht).
    rewrite (tally_facts.finalize_tally_eq _ _ _ _ _ _ _ _ Ht).
    rewrite (tally_facts.start_tally_eq _ _ _ _ _ Ht).
    rewrite Hfin.
    destruct (negb (who =? admin tr)); simpl; [auto|].
    destruct (negb (polling_end_time tr <=? now)); simpl; auto.
Qed.
End facts.

(** The tally of the demo deployment: started, one result recorded,
    finalized with hash [H]; a later finalization with hash [X] aborts. *)
Lemma tally_finalization_witness :
  let history :=
    [ tx 1 300 (StartTally 1);
      tx 1 301 (RecordResult "candA" 1 10000);
      tx 1 302 (FinalizeTally 1 0 "H" "P");
      tx 1 303 (FinalizeTally 0 1 "X" "Q") ] in
  (@finalize_count demo_addresses demo_world history <= 1)%nat
  /\ @verify_tally_proof demo_addresses
       (@replay demo_addresses demo_world history).(tallies) "H" = Ok true
  /\ @verify_tally_proof demo_addresses
       (@replay demo_addresses demo_world history).(tallies) "X" = Ok false.
Proof.
  intros history. split.
  - refine (proj1 (@tally_finalization_one_way demo_addresses demo_world history _)).
    vm_compute. reflexivity.
  - vm_compute. auto.
Defined.
End finalization_facts.

(** ** The election of the demo deployment, end to end *)
Module scenarios.

(** [h1] is eligible after registering and casts [v1] under [T1]. *)
Example first_cast :
  let w1 := @replay demo_addresses demo_world
              [tx 5 150 (CastVote "h1" "vc" "v1" "ipfs" "T1")] in
  @voter_registry.is_voter_eligible demo_addresses demo_world.(registries) "h1" = Ok true
  /\ @encrypted_ballot.verify_vote demo_addresses w1.(ballot_boxes) "T1"
     = Ok (true, "v1", 150)
  /\ @encrypted_ballot.get_vote_count demo_addresses w1.(ballot_boxes) = Ok 1.
Proof. vm_compute. auto. Qed.

(** A second cast by [h1] is refused until the voted flag is reset; after the
    reset it replaces the first one and the count stays 1. *)
Example revote_needs_reset :
  let w1 := @replay demo_addresses demo_world
              [tx 5 150 (CastVote "h1" "vc" "v1" "ipfs" "T1")] in
  let again := tx 5 160 (CastVote "h1" "vc" "v2" "ipfs" "T1") in
  let w2 := @replay demo_addresses w1 [tx 5 155 (ResetVotedStatus "h1"); again] in
  @run demo_addresses w1 again
    = Err (Abort encrypted_ballot.this_module encrypted_ballot.ENOT_ELIGIBLE)
  /\ @encrypted_ballot.verify_vote demo_addresses w2.(ballot_boxes) "T1"
     = Ok (true, "v2", 160)
  /\ @encrypted_ballot.get_vote_count demo_addresses w2.(ballot_boxes) = Ok 1.
Proof. vm_compute. auto. Qed.

(** After polling: start, one result, finalize with hash [H]. *)
Example tally_run :
  let w3 := @replay demo_addresses demo_world
              [ tx 1 300 (StartTally 1);
                tx 1 301 (RecordResult "candA" 1 10000);
                tx 1 302 (FinalizeTally 1 0 "H" "P") ] in
  @tally_validator.is_finalized demo_addresses w3.(tallies) = Ok true
  /\ @tally_validator.get_candidate_result demo_addresses w3.(tallies) "candA"
     = Ok (true, 1, 10000)
  /\ @tally_validator.verify_tally_proof demo_addresses w3.(tallies) "H" = Ok true
  /\ @tally_validator.verify_tally_proof demo_addresses w3.(tallies) "X" = Ok false
  /\ @tally_validator.get_zkp_proof demo_addresses w3.(tallies) = Ok "P".
Proof. vm_compute. auto. Qed.

(** A module initialised by an account other than [@voting] publishes its
    resource under that account, where no function of the package reads. *)
Example initialize_elsewhere :
  let w := @replay demo_addresses genesis [tx 7 0 RegistryInitialize] in
  @run demo_addresses w (tx 5 10 (RegisterVoter "h1" "a1" "b1")) = Err MissingResource.
Proof. vm_compute. reflexivity. Qed.
End scenarios.

(** ** The voter registry over histories *)
Module registry_history.
Import voter_registry.

Section facts.
Context `{NamedAddresses}.

Lemma replay_preserves (P : World -> Prop) :
  (forall w t, P w -> P (commit w t)) ->
  forall txs w, P w -> P (replay w txs).
Proof.
  intros Hstep txs. induction txs as [|t txs IH]; intros w Hw; [exact Hw|].
  rewrite ledger_facts.replay_cons. apply IH, Hstep, Hw.
Qed.

Lemma deactivate_voter_eq st r who e :
  st !! voting = Some r ->
  deactivate_voter st who e =
    if negb (who =? r.(admin)) then Err (Abort this_module EUNAUTHORIZED)
    else match r.(voters) !! e with
         | Some v => Ok (<[voting := set_voters (<[e := set_is_active false v]> r.(voters)) r]>
                           st, [])
         | None => Err (Abort this_module ENOT_REGISTERED)
         end.
Proof.
  intros Hr. unfold deactivate_voter. rewrite (borrow_global_Some _ _ _ Hr). simpl.
  unfold signer.address_of. destruct (who =? admin r); simpl; [|reflexivity].
  unfold table.contains, table.borrow. destruct (voters r !! e); reflexivity.
Qed.

Lemma get_voter_details_eq st r e :
  st !! voting = Some r ->
  get_voter_details st e =
    Ok (match r.(voters) !! e with
        | Some v => (v.(is_active), v.(registered_at), v.(is_struck_off), v.(has_voted))
        | None => (false, 0, false, false)
        end).
Proof.
  intros Hr. unfold get_voter_details. rewrite (borrow_global_Some _ _ _ Hr). simpl.
  unfold table.contains, table.borrow. destruct (voters r !! e); reflexivity.
Qed.

(** What one transaction does to the registry at [@voting]: nothing, one
    insertion of a new record, or one flag of one record. *)
Lemma registry_commit_cases w t r :
  w.(registries) !! voting = Some r ->
  exists r',
    (commit w t).(registries) !! voting = Some r' /\ r'.(admin) = r.(admin) /\
    (r' = r
     \/ (exists e a b,
           payload t = RegisterVoter e a b /\ r.(voters) !! e = None /\
           r'.(voters) = <[e := new_registration e a b (block_time t)]> r.(voters) /\
           r'.(total_registered) = r.(total_registered) + 1 /\
           r.(total_registered) + 1 <= MAX_U64)
     \/ (exists e v v',
           voter_of (payload t) = Some e /\ r.(voters) !! e = Some v /\
           r'.(voters) = <[e := v']> r.(voters) /\
           r'.(total_registered) = r.(total_registered) /\
           (v' = set_has_voted true v \/ v' = set_has_voted false v
            \/ (v' = set_is_active false v /\ sender t = r.(admin))))).
Proof.
  intros Hr. unfold commit.
  destruct (run w t) as [w'|f] eqn:Hrun; [|exists r; auto].
  destruct t as [who now p].
  destruct p as [ | e a b | e | e | e | eid | code c | code prf | root | ps pe
                 | e vc vh ipfs code | root | eid pe | total | cid n pct
                 | valid invalid h prf ];
    unfold run in Hrun; simpl in Hrun; open_run Hrun; simpl;
    try (exists r; auto; fail).
  - (* initialize *)
    unfold initialize in Hcall. peel Hcall as st1 Hm. injection Hcall as <- <-.
    exists r. split; [eapply ledger_facts.move_to_keeps; eauto|auto].
  - (* register_voter *)
    apply registry_facts.register_voter_Ok in Hcall as (r0 & Hr0 & Hx & Hle & _ & ->).
    rewrite Hr in Hr0. injection Hr0 as <-.
    eexists. split; [apply lookup_insert_eq|]. simpl. split; [reflexivity|].
    right. left. exists e, a, b. auto.
  - (* mark_voted *)
    rewrite (registry_facts.mark_voted_eq _ _ _ _ Hr) in Hcall.
    destruct (voters r !! e) as [v|] eqn:He; [|discriminate].
    injection Hcall as <- <-.
    eexists. split; [apply lookup_insert_eq|]. simpl. split; [reflexivity|].
    right. right. exists e, v, (set_has_voted true v). auto 7.
  - (* reset_voted_status *)
    rewrite (registry_facts.reset_voted_status_eq _ _ _ Hr) in Hcall.
    destruct (voters r !! e) as [v|] eqn:He; [|discriminate].
    injection Hcall as <- <-.
    eexists. split; [apply lookup_insert_eq|]. simpl. split; [reflexivity|].
    right. right. exists e, v, (set_has_voted false v). auto 7.
  - (* deactivate_voter *)
    rewrite (deactivate_voter_eq _ _ _ _ Hr) in Hcall.
    destruct (who =? admin r) eqn:Hadm; simpl in Hcall; [|discriminate].
    apply Z.eqb_eq in Hadm.
    destruct (voters r !! e) as [v|] eqn:He; [|discriminate].
    injection Hcall as <- <-.
    eexists. split; [apply lookup_insert_eq|]. simpl. split; [reflexivity|].
    right. right. exists e, v, (set_is_active false v). auto 8.
  - (* cast_vote *)
    apply ballot_facts.cast_vote_Ok in Hcall as (bb & voted & _ & _ & _ & Hm & _).
    rewrite (registry_facts.mark_voted_eq _ _ _ _ Hr) in Hm.
    destruct (voters r !! e) as [v|] eqn:He; [|discriminate].
    injection Hm as <- <-.
    eexists. split; [apply lookup_insert_eq|]. simpl. split; [reflexivity|].
    right. right. exists e, v, (set_has_voted true v). auto 7.
Qed.

(** Only [initialize] signed by [@voting] creates the registry there. *)
Lemma registry_commit_fresh w t :
  w.(registries) !! voting = None ->
  (commit w t).(registries) !! voting = None
  \/ (commit w t).(registries) !! voting
     = Some {| voters := ∅; total_registered := 0; admin := voting |}.
Proof.
  intros Hnone. unfold commit.
  destruct (run w t) as [w'|f] eqn:Hrun; [|auto].
  destruct t as [who now p].
  destruct p as [ | e a b | e | e | e | eid | code c | code prf | root | ps pe
                 | e vc vh ipfs code | root | eid pe | total | cid n pct
                 | valid invalid h prf ];
    unfold run in Hrun; simpl in Hrun; open_run Hrun; simpl; auto.
  - unfold initialize in Hcall. peel Hcall as st1 Hm. injection Hcall as <- <-.
    apply ledger_facts.move_to_Ok in Hm as [_ ->]. unfold signer.address_of.
    destruct (decide (who = voting)) as [->|Hne].
    + right. apply lookup_insert_eq.
    + left. rewrite lookup_insert_ne by exact Hne. exact Hnone.
  - apply registry_facts.register_voter_Ok in Hcall as (r0 & Hr0 & _). congruence.
  - unfold mark_voted, borrow_global in Hcall. rewrite Hnone in Hcall. discriminate.
  - unfold reset_voted_status, borrow_global in Hcall. rewrite Hnone in Hcall.
    discriminate.
  - unfold deactivate_voter, borrow_global in Hcall. rewrite Hnone in Hcall.
    discriminate.
  - apply ballot_facts.cast_vote_Ok in Hcall as (bb & voted & _ & _ & Hel & _).
    unfold is_voter_eligible, borrow_global in Hel. rewrite Hnone in Hel. discriminate.
Qed.

(** X1. In every history from the empty ledger, [get_total_registered]
    returns the number of records the voters table holds. *)
Theorem total_registered_counts_voters txs r :
  (replay genesis txs).(registries) !! voting = Some r ->
  get_total_registered (replay genesis txs).(registries)
    = Ok (Z.of_nat (size r.(voters))).
Proof.
  intros Hr.
  assert (forall r0, (replay genesis txs).(registries) !! voting = Some r0 ->
                     r0.(total_registered) = Z.of_nat (size r0.(voters))) as Hinv.
  { apply (replay_preserves
             (fun w => forall r0, w.(registries) !! voting = Some r0 ->
                                  r0.(total_registered) = Z.of_nat (size r0.(voters)))).
    - intros w t Hw r1 Hr1.
      destruct (registries w !! voting) as [r0|] eqn:Hr0.
      + destruct (registry_commit_cases w t r0 Hr0) as (r' & Hr' & _ & Hcases).
        rewrite Hr1 in Hr'. injection Hr' as <-.
        destruct Hcases as [->|[(e & a & b & _ & Hnone & -> & -> & _)
                               |(e & v & v' & _ & Hsome & -> & -> & _)]].
        * auto.
        * rewrite map_size_insert_None by exact Hnone. rewrite (Hw r0 eq_refl). lia.
        * rewrite map_size_insert_Some by (rewrite Hsome; eauto). auto.
      + destruct (registry_commit_fresh w t Hr0) as [Hn|Hf]; [congruence|].
        rewrite Hr1 in Hf. injection Hf as ->. simpl. rewrite map_size_empty.
        reflexivity.
    - intros r0 Hr0. simpl in Hr0. rewrite lookup_empty in Hr0. discriminate. }
  unfold get_total_registered. rewrite (borrow_global_Some _ _ _ Hr). simpl.
  rewrite (Hinv r Hr). reflexivity.
Qed.

(** X2. Deactivation is permanent: once [deactivate_voter x] has committed,
    after every history [is_voter_eligible x] answers false and every
    [cast_vote] in the name of [x] aborts; nothing sets [is_active] again. *)
Theorem deactivation_is_permanent w who now x w1 txs :
  run w (tx who now (DeactivateVoter x)) = Ok w1 ->
  is_voter_eligible (replay w1 txs).(registries) x = Ok false
  /\ (exists registered_at struck voted,
        get_voter_details (replay w1 txs).(registries) x
          = Ok (false, registered_at, struck, voted))
  /\ forall who' now' vc vh ipfs code,
       is_ok (run (replay w1 txs) (tx who' now' (CastVote x vc vh ipfs code))) = false.
Proof.
  intros Hrun.
  assert (exists r v, (replay w1 txs).(registries) !! voting = Some r /\
                      r.(voters) !! x = Some v /\ v.(is_active) = false)
    as (r & v & Hr & Hv & Hoff).
  { apply (replay_preserves
             (fun w0 => exists r v, w0.(registries) !! voting = Some r /\
                                    r.(voters) !! x = Some v /\ v.(is_active) = false)).
    - intros w0 t (r0 & v0 & Hr0 & Hv0 & Hoff0).
      destruct (registry_commit_cases w0 t r0 Hr0) as (r' & Hr' & _ & Hcases).
      exists r'.
      destruct Hcases as [->|[(e & a & b & _ & Hnone & Hvs & _)
                             |(e & v1 & v' & _ & Hsome & Hvs & _ & Hkind)]].
      + eauto.
      + exists v0. rewrite Hvs, lookup_insert_ne by congruence. auto.
      + destruct (decide (e = x)) as [->|Hne].
        * exists v'. rewrite Hvs, lookup_insert_eq.
          rewrite Hv0 in Hsome. injection Hsome as <-.
          split; [exact Hr'|]. split; [reflexivity|].
          destruct Hkind as [->|[->|[-> _]]]; simpl; auto.
        * exists v0. rewrite Hvs, lookup_insert_ne by exact Hne. auto.
    - unfold run in Hrun. simpl in Hrun. open_run Hrun. simpl.
      destruct (registries w !! voting) as [r0|] eqn:Hr0;
        [|unfold deactivate_voter, borrow_global in Hcall; rewrite Hr0 in Hcall;
          discriminate].
      rewrite (deactivate_voter_eq _ _ _ _ Hr0) in Hcall.
      destruct (negb (who =? admin r0)); [discriminate|].
      destruct (voters r0 !! x) as [v0|] eqn:Hv0; [|discriminate].
      injection Hcall as <- <-.
      eexists _, _. split; [apply lookup_insert_eq|]. simpl.
      split; [apply lookup_insert_eq|]. reflexivity. }
  assert (is_voter_eligible (replay w1 txs).(registries) x = Ok false) as Hel.
  { rewrite (registry_facts.is_voter_eligible_eq _ _ _ Hr), Hv.
    unfold eligible_record. rewrite Hoff. reflexivity. }
  split; [exact Hel|]. split.
  - rewrite (get_voter_details_eq _ _ _ Hr), Hv, Hoff. eauto.
  - intros who' now' vc vh ipfs code.
    destruct (run (replay w1 txs) (tx who' now' (CastVote x vc vh ipfs code)))
      as [w2|f] eqn:Hcast; [|reflexivity].
    unfold run in Hcast. simpl in Hcast. open_run Hcast.
    apply ballot_facts.cast_vote_Ok in Hcall as (bb & voted & _ & _ & Hel' & _).
    congruence.
Qed.

(** X3. After [register_voter x] has committed at time [now], in every later
    history [get_voter_details x] keeps reporting [now] as the registration
    time and the record as struck off the physical roll: no call changes
    these two fields or removes the record. *)
Theorem registration_is_kept w who now x a b w1 txs :
  run w (tx who now (RegisterVoter x a b)) = Ok w1 ->
  exists active voted,
    get_voter_details (replay w1 txs).(registries) x = Ok (active, now, true, voted).
Proof.
  intros Hrun.
  assert (exists r v, (replay w1 txs).(registries) !! voting = Some r /\
                      r.(voters) !! x = Some v /\
                      v.(registered_at) = now /\ v.(is_struck_off) = true)
    as (r & v & Hr & Hv & Hat & Hstruck).
  { apply (replay_preserves
             (fun w0 => exists r v, w0.(registries) !! voting = Some r /\
                                    r.(voters) !! x = Some v /\
                                    v.(registered_at) = now /\
                                    v.(is_struck_off) = true)).
    - intros w0 t (r0 & v0 & Hr0 & Hv0 & Hat0 & Hs0).
      destruct (registry_commit_cases w0 t r0 Hr0) as (r' & Hr' & _ & Hcases).
      exists r'.
      destruct Hcases as [->|[(e & a' & b' & _ & Hnone & Hvs & _)
                             |(e & v1 & v' & _ & Hsome & Hvs & _ & Hkind)]].
      + eauto.
      + exists v0. rewrite Hvs, lookup_insert_ne by congruence. auto.
      + destruct (decide (e = x)) as [->|Hne].
        * exists v'. rewrite Hvs, lookup_insert_eq.
          rewrite Hv0 in Hsome. injection Hsome as <-.
          split; [exact Hr'|]. split; [reflexivity|].
          destruct Hkind as [->|[->|[-> _]]]; simpl; auto.
        * exists v0. rewrite Hvs, lookup_insert_ne by exact Hne. auto.
    - unfold run in Hrun. simpl in Hrun. open_run Hrun. simpl.
      apply registry_facts.register_voter_Ok in Hcall as (r0 & Hr0 & _ & _ & _ & ->).
      eexists _, _. split; [apply lookup_insert_eq|]. simpl.
      split; [apply lookup_insert_eq|]. auto. }
  rewrite (get_voter_details_eq _ _ _ Hr), Hv, Hat, Hstruck. eauto.
Qed.

(** X4. A transaction changes the registry record of no voter other than
    the one its call names: for every other voter [y], [get_voter_details y]
    and [is_voter_eligible y] answer after the transaction what they
    answered before. *)
Theorem registry_calls_are_local w t r y :
  w.(registries) !! voting = Some r ->
  voter_of (payload t) <> Some y ->
  get_voter_details (commit w t).(registries) y = get_voter_details w.(registries) y
  /\ is_voter_eligible (commit w t).(registries) y = is_voter_eligible w.(registries) y.
Proof.
  intros Hr Hother.
  destruct (registry_commit_cases w t r Hr) as (r' & Hr' & _ & Hcases).
  rewrite (get_voter_details_eq _ _ _ Hr'), (get_voter_details_eq _ _ _ Hr).
  rewrite (registry_facts.is_voter_eligible_eq _ _ _ Hr').
  rewrite (registry_facts.is_voter_eligible_eq _ _ _ Hr).
  assert (voters r' !! y = voters r !! y) as ->; [|auto].
  destruct Hcases as [->|[(e & a & b & Hpay & _ & -> & _)
                         |(e & v & v' & Hpay & _ & -> & _)]].
  - reflexivity.
  - rewrite Hpay in Hother. simpl in Hother.
    apply lookup_insert_ne. congruence.
  - rewrite Hpay in Hother. apply lookup_insert_ne. congruence.
Qed.
End facts.

Lemma total_registered_witness :
  @get_total_registered demo_addresses demo_world.(registries) = Ok 1.
Proof.
  exact (@total_registered_counts_voters demo_addresses
           (demo_setup ++ [tx 5 10 (RegisterVoter "h1" "a1" "b1")]) demo_registry eq_refl).
Defined.

(** The admin deactivates [h1]; a later reset of the voted flag does not make
    [h1] eligible again. *)
Lemma deactivation_witness :
  let w1 := @commit demo_addresses demo_world (tx 1 20 (DeactivateVoter "h1")) in
  @is_voter_eligible demo_addresses
    (@replay demo_addresses w1 [tx 5 30 (ResetVotedStatus "h1")]).(registries) "h1"
  = Ok false.
Proof.
  intros w1.
  refine (proj1 (@deactivation_is_permanent demo_addresses demo_world 1 20 "h1" w1
                   [tx 5 30 (ResetVotedStatus "h1")] _)).
  vm_compute. reflexivity.
Defined.

Lemma registration_witness :
  exists active voted,
    @get_voter_details demo_addresses
      (@replay demo_addresses demo_world
         [tx 5 150 (CastVote "h1" "vc" "v1" "ipfs" "T1");
          tx 1 160 (DeactivateVoter "h1")]).(registries) "h1"
    = Ok (active, 10, true, voted).
Proof.
  refine (@registration_is_kept demo_addresses
            (@replay demo_addresses genesis demo_setup) 5 10 "h1" "a1" "b1" demo_world
            [tx 5 150 (CastVote "h1" "vc" "v1" "ipfs" "T1");
             tx 1 160 (DeactivateVoter "h1")] _).
  vm_compute. reflexivity.
Defined.

(** Marking [h1] as voted leaves the answer for an unregistered [h2] alone. *)
Lemma registry_local_witness :
  @get_voter_details demo_addresses
    (@commit demo_addresses demo_world (tx 9 20 (MarkVoted "h1"))).(registries) "h2"
  = @get_voter_details demo_addresses demo_world.(registries) "h2".
Proof.
  refine (proj1 (@registry_calls_are_local demo_addresses demo_world
                   (tx 9 20 (MarkVoted "h1")) demo_registry "h2" _ _)).
  - vm_compute. reflexivity.
  - simpl. intros [=].
Defined.
End registry_history.

(** ** The ballot box over histories *)
Module ballot_history.
Import encrypted_ballot.

Section facts.
Context `{NamedAddresses}.

(** What one transaction does to the ballot box at [@voting]: nothing, one
    commitment written by [cast_vote], or the merkle root set by the admin. *)
Lemma ballot_commit_cases w t bb :
  w.(ballot_boxes) !! voting = Some bb ->
  exists bb',
    (commit w t).(ballot_boxes) !! voting = Some bb' /\
    bb'.(polling_start) = bb.(polling_start) /\
    bb'.(polling_end) = bb.(polling_end) /\
    bb'.(admin) = bb.(admin) /\
    (bb' = bb
     \/ (exists e vc vh ipfs code,
           payload t = CastVote e vc vh ipfs code /\
           is_ok (run w t) = true /\
           bb.(polling_start) <= block_time t <= bb.(polling_end) /\
           bb'.(votes)
             = <[code := final_commitment vc vh ipfs code (block_time t)]> bb.(votes) /\
           bb'.(vote_count) = (if table.contains bb.(votes) code
                               then bb.(vote_count) else bb.(vote_count) + 1) /\
           bb'.(merkle_root) = bb.(merkle_root))
     \/ (exists root,
           payload t = BallotUpdateMerkleRoot root /\ sender t = bb.(admin) /\
           bb'.(votes) = bb.(votes) /\ bb'.(vote_count) = bb.(vote_count) /\
           bb'.(merkle_root) = root)).
Proof.
  intros Hbb. unfold commit.
  destruct (run w t) as [w'|f] eqn:Hrun; [|exists bb; auto 6].
  destruct t as [who now p].
  destruct p as [ | e a b | e | e | e | eid | code c | code prf | root | ps pe
                 | e vc vh ipfs code | root | eid pe | total | cid n pct
                 | valid invalid h prf ];
    unfold run in Hrun; simpl in Hrun; open_run Hrun; simpl;
    try (exists bb; auto 6; fail).
  - (* initialize *)
    unfold initialize in Hcall. peel Hcall as st1 Hm. injection Hcall as <- <-.
    exists bb. split; [eapply ledger_facts.move_to_keeps; eauto|auto 6].
  - (* cast_vote *)
    apply ballot_facts.cast_vote_Ok in Hcall
      as (bb0 & voted & Hbb0 & Hwin & _ & _ & _ & -> & _).
    rewrite Hbb in Hbb0. injection Hbb0 as <-.
    eexists. split; [apply lookup_insert_eq|]. simpl.
    do 3 (split; [reflexivity|]).
    right. left. exists e, vc, vh, ipfs, code. auto 8.
  - (* update_merkle_root *)
    unfold update_merkle_root in Hcall.
    rewrite (borrow_global_Some _ _ _ Hbb) in Hcall. simpl in Hcall.
    peel Hcall as u Hadm. apply assert_Ok, Z.eqb_eq in Hadm.
    injection Hcall as <- <-.
    eexists. split; [apply lookup_insert_eq|]. simpl.
    do 3 (split; [reflexivity|]).
    right. right. exists root. auto 6.
Qed.

(** Only [initialize] signed by [@voting] creates the ballot box there. *)
Lemma ballot_commit_fresh w t :
  w.(ballot_boxes) !! voting = None ->
  (commit w t).(ballot_boxes) !! voting = None
  \/ exists ps pe,
       (commit w t).(ballot_boxes) !! voting
       = Some {| votes := ∅; vote_count := 0; polling_start := ps; polling_end := pe;
                 admin := voting; merkle_root := "" |}.
Proof.
  intros Hnone. unfold commit.
  destruct (run w t) as [w'|f] eqn:Hrun; [|auto].
  destruct t as [who now p].
  destruct p as [ | e a b | e | e | e | eid | code c | code prf | root | ps pe
                 | e vc vh ipfs code | root | eid pe | total | cid n pct
                 | valid invalid h prf ];
    unfold run in Hrun; simpl in Hrun; open_run Hrun; simpl; auto.
  - unfold initialize in Hcall. peel Hcall as st1 Hm. injection Hcall as <- <-.
    apply ledger_facts.move_to_Ok in Hm as [_ ->]. unfold signer.address_of.
    destruct (decide (who = voting)) as [->|Hne].
    + right. exists ps, pe. apply lookup_insert_eq.
    + left. rewrite lookup_insert_ne by exact Hne. exact Hnone.
  - apply ballot_facts.cast_vote_Ok in Hcall as (bb & voted & Hbb & _). congruence.
  - unfold update_merkle_root, borrow_global in Hcall. rewrite Hnone in Hcall.
    discriminate.
Qed.

Lemma get_merkle_root_eq st bb :
  st !! voting = Some bb -> get_merkle_root st = Ok bb.(merkle_root).
Proof.
  intros Hbb. unfold get_merkle_root. rewrite (borrow_global_Some _ _ _ Hbb).
  reflexivity.
Qed.

Lemma is_polling_active_eq st bb now :
  st !! voting = Some bb ->
  is_polling_active st now
    = Ok ((bb.(polling_start) <=? now) && (now <=? bb.(polling_end))).
Proof.
  intros Hbb. unfold is_polling_active. rewrite (borrow_global_Some _ _ _ Hbb).
  reflexivity.
Qed.

(** X5. In every history from the empty ledger, each commitment the ballot
    box stores is final, carries the tracking code it is stored under and
    was cast inside the polling window; so [verify_vote] on a stored code
    never reports a superseded ballot. *)
Theorem stored_commitments_are_final txs bb code c :
  (replay genesis txs).(ballot_boxes) !! voting = Some bb ->
  bb.(votes) !! code = Some c ->
  c.(is_final) = true /\ c.(tracking_code_hash) = code
  /\ bb.(polling_start) <= c.(cast_at) <= bb.(polling_end)
  /\ verify_vote (replay genesis txs).(ballot_boxes) code
     = Ok (true, c.(vote_hash), c.(cast_at)).
Proof.
  intros Hbb Hc.
  assert (c.(is_final) = true /\ c.(tracking_code_hash) = code
          /\ bb.(polling_start) <= c.(cast_at) <= bb.(polling_end)) as Hinv.
  { revert bb code c Hbb Hc.
    apply (registry_history.replay_preserves
             (fun w => forall bb code c,
                  w.(ballot_boxes) !! voting = Some bb ->
                  bb.(votes) !! code = Some c ->
                  c.(is_final) = true /\ c.(tracking_code_hash) = code
                  /\ bb.(polling_start) <= c.(cast_at) <= bb.(polling_end))).
    - intros w t Hw bb1 code c Hbb1 Hc.
      destruct (ballot_boxes w !! voting) as [bb0|] eqn:Hbb0.
      + destruct (ballot_commit_cases w t bb0 Hbb0)
          as (bb' & Hbb' & Hps & Hpe & _ & Hcases).
        rewrite Hbb1 in Hbb'. injection Hbb' as <-. rewrite Hps, Hpe.
        destruct Hcases as [->|[(e & vc & vh & ipfs & code' & _ & _ & Hwin & Hvs & _)
                               |(root & _ & _ & Hvs & _)]].
        * eapply Hw; eauto.
        * rewrite Hvs in Hc. destruct (decide (code' = code)) as [->|Hne].
          -- rewrite lookup_insert_eq in Hc. injection Hc as <-. simpl. auto.
          -- rewrite lookup_insert_ne in Hc by exact Hne. eapply Hw; eauto.
        * rewrite Hvs in Hc. eapply Hw; eauto.
      + destruct (ballot_commit_fresh w t Hbb0) as [Hn|(ps & pe & Hf)]; [congruence|].
        rewrite Hbb1 in Hf. injection Hf as ->. simpl in Hc.
        rewrite lookup_empty in Hc. discriminate.
    - intros bb0 code0 c0 Hbb0. simpl in Hbb0. rewrite lookup_empty in Hbb0.
      discriminate. }
  destruct Hinv as (Hfin & Hcode & Hwin). repeat split; try tauto.
  rewrite (ballot_facts.verify_vote_eq _ _ _ Hbb), Hc, Hfin. reflexivity.
Qed.

(** What a committed [cast_vote] transaction found and left behind. *)
Lemma run_cast_Ok w who now e vc vh ipfs code w1 :
  run w (tx who now (CastVote e vc vh ipfs code)) = Ok w1 ->
  exists bb r v,
    w.(ballot_boxes) !! voting = Some bb /\
    w.(registries) !! voting = Some r /\
    r.(voter_registry.voters) !! e = Some v /\
    eligible_record v = true /\
    bb.(polling_start) <= now <= bb.(polling_end) /\
    w1.(registries)
      = <[voting := voter_registry.set_voters
                      (<[e := voter_registry.set_has_voted true v]>
                         r.(voter_registry.voters)) r]> w.(registries) /\
    w1.(ballot_boxes)
      = <[voting :=
           {| votes := <[code := final_commitment vc vh ipfs code now]> bb.(votes);
              vote_count := (if table.contains bb.(votes) code
                             then bb.(vote_count) else bb.(vote_count) + 1);
              polling_start := bb.(polling_start);
              polling_end := bb.(polling_end);
              admin := bb.(admin);
              merkle_root := bb.(merkle_root) |}]> w.(ballot_boxes) /\
    w1.(boards) = w.(boards) /\ w1.(tallies) = w.(tallies).
Proof.
  intros Hrun. unfold run in Hrun. simpl in Hrun. open_run Hrun. simpl.
  apply ballot_facts.cast_vote_Ok in Hcall
    as (bb & voted & Hbb & Hwin & Hel & Hm & _ & -> & _).
  destruct (registries w !! voting) as [r|] eqn:Hr;
    [|unfold voter_registry.is_voter_eligible, borrow_global in Hel;
      rewrite Hr in Hel; discriminate].
  rewrite (registry_facts.is_voter_eligible_eq _ _ _ Hr) in Hel.
  rewrite (registry_facts.mark_voted_eq _ _ _ _ Hr) in Hm.
  destruct (voter_registry.voters r !! e) as [v|] eqn:Hv; [|discriminate].
  injection Hel as Hel. injection Hm as <- <-.
  exists bb, r, v. auto 10.
Qed.

(** An eligible voter's cast inside the window commits when the counter
    has room for a new code. *)
Lemma run_cast_commits w bb who now e vc vh ipfs code :
  w.(ballot_boxes) !! voting = Some bb ->
  bb.(polling_start) <= now <= bb.(polling_end) ->
  voter_registry.is_voter_eligible w.(registries) e = Ok true ->
  (bb.(votes) !! code = None -> bb.(vote_count) + 1 <= MAX_U64) ->
  exists w1, run w (tx who now (CastVote e vc vh ipfs code)) = Ok w1.
Proof.
  intros Hbb Hwin Hel Hroom.
  pose proof (ballot_facts.cast_vote_succeeds _ _ _ now who e vc vh ipfs code
                Hbb Hwin Hel Hroom) as Hok.
  unfold run. simpl.
  destruct (cast_vote (registries w) (ballot_boxes w) now who e vc vh ipfs code)
    as [[[reg st] ev]|]; [|discriminate].
  simpl. eauto.
Qed.

(** X6. A committed [cast_vote] uses up the voter's eligibility: right
    after it [is_voter_eligible] answers false for that identity, and every
    further [cast_vote] in its name aborts, with ENOT_ELIGIBLE inside the
    polling window. *)
Theorem one_cast_per_eligibility w who now e vc vh ipfs code w1 :
  run w (tx who now (CastVote e vc vh ipfs code)) = Ok w1 ->
  voter_registry.is_voter_eligible w1.(registries) e = Ok false
  /\ forall who' now' vc' vh' ipfs' code',
       is_ok (run w1 (tx who' now' (CastVote e vc' vh' ipfs' code'))) = false
       /\ (forall bb, w1.(ballot_boxes) !! voting = Some bb ->
             bb.(polling_start) <= now' <= bb.(polling_end) ->
             run w1 (tx who' now' (CastVote e vc' vh' ipfs' code'))
               = Err (Abort this_module ENOT_ELIGIBLE)).
Proof.
  intros Hrun.
  apply run_cast_Ok in Hrun
    as (bb & r & v & Hbb & Hr & Hv & Hel & Hwin & Hreg & Hbox & _).
  assert (voter_registry.is_voter_eligible (registries w1) e = Ok false) as Hnot.
  { rewrite Hreg.
    erewrite registry_facts.is_voter_eligible_eq by apply lookup_insert_eq.
    simpl. rewrite lookup_insert_eq. unfold eligible_record. simpl.
    rewrite andb_false_r. reflexivity. }
  split; [exact Hnot|]. intros who' now' vc' vh' ipfs' code'. split.
  - destruct (run w1 (tx who' now' (CastVote e vc' vh' ipfs' code')))
      as [w2|f] eqn:Hagain; [|reflexivity].
    apply run_cast_Ok in Hagain as (_ & r2 & v2 & _ & Hr2 & Hv2 & Hel2 & _).
    rewrite (registry_facts.is_voter_eligible_eq _ _ _ Hr2), Hv2, Hel2 in Hnot.
    discriminate.
  - intros bb1 Hbb1 [Hs He]. unfold run. simpl. unfold cast_vote.
    rewrite (borrow_global_Some _ _ _ Hbb1). simpl.
    apply Z.leb_le in Hs, He. rewrite Hs, He. simpl. rewrite Hnot. reflexivity.
Qed.

(** X7. The voted flag is the only guard against several ballots: after a
    committed cast under code [A], a [reset_voted_status] sent by anyone
    commits, and a further cast by the same identity under another code [B]
    inside the window commits too; both ballots are then final. *)
Theorem reset_allows_second_ballot
    w who1 t1 e vc1 v1 ipfs1 codeA w1 bb1 who2 t2 who3 t3 vc2 v2 ipfs2 codeB :
  run w (tx who1 t1 (CastVote e vc1 v1 ipfs1 codeA)) = Ok w1 ->
  w1.(ballot_boxes) !! voting = Some bb1 ->
  codeB <> codeA ->
  bb1.(polling_start) <= t3 <= bb1.(polling_end) ->
  (bb1.(votes) !! codeB = None -> bb1.(vote_count) + 1 <= MAX_U64) ->
  exists w2 w3,
    run w1 (tx who2 t2 (ResetVotedStatus e)) = Ok w2 /\
    run w2 (tx who3 t3 (CastVote e vc2 v2 ipfs2 codeB)) = Ok w3 /\
    verify_vote w3.(ballot_boxes) codeA = Ok (true, v1, t1) /\
    verify_vote w3.(ballot_boxes) codeB = Ok (true, v2, t3).
Proof.
  intros Hrun Hbb1 Hne Hwin Hroom.
  apply run_cast_Ok in Hrun
    as (bb & r & v & Hbb & Hr & Hv & Hel & _ & Hreg & Hbox & _).
  assert (bb1.(votes) !! codeA = Some (final_commitment vc1 v1 ipfs1 codeA t1)) as HA.
  { rewrite Hbox, lookup_insert_eq in Hbb1. injection Hbb1 as <-. simpl.
    apply lookup_insert_eq. }
  (* the reset *)
  assert (exists w2,
             run w1 (tx who2 t2 (ResetVotedStatus e)) = Ok w2 /\
             w2.(ballot_boxes) = w1.(ballot_boxes) /\
             voter_registry.is_voter_eligible w2.(registries) e = Ok true)
    as (w2 & Hreset & Hsame & Hel2).
  { unfold run, with_registries. simpl. rewrite Hreg.
    erewrite registry_facts.reset_voted_status_eq by apply lookup_insert_eq.
    simpl. rewrite lookup_insert_eq. simpl.
    eexists. split; [reflexivity|]. simpl. split; [reflexivity|].
    erewrite registry_facts.is_voter_eligible_eq by apply lookup_insert_eq.
    simpl. rewrite lookup_insert_eq. unfold eligible_record in *. simpl.
    apply andb_true_iff in Hel as [-> _]. reflexivity. }
  rewrite <- Hsame in Hbb1.
  destruct (run_cast_commits w2 bb1 who3 t3 e vc2 v2 ipfs2 codeB Hbb1 Hwin Hel2 Hroom)
    as (w3 & Hcast).
  exists w2, w3. split; [exact Hreset|]. split; [exact Hcast|].
  apply run_cast_Ok in Hcast as (bb2 & _ & _ & Hbb2 & _ & _ & _ & _ & _ & Hbox3 & _).
  rewrite Hbb1 in Hbb2. injection Hbb2 as <-.
  rewrite Hbox3.
  erewrite !ballot_facts.verify_vote_eq by apply lookup_insert_eq. simpl.
  rewrite lookup_insert_ne by exact Hne. rewrite HA, lookup_insert_eq. auto.
Qed.

(** X8. [cast_vote] compares neither the signer nor the identity with the
    stored commitment: a ballot stored under a code is replaced by the cast
    of any eligible identity under that code, whatever the counter holds,
    and the count stays the same. *)
Theorem any_eligible_voter_replaces w bb code old who now e vc vh ipfs :
  w.(ballot_boxes) !! voting = Some bb ->
  bb.(votes) !! code = Some old ->
  bb.(polling_start) <= now <= bb.(polling_end) ->
  voter_registry.is_voter_eligible w.(registries) e = Ok true ->
  exists w1,
    run w (tx who now (CastVote e vc vh ipfs code)) = Ok w1 /\
    verify_vote w1.(ballot_boxes) code = Ok (true, vh, now) /\
    get_vote_count w1.(ballot_boxes) = get_vote_count w.(ballot_boxes).
Proof.
  intros Hbb Hold Hwin Hel.
  destruct (run_cast_commits w bb who now e vc vh ipfs code Hbb Hwin Hel) as (w1 & Hcast).
  { rewrite Hold. discriminate. }
  exists w1. split; [exact Hcast|].
  apply run_cast_Ok in Hcast as (bb0 & _ & _ & Hbb0 & _ & _ & _ & _ & _ & -> & _).
  rewrite Hbb in Hbb0. injection Hbb0 as <-.
  erewrite ballot_facts.verify_vote_eq by apply lookup_insert_eq. simpl.
  rewrite lookup_insert_eq. split; [reflexivity|].
  unfold get_vote_count. erewrite borrow_global_Some by apply lookup_insert_eq.
  rewrite (borrow_global_Some _ _ _ Hbb). simpl.
  unfold table.contains. rewrite Hold. reflexivity.
Qed.

(** X9. A committed [cast_vote] under one tracking code changes the answer
    of [verify_vote] for no other code, and leaves the merkle root, the
    bulletin board and the tally record as they were. *)
Theorem cast_vote_is_local w who now e vc vh ipfs code w1 other :
  run w (tx who now (CastVote e vc vh ipfs code)) = Ok w1 ->
  other <> code ->
  verify_vote w1.(ballot_boxes) other = verify_vote w.(ballot_boxes) other
  /\ get_merkle_root w1.(ballot_boxes) = get_merkle_root w.(ballot_boxes)
  /\ w1.(boards) = w.(boards) /\ w1.(tallies) = w.(tallies).
Proof.
  intros Hrun Hne.
  apply run_cast_Ok in Hrun
    as (bb & _ & _ & Hbb & _ & _ & _ & _ & _ & -> & -> & ->).
  erewrite ballot_facts.verify_vote_eq by apply lookup_insert_eq.
  erewrite get_merkle_root_eq by apply lookup_insert_eq.
  rewrite (ballot_facts.verify_vote_eq _ _ _ Hbb), (get_merkle_root_eq _ _ Hbb).
  simpl. rewrite lookup_insert_ne by congruence. auto.
Qed.

(** X10. The polling window and the admin of the ballot box are fixed at
    initialisation: after every history [is_polling_active] answers for
    each instant what it answered before, and the admin is the same. *)
Theorem polling_window_is_fixed w bb txs :
  w.(ballot_boxes) !! voting = Some bb ->
  (forall now, is_polling_active (replay w txs).(ballot_boxes) now
               = is_polling_active w.(ballot_boxes) now)
  /\ exists bb', (replay w txs).(ballot_boxes) !! voting = Some bb'
                 /\ bb'.(admin) = bb.(admin).
Proof.
  intros Hbb.
  assert (exists bb', (replay w txs).(ballot_boxes) !! voting = Some bb' /\
                      bb'.(polling_start) = bb.(polling_start) /\
                      bb'.(polling_end) = bb.(polling_end) /\
                      bb'.(admin) = bb.(admin)) as (bb' & Hbb' & Hps & Hpe & Hadm).
  { apply (registry_history.replay_preserves
             (fun w0 => exists bb', w0.(ballot_boxes) !! voting = Some bb' /\
                                    bb'.(polling_start) = bb.(polling_start) /\
                                    bb'.(polling_end) = bb.(polling_end) /\
                                    bb'.(admin) = bb.(admin))).
    - intros w0 t (bb0 & Hbb0 & Hps0 & Hpe0 & Hadm0).
      destruct (ballot_commit_cases w0 t bb0 Hbb0)
        as (bb1 & Hbb1 & Hps1 & Hpe1 & Hadm1 & _).
      exists bb1. rewrite Hps1, Hpe1, Hadm1. auto.
    - exists bb. auto. }
  split; [|eauto].
  intros now. rewrite (is_polling_active_eq _ _ _ Hbb'), (is_polling_active_eq _ _ _ Hbb).
  rewrite Hps, Hpe. reflexivity.
Qed.

(** X11. The merkle root of the ballot box changes only through
    [update_merkle_root] signed by the stored admin: any other transaction
    leaves [get_merkle_root] as it was. *)
Theorem merkle_root_set_by_admin_only w bb t :
  w.(ballot_boxes) !! voting = Some bb ->
  get_merkle_root (commit w t).(ballot_boxes) = get_merkle_root w.(ballot_boxes)
  \/ exists root,
       payload t = BallotUpdateMerkleRoot root /\ sender t = bb.(admin) /\
       get_merkle_root (commit w t).(ballot_boxes) = Ok root.
Proof.
  intros Hbb.
  destruct (ballot_commit_cases w t bb Hbb) as (bb' & Hbb' & _ & _ & _ & Hcases).
  rewrite (get_merkle_root_eq _ _ Hbb'), (get_merkle_root_eq _ _ Hbb).
  destruct Hcases as [->|[(e & vc & vh & ipfs & code & _ & _ & _ & _ & _ & ->)
                         |(root & Hpay & Hsend & _ & _ & ->)]]; eauto.
Qed.

(** X12. Inside the polling window of an initialised ballot box,
    [cast_vote] aborts with ENOT_ELIGIBLE for a voter who is not eligible;
    for an eligible voter a first cast under a new code aborts on
    arithmetic overflow when the counter is at its maximum, while a revote
    under a stored code commits even then. *)
Theorem cast_vote_in_window reg st bb now who e vc vh ipfs code :
  st !! voting = Some bb ->
  bb.(polling_start) <= now <= bb.(polling_end) ->
  (voter_registry.is_voter_eligible reg e = Ok false ->
     cast_vote reg st now who e vc vh ipfs code = Err (Abort this_module ENOT_ELIGIBLE))
  /\ (voter_registry.is_voter_eligible reg e = Ok true ->
      bb.(votes) !! code = None -> bb.(vote_count) = MAX_U64 ->
      cast_vote reg st now who e vc vh ipfs code = Err ArithmeticOverflow)
  /\ (voter_registry.is_voter_eligible reg e = Ok true ->
      is_Some (bb.(votes) !! code) ->
      is_ok (cast_vote reg st now who e vc vh ipfs code) = true).
Proof.
  intros Hbb [Hs He]. split; [|split].
  - intros Hel. unfold cast_vote. rewrite (borrow_global_Some _ _ _ Hbb). simpl.
    apply Z.leb_le in Hs, He. rewrite Hs, He. simpl. rewrite Hel. reflexivity.
  - intros Hel Hnew Hmax. unfold cast_vote. rewrite (borrow_global_Some _ _ _ Hbb).
    simpl. apply Z.leb_le in Hs, He. rewrite Hs, He. simpl. rewrite Hel. simpl.
    unfold table.contains, table.add. rewrite Hnew. simpl. rewrite Hnew. simpl.
    unfold add_u64. rewrite Hmax. reflexivity.
  - intros Hel [old Hold]. eapply ballot_facts.cast_vote_succeeds; eauto.
    rewrite Hold. discriminate.
Qed.
End facts.

Lemma stored_commitments_witness :
  @verify_vote demo_addresses demo_voted.(ballot_boxes) "T1" = Ok (true, "v1", 150).
Proof.
  destruct (@stored_commitments_are_final demo_addresses demo_history demo_voted_box "T1"
              (final_commitment "vc" "v1" "ipfs" "T1" 150)) as (_ & _ & _ & Hverify).
  - vm_compute. reflexivity.
  - vm_compute. reflexivity.
  - exact Hverify.
Defined.

(** After the cast of [h1], a second cast by [h1] at time 160 is refused. *)
Lemma one_cast_witness :
  @run demo_addresses demo_voted (tx 5 160 (CastVote "h1" "vc" "v2" "ipfs" "T2"))
  = Err (Abort this_module ENOT_ELIGIBLE).
Proof.
  edestruct (@one_cast_per_eligibility demo_addresses demo_world 5 150 "h1" "vc" "v1"
               "ipfs" "T1" demo_voted) as (_ & Hagain).
  - vm_compute. reflexivity.
  - edestruct (Hagain 5 160 "vc" "v2" "ipfs" "T2") as (_ & Herr).
    apply (Herr demo_voted_box).
    + vm_compute. reflexivity.
    + vm_compute. split; discriminate.
Defined.

(** Account 9 resets the flag of [h1]; [h1] then casts under [T2] and holds
    two final ballots. *)
Lemma second_ballot_witness :
  exists w2 w3,
    @run demo_addresses demo_voted (tx 9 155 (ResetVotedStatus "h1")) = Ok w2 /\
    @run demo_addresses w2 (tx 5 160 (CastVote "h1" "vc" "v2" "ipfs" "T2")) = Ok w3 /\
    @verify_vote demo_addresses w3.(ballot_boxes) "T1" = Ok (true, "v1", 150) /\
    @verify_vote demo_addresses w3.(ballot_boxes) "T2" = Ok (true, "v2", 160).
Proof.
  apply (@reset_allows_second_ballot demo_addresses demo_world 5 150 "h1" "vc" "v1"
           "ipfs" "T1" demo_voted demo_voted_box 9 155 5 160 "vc" "v2" "ipfs" "T2").
  - vm_compute. reflexivity.
  - vm_compute. reflexivity.
  - intros [=].
  - vm_compute. split; discriminate.
  - intros _. vm_compute. discriminate.
Defined.

(** The second voter [h2] replaces the ballot [h1] cast under [T1]. *)
Lemma replacement_witness :
  exists w1,
    @run demo_addresses demo_two_voters (tx 6 170 (CastVote "h2" "vc2" "w2" "ipfs2" "T1"))
      = Ok w1 /\
    @verify_vote demo_addresses w1.(ballot_boxes) "T1" = Ok (true, "w2", 170) /\
    @get_vote_count demo_addresses w1.(ballot_boxes)
      = @get_vote_count demo_addresses demo_two_voters.(ballot_boxes).
Proof.
  apply (@any_eligible_voter_replaces demo_addresses demo_two_voters demo_voted_box "T1"
           (final_commitment "vc" "v1" "ipfs" "T1" 150) 6 170 "h2" "vc2" "w2" "ipfs2").
  - vm_compute. reflexivity.
  - vm_compute. reflexivity.
  - vm_compute. split; discriminate.
  - vm_compute. reflexivity.
Defined.

Lemma cast_local_witness :
  @verify_vote demo_addresses demo_voted.(ballot_boxes) "T9"
  = @verify_vote demo_addresses demo_world.(ballot_boxes) "T9".
Proof.
  refine (proj1 (@cast_vote_is_local demo_addresses demo_world 5 150 "h1" "vc" "v1"
                   "ipfs" "T1" demo_voted "T9" _ _)).
  - vm_compute. reflexivity.
  - intros [=].
Defined.

Lemma polling_window_witness :
  @is_polling_active demo_addresses
    (@replay demo_addresses demo_world
       [demo_cast; tx 1 160 (BallotUpdateMerkleRoot "r")]).(ballot_boxes) 150
  = @is_polling_active demo_addresses demo_world.(ballot_boxes) 150.
Proof.
  refine (proj1 (@polling_window_is_fixed demo_addresses demo_world demo_box
                   [demo_cast; tx 1 160 (BallotUpdateMerkleRoot "r")] _) 150).
  vm_compute. reflexivity.
Defined.

(** Account 9 is not the admin: its [update_merkle_root] changes nothing. *)
Lemma merkle_root_witness :
  let t := tx 9 160 (BallotUpdateMerkleRoot "forged") in
  @get_merkle_root demo_addresses (@commit demo_addresses demo_world t).(ballot_boxes)
    = @get_merkle_root demo_addresses demo_world.(ballot_boxes)
  \/ exists root,
       payload t = BallotUpdateMerkleRoot root /\ sender t = demo_box.(admin) /\
       @get_merkle_root demo_addresses (@commit demo_addresses demo_world t).(ballot_boxes)
         = Ok root.
Proof.
  intros t.
  apply (@merkle_root_set_by_admin_only demo_addresses demo_world demo_box t).
  vm_compute. reflexivity.
Defined.

(** [h1] has voted: inside the window a further cast is refused. *)
Lemma cast_in_window_witness :
  @cast_vote demo_addresses demo_voted.(registries) demo_voted.(ballot_boxes)
    160 5 "h1" "vc" "v2" "ipfs" "T1"
  = Err (Abort this_module ENOT_ELIGIBLE).
Proof.
  refine (proj1 (@cast_vote_in_window demo_addresses demo_voted.(registries)
                   demo_voted.(ballot_boxes) demo_voted_box 160 5 "h1" "vc" "v2" "ipfs"
                   "T1" _ _) _).
  - vm_compute. reflexivity.
  - vm_compute. split; discriminate.
  - vm_compute. reflexivity.
Defined.
End ballot_history.

(** ** The bulletin board *)
Module board_history.
Import bulletin_board.

Section facts.
Context `{NamedAddresses}.

Lemma get_statistics_eq st b :
  st !! voting = Some b ->
  get_statistics st = Ok (b.(total_records), b.(merkle_root), b.(election_id)).
Proof.
  intros Hb. unfold get_statistics. rewrite (borrow_global_Some _ _ _ Hb). reflexivity.
Qed.

Lemma verify_merkle_proof_eq st b code root :
  st !! voting = Some b ->
  verify_merkle_proof st code root =
    Ok (match b.(records) !! code with
        | Some _ => String.eqb root b.(merkle_root)
        | None => false
        end).
Proof.
  intros Hb. unfold verify_merkle_proof. rewrite (borrow_global_Some _ _ _ Hb). simpl.
  unfold table.contains. destruct (records b !! code); reflexivity.
Qed.

Lemma record_vote_eq st b now who code c :
  st !! voting = Some b ->
  record_vote st now who code c =
    match b.(records) !! code with
    | Some _ =>
        Ok (<[voting := {| records := <[code := published_record c now]> b.(records);
                           total_records := b.(total_records);
                           merkle_root := b.(merkle_root);
                           election_id := b.(election_id) |}]> st,
            [RecordPublishedEvent code c now])
    | None =>
        if b.(total_records) + 1 <=? MAX_U64
        then Ok (<[voting := {| records := <[code := published_record c now]> b.(records);
                                total_records := b.(total_records) + 1;
                                merkle_root := b.(merkle_root);
                                election_id := b.(election_id) |}]> st,
                 [RecordPublishedEvent code c now])
        else Err ArithmeticOverflow
    end.
Proof.
  intros Hb. unfold record_vote. rewrite (borrow_global_Some _ _ _ Hb). simpl.
  unfold table.contains, table.add, table.upsert, add_u64.
  destruct (records b !! code) eqn:Hc; simpl; [reflexivity|].
  rewrite ?Hc. simpl. destruct (total_records b + 1 <=? MAX_U64); reflexivity.
Qed.

Lemma update_merkle_proof_eq st b who code prf :
  st !! voting = Some b ->
  update_merkle_proof st who code prf =
    match b.(records) !! code with
    | Some rec =>
        Ok (<[voting := {| records := <[code := set_merkle_proof prf rec]> b.(records);
                           total_records := b.(total_records);
                           merkle_root := b.(merkle_root);
                           election_id := b.(election_id) |}]> st, [])
    | None => Err (Abort this_module ENOT_FOUND)
    end.
Proof.
  intros Hb. unfold update_merkle_proof. rewrite (borrow_global_Some _ _ _ Hb). simpl.
  unfold table.contains, table.borrow. destruct (records b !! code); reflexivity.
Qed.

Lemma update_merkle_root_eq st b who root :
  st !! voting = Some b ->
  update_merkle_root st who root =
    Ok (<[voting := {| records := b.(records); total_records := b.(total_records);
                       merkle_root := root; election_id := b.(election_id) |}]> st, []).
Proof.
  intros Hb. unfold update_merkle_root. rewrite (borrow_global_Some _ _ _ Hb).
  reflexivity.
Qed.

(** What one transaction does to the board at [@voting]. *)
Lemma board_commit_cases w t b :
  w.(boards) !! voting = Some b ->
  exists b',
    (commit w t).(boards) !! voting = Some b' /\
    b'.(election_id) = b.(election_id) /\
    (b' = b
     \/ (exists code c,
           payload t = RecordVote code c /\
           b'.(records) = <[code := published_record c (block_time t)]> b.(records) /\
           b'.(total_records) = (if table.contains b.(records) code
                                 then b.(total_records) else b.(total_records) + 1) /\
           b'.(merkle_root) = b.(merkle_root))
     \/ (exists code prf rec,
           payload t = BoardUpdateMerkleProof code prf /\
           b.(records) !! code = Some rec /\
           b'.(records) = <[code := set_merkle_proof prf rec]> b.(records) /\
           b'.(total_records) = b.(total_records) /\
           b'.(merkle_root) = b.(merkle_root))
     \/ (exists root,
           payload t = BoardUpdateMerkleRoot root /\
           b'.(records) = b.(records) /\
           b'.(total_records) = b.(total_records) /\
           b'.(merkle_root) = root)).
Proof.
  intros Hb. unfold commit.
  destruct (run w t) as [w'|f] eqn:Hrun; [|exists b; auto].
  destruct t as [who now p].
  destruct p as [ | e a b0 | e | e | e | eid | code c | code prf | root | ps pe
                 | e vc vh ipfs code | root | eid pe | total | cid n pct
                 | valid invalid h prf ];
    unfold run in Hrun; simpl in Hrun; open_run Hrun; simpl;
    try (exists b; auto; fail).
  - (* initialize *)
    unfold initialize in Hcall. peel Hcall as st1 Hm. injection Hcall as <- <-.
    exists b. split; [eapply ledger_facts.move_to_keeps; eauto|auto].
  - (* record_vote *)
    rewrite (record_vote_eq _ _ _ _ _ _ Hb) in Hcall.
    unfold table.contains.
    destruct (records b !! code) as [old|] eqn:Hc.
    + injection Hcall as <- <-.
      eexists. split; [apply lookup_insert_eq|]. simpl. split; [reflexivity|].
      right. left. exists code, c. rewrite Hc. auto.
    + destruct (total_records b + 1 <=? MAX_U64); [|discriminate].
      injection Hcall as <- <-.
      eexists. split; [apply lookup_insert_eq|]. simpl. split; [reflexivity|].
      right. left. exists code, c. rewrite Hc. auto.
  - (* update_merkle_proof *)
    rewrite (update_merkle_proof_eq _ _ _ _ _ Hb) in Hcall.
    destruct (records b !! code) as [rec|] eqn:Hc; [|discriminate].
    injection Hcall as <- <-.
    eexists. split; [apply lookup_insert_eq|]. simpl. split; [reflexivity|].
    right. right. left. exists code, prf, rec. auto.
  - (* update_merkle_root *)
    rewrite (update_merkle_root_eq _ _ _ _ Hb) in Hcall. injection Hcall as <- <-.
    eexists. split; [apply lookup_insert_eq|]. simpl. split; [reflexivity|].
    right. right. right. exists root. auto.
Qed.

Lemma board_commit_fresh w t :
  w.(boards) !! voting = None ->
  (commit w t).(boards) !! voting = None
  \/ exists eid,
       (commit w t).(boards) !! voting
       = Some {| records := ∅; total_records := 0; merkle_root := "";
                 election_id := eid |}.
Proof.
  intros Hnone. unfold commit.
  destruct (run w t) as [w'|f] eqn:Hrun; [|auto].
  destruct t as [who now p].
  destruct p as [ | e a b0 | e | e | e | eid | code c | code prf | root | ps pe
                 | e vc vh ipfs code | root | eid pe | total | cid n pct
                 | valid invalid h prf ];
    unfold run in Hrun; simpl in Hrun; open_run Hrun; simpl; auto.
  - unfold initialize in Hcall. peel Hcall as st1 Hm. injection Hcall as <- <-.
    apply ledger_facts.move_to_Ok in Hm as [_ ->]. unfold signer.address_of.
    destruct (decide (who = voting)) as [->|Hne].
    + right. exists eid. apply lookup_insert_eq.
    + left. rewrite lookup_insert_ne by exact Hne. exact Hnone.
  - unfold record_vote, borrow_global in Hcall. rewrite Hnone in Hcall. discriminate.
  - unfold update_merkle_proof, borrow_global in Hcall. rewrite Hnone in Hcall.
    discriminate.
  - unfold update_merkle_root, borrow_global in Hcall. rewrite Hnone in Hcall.
    discriminate.
Qed.

(** X13. In every history from the empty ledger, the first component of
    [get_statistics] is the number of tracking codes the board holds a
    record for, and every record is marked valid: [get_vote_record] on a
    recorded code returns its commitment and timestamp with [true]. *)
Theorem board_counts_valid_records txs b :
  (replay genesis txs).(boards) !! voting = Some b ->
  get_statistics (replay genesis txs).(boards)
    = Ok (Z.of_nat (size b.(records)), b.(merkle_root), b.(election_id))
  /\ forall code rec, b.(records) !! code = Some rec ->
       get_vote_record (replay genesis txs).(boards) code
         = Ok (rec.(commitment), rec.(timestamp), true).
Proof.
  intros Hb.
  assert (b.(total_records) = Z.of_nat (size b.(records))
          /\ forall code rec, b.(records) !! code = Some rec -> rec.(is_valid) = true)
    as [Htotal Hvalid].
  { revert b Hb.
    apply (registry_history.replay_preserves
             (fun w => forall b, w.(boards) !! voting = Some b ->
                  b.(total_records) = Z.of_nat (size b.(records))
                  /\ forall code rec, b.(records) !! code = Some rec ->
                                      rec.(is_valid) = true)).
    - intros w t Hw b1 Hb1.
      destruct (boards w !! voting) as [b0|] eqn:Hb0.
      + destruct (Hw b0 eq_refl) as [Htot0 Hval0].
        destruct (board_commit_cases w t b0 Hb0) as (b' & Hb' & _ & Hcases).
        rewrite Hb1 in Hb'. injection Hb' as <-.
        destruct Hcases as [->|[(code & c & _ & Hrs & Htot & _)
                               |[(code & prf & rec & _ & Hrec & Hrs & Htot & _)
                                |(root & _ & Hrs & Htot & _)]]].
        * auto.
        * rewrite Hrs, Htot. unfold table.contains. split.
          -- destruct (records b0 !! code) as [old|] eqn:Hc.
             ++ rewrite map_size_insert_Some by (rewrite Hc; eauto). exact Htot0.
             ++ rewrite map_size_insert_None by exact Hc. rewrite Htot0. lia.
          -- intros code' rec' Hl. destruct (decide (code = code')) as [->|Hne].
             ++ rewrite lookup_insert_eq in Hl. injection Hl as <-. reflexivity.
             ++ rewrite lookup_insert_ne in Hl by exact Hne. eauto.
        * rewrite Hrs, Htot. split.
          -- rewrite map_size_insert_Some by (rewrite Hrec; eauto). exact Htot0.
          -- intros code' rec' Hl. destruct (decide (code = code')) as [->|Hne].
             ++ rewrite lookup_insert_eq in Hl. injection Hl as <-. simpl. eauto.
             ++ rewrite lookup_insert_ne in Hl by exact Hne. eauto.
        * rewrite Hrs, Htot. auto.
      + destruct (board_commit_fresh w t Hb0) as [Hn|(eid & Hf)]; [congruence|].
        rewrite Hb1 in Hf. injection Hf as ->. simpl. rewrite map_size_empty.
        split; [reflexivity|]. intros code rec Hl. rewrite lookup_empty in Hl.
        discriminate.
    - intros b0 Hb0. simpl in Hb0. rewrite lookup_empty in Hb0. discriminate. }
  split.
  - rewrite (get_statistics_eq _ _ Hb), Htotal. reflexivity.
  - intros code rec Hrec.
    rewrite (mirror_facts.get_vote_record_eq _ _ _ Hb), Hrec, (Hvalid _ _ Hrec).
    reflexivity.
Qed.

(** X14. [record_vote] is an upsert open to every signer.  On a recorded
    code it replaces commitment and timestamp, empties the stored merkle
    proof and keeps the count; on a new code it adds the record and
    increments the count, aborting on overflow when the count is at its
    maximum.  Records under other codes are not touched. *)
Theorem record_vote_upserts st b now who code c :
  st !! voting = Some b ->
  (b.(records) !! code = None -> b.(total_records) = MAX_U64 ->
     record_vote st now who code c = Err ArithmeticOverflow)
  /\ ((b.(records) !! code = None -> b.(total_records) + 1 <= MAX_U64) ->
      exists st' b',
        record_vote st now who code c = Ok (st', [RecordPublishedEvent code c now]) /\
        st' !! voting = Some b' /\
        b'.(records) !! code = Some (published_record c now) /\
        get_vote_record st' code = Ok (c, now, true) /\
        get_statistics st'
          = Ok ((if table.contains b.(records) code
                 then b.(total_records) else b.(total_records) + 1),
                b.(merkle_root), b.(election_id)) /\
        forall other, other <> code ->
          get_vote_record st' other = get_vote_record st other).
Proof.
  intros Hb. rewrite (record_vote_eq _ _ _ _ _ _ Hb). unfold table.contains. split.
  - intros -> Hmax. rewrite Hmax. reflexivity.
  - intros Hroom.
    assert (exists total,
               match records b !! code with
               | Some _ =>
                   Ok (<[voting := {| records := <[code := published_record c now]>
                                                    b.(records);
                                      total_records := b.(total_records);
                                      merkle_root := b.(merkle_root);
                                      election_id := b.(election_id) |}]> st,
                       [RecordPublishedEvent code c now])
               | None =>
                   if b.(total_records) + 1 <=? MAX_U64
                   then Ok (<[voting := {| records := <[code := published_record c now]>
                                                         b.(records);
                                           total_records := b.(total_records) + 1;
                                           merkle_root := b.(merkle_root);
                                           election_id := b.(election_id) |}]> st,
                            [RecordPublishedEvent code c now])
                   else Err ArithmeticOverflow
               end
               = Ok (<[voting := {| records := <[code := published_record c now]>
                                                 b.(records);
                                    total_records := total;
                                    merkle_root := b.(merkle_root);
                                    election_id := b.(election_id) |}]> st,
                     [RecordPublishedEvent code c now])
               /\ total = (if match records b !! code with Some _ => true | None => false end
                           then b.(total_records) else b.(total_records) + 1))
      as (total & -> & ->).
    { destruct (records b !! code) as [old|] eqn:Hc.
      - eexists. split; reflexivity.
      - apply Z.leb_le in Hroom; [|reflexivity]. rewrite Hroom.
        eexists. split; reflexivity. }
    eexists _, _. split; [reflexivity|].
    split; [apply lookup_insert_eq|]. simpl.
    split; [apply lookup_insert_eq|].
    erewrite mirror_facts.get_vote_record_eq by apply lookup_insert_eq.
    erewrite get_statistics_eq by apply lookup_insert_eq. simpl.
    rewrite lookup_insert_eq. split; [reflexivity|]. split; [reflexivity|].
    intros other Hne.
    erewrite mirror_facts.get_vote_record_eq by apply lookup_insert_eq.
    rewrite (mirror_facts.get_vote_record_eq _ _ _ Hb). simpl.
    rewrite lookup_insert_ne by congruence. reflexivity.
Qed.

(** X15. Merkle proofs are write-only.  [update_merkle_proof] aborts with
    ENOT_FOUND for a code without a record and otherwise commits for every
    signer without an event; no view function reads what it stored:
    [get_vote_record], [get_statistics] and [verify_merkle_proof] answer
    afterwards what they answered before. *)
Theorem merkle_proofs_are_write_only st b who code prf :
  st !! voting = Some b ->
  (b.(records) !! code = None ->
     update_merkle_proof st who code prf = Err (Abort this_module ENOT_FOUND))
  /\ (is_Some (b.(records) !! code) ->
      exists st',
        update_merkle_proof st who code prf = Ok (st', []) /\
        get_statistics st' = get_statistics st /\
        forall any root,
          get_vote_record st' any = get_vote_record st any /\
          verify_merkle_proof st' any root = verify_merkle_proof st any root).
Proof.
  intros Hb. rewrite (update_merkle_proof_eq _ _ _ _ _ Hb). split.
  - intros ->. reflexivity.
  - intros [rec Hrec]. rewrite Hrec. eexists. split; [reflexivity|].
    erewrite get_statistics_eq by apply lookup_insert_eq.
    rewrite (get_statistics_eq _ _ Hb). simpl. split; [reflexivity|].
    intros any root.
    erewrite mirror_facts.get_vote_record_eq by apply lookup_insert_eq.
    erewrite verify_merkle_proof_eq by apply lookup_insert_eq.
    rewrite (mirror_facts.get_vote_record_eq _ _ _ Hb).
    rewrite (verify_merkle_proof_eq _ _ _ _ Hb). simpl.
    destruct (decide (code = any)) as [->|Hne].
    + rewrite lookup_insert_eq, Hrec. auto.
    + rewrite lookup_insert_ne by exact Hne. auto.
Qed.

(** X16. [verify_merkle_proof] is a root comparison: it answers true
    exactly when the code has a record and the claimed root equals the
    stored one, whatever proof and commitment the record holds.  On a board
    whose root was never set, a freshly recorded code therefore verifies
    against the empty root. *)
Theorem verify_merkle_proof_compares_roots st b code root :
  st !! voting = Some b ->
  (verify_merkle_proof st code root = Ok true
     <-> is_Some (b.(records) !! code) /\ root = b.(merkle_root))
  /\ (b.(merkle_root) = "" ->
      forall now who c st' ev,
        record_vote st now who code c = Ok (st', ev) ->
        verify_merkle_proof st' code "" = Ok true).
Proof.
  intros Hb. rewrite (verify_merkle_proof_eq _ _ _ _ Hb). split.
  - destruct (records b !! code) as [rec|]; split.
    + intros [= Heq]. apply String.eqb_eq in Heq. eauto.
    + intros [_ ->]. rewrite String.eqb_refl. reflexivity.
    + discriminate.
    + intros [[rec Hx] _]. discriminate.
  - intros Hroot now who c st' ev Hrec.
    rewrite (record_vote_eq _ _ _ _ _ _ Hb) in Hrec.
    assert (exists total,
               st' = <[voting := {| records := <[code := published_record c now]>
                                                 b.(records);
                                    total_records := total;
                                    merkle_root := b.(merkle_root);
                                    election_id := b.(election_id) |}]> st)
      as (total & ->).
    { destruct (records b !! code).
      - injection Hrec as <- <-. eauto.
      - destruct (total_records b + 1 <=? MAX_U64); [|discriminate].
        injection Hrec as <- <-. eauto. }
    erewrite verify_merkle_proof_eq by apply lookup_insert_eq. simpl.
    rewrite lookup_insert_eq, Hroot. reflexivity.
Qed.
End facts.

Lemma board_counts_witness :
  @get_statistics demo_addresses demo_published.(boards) = Ok (1, "", "E2025").
Proof.
  exact (proj1 (@board_counts_valid_records demo_addresses demo_published_history
                  demo_board eq_refl)).
Defined.

(** Account 7 publishes another commitment under [T1]: it replaces the one
    account 9 published, and the count stays 1. *)
Lemma record_vote_witness :
  exists st' b',
    @record_vote demo_addresses demo_published.(boards) 160 7 "T1" "zz"
      = Ok (st', [RecordPublishedEvent "T1" "zz" 160]) /\
    st' !! 1 = Some b' /\
    b'.(records) !! "T1" = Some (published_record "zz" 160) /\
    @get_vote_record demo_addresses st' "T1" = Ok ("zz", 160, true) /\
    @get_statistics demo_addresses st' = Ok (1, "", "E2025") /\
    forall other, other <> "T1" ->
      @get_vote_record demo_addresses st' other
      = @get_vote_record demo_addresses demo_published.(boards) other.
Proof.
  refine (proj2 (@record_vote_upserts demo_addresses demo_published.(boards) demo_board
                   160 7 "T1" "zz" _) _).
  - vm_compute. reflexivity.
  - intros [=].
Defined.

Lemma merkle_proof_witness :
  exists st',
    @update_merkle_proof demo_addresses demo_published.(boards) 9 "T1" ["p1"; "p2"]
      = Ok (st', []) /\
    @get_statistics demo_addresses st'
      = @get_statistics demo_addresses demo_published.(boards) /\
    forall any root,
      @get_vote_record demo_addresses st' any
        = @get_vote_record demo_addresses demo_published.(boards) any /\
      @verify_merkle_proof demo_addresses st' any root
        = @verify_merkle_proof demo_addresses demo_published.(boards) any root.
Proof.
  refine (proj2 (@merkle_proofs_are_write_only demo_addresses demo_published.(boards)
                   demo_board 9 "T1" ["p1"; "p2"] _) _).
  - vm_compute. reflexivity.
  - vm_compute. eauto.
Defined.

(** No root was ever set on the demo board: [T1] verifies against the empty
    root. *)
Lemma verify_merkle_proof_witness :
  @verify_merkle_proof demo_addresses demo_published.(boards) "T1" "" = Ok true.
Proof.
  refine (proj2 (proj1 (@verify_merkle_proof_compares_roots demo_addresses
                          demo_published.(boards) demo_board "T1" "" _)) _).
  - vm_compute. reflexivity.
  - vm_compute. eauto.
Defined.
End board_history.

(** ** The tally record: results, finalization, proof check *)
Module tally_history.
Import tally_validator.

Section facts.
Context `{NamedAddresses}.

Lemma get_candidate_result_eq st t cid :
  st !! voting = Some t ->
  get_candidate_result st cid =
    Ok (match t.(results) !! cid with
        | Some res => (true, res.(vote_count), res.(percentage))
        | None => (false, 0, 0)
        end).
Proof.
  intros Ht. unfold get_candidate_result. rewrite (borrow_global_Some _ _ _ Ht). simpl.
  unfold table.contains, table.borrow. destruct (results t !! cid); reflexivity.
Qed.

Lemma get_tally_summary_eq st t :
  st !! voting = Some t ->
  get_tally_summary st
    = Ok (t.(total_votes), t.(valid_votes), t.(invalid_votes), t.(is_finalized_flag),
          t.(tally_end_time)).
Proof.
  intros Ht. unfold get_tally_summary. rewrite (borrow_global_Some _ _ _ Ht).
  reflexivity.
Qed.

Lemma verify_tally_proof_true st t h :
  st !! voting = Some t ->
  verify_tally_proof st h = Ok true
  <-> t.(is_finalized_flag) = true /\ h = t.(result_hash).
Proof.
  intros Ht. unfold verify_tally_proof. rewrite (borrow_global_Some _ _ _ Ht). simpl.
  destruct (is_finalized_flag t); simpl; split.
  - intros [= Heq]. apply String.eqb_eq in Heq. auto.
  - intros [_ ->]. rewrite String.eqb_refl. reflexivity.
  - discriminate.
  - intros [[=] _].
Qed.

(** One transaction moves neither the admin of the tally record at
    [@voting] nor the record away. *)
Lemma tally_commit_admin w t tr :
  w.(tallies) !! voting = Some tr ->
  exists tr', (commit w t).(tallies) !! voting = Some tr' /\ tr'.(admin) = tr.(admin).
Proof.
  intros Ht. unfold commit.
  destruct (run w t) as [w'|f] eqn:Hrun; [|eauto].
  destruct t as [who now p].
  destruct p as [ | e a b0 | e | e | e | eid | code c | code prf | root | ps pe
                 | e vc vh ipfs code | root | eid pe | total | cid n pct
                 | valid invalid h prf ];
    unfold run in Hrun; simpl in Hrun; open_run Hrun; simpl; eauto.
  - unfold initialize in Hcall. peel Hcall as st1 Hm. injection Hcall as <- <-.
    exists tr. split; [eapply ledger_facts.move_to_keeps; eauto|auto].
  - rewrite (tally_facts.start_tally_eq _ _ _ _ _ Ht) in Hcall.
    destruct (negb (who =? admin tr)); [discriminate|].
    destruct (negb (polling_end_time tr <=? now)); [discriminate|].
    destruct (is_finalized_flag tr); [discriminate|]. injection Hcall as <- <-.
    eexists. split; [apply lookup_insert_eq|]. reflexivity.
  - rewrite (tally_facts.record_result_eq _ _ _ _ _ _ Ht) in Hcall.
    destruct (negb (who =? admin tr)); [discriminate|].
    destruct (is_finalized_flag tr); [discriminate|]. injection Hcall as <- <-.
    eexists. split; [apply lookup_insert_eq|]. reflexivity.
  - rewrite (tally_facts.finalize_tally_eq _ _ _ _ _ _ _ _ Ht) in Hcall.
    destruct (negb (who =? admin tr)); [discriminate|].
    destruct (is_finalized_flag tr); [discriminate|]. injection Hcall as <- <-.
    eexists. split; [apply lookup_insert_eq|]. reflexivity.
Qed.

Lemma tally_commit_fresh w t :
  w.(tallies) !! voting = None ->
  (commit w t).(tallies) !! voting = None
  \/ exists tr, (commit w t).(tallies) !! voting = Some tr /\ tr.(admin) = voting.
Proof.
  intros Hnone. unfold commit.
  destruct (run w t) as [w'|f] eqn:Hrun; [|auto].
  destruct t as [who now p].
  destruct p as [ | e a b0 | e | e | e | eid | code c | code prf | root | ps pe
                 | e vc vh ipfs code | root | eid pe | total | cid n pct
                 | valid invalid h prf ];
    unfold run in Hrun; simpl in Hrun; open_run Hrun; simpl; auto.
  - unfold initialize in Hcall. peel Hcall as st1 Hm. injection Hcall as <- <-.
    apply ledger_facts.move_to_Ok in Hm as [_ ->]. unfold signer.address_of.
    destruct (decide (who = voting)) as [->|Hne].
    + right. eexists. split; [apply lookup_insert_eq|]. reflexivity.
    + left. rewrite lookup_insert_ne by exact Hne. exact Hnone.
  - unfold start_tally, borrow_global in Hcall. rewrite Hnone in Hcall. discriminate.
  - unfold record_result, borrow_global in Hcall. rewrite Hnone in Hcall.
    discriminate.
  - unfold finalize_tally, borrow_global in Hcall. rewrite Hnone in Hcall.
    discriminate.
Qed.

(** X17. Before finalization [record_result] by the admin is an upsert that
    needs neither a started tally nor the end of polling: afterwards
    [get_candidate_result] returns the recorded count and percentage for
    that candidate, the results of other candidates and the summary are
    unchanged, and a candidate never recorded reads as [(false, 0, 0)]. *)
Theorem candidate_results_upsert st t cid n pct :
  st !! voting = Some t ->
  t.(is_finalized_flag) = false ->
  (t.(results) !! cid = None -> get_candidate_result st cid = Ok (false, 0, 0))
  /\ exists st',
       record_result st t.(admin) cid n pct = Ok (st', [ResultPublishedEvent cid n pct])
       /\ get_candidate_result st' cid = Ok (true, n, pct)
       /\ (forall other, other <> cid ->
             get_candidate_result st' other = get_candidate_result st other)
       /\ get_tally_summary st' = get_tally_summary st.
Proof.
  intros Ht Hopen. split.
  - intros Hnone. rewrite (get_candidate_result_eq _ _ _ Ht), Hnone. reflexivity.
  - rewrite (tally_facts.record_result_eq _ _ _ _ _ _ Ht), Z.eqb_refl, Hopen. simpl.
    eexists. split; [reflexivity|].
    erewrite get_candidate_result_eq by apply lookup_insert_eq. simpl.
    rewrite lookup_insert_eq. simpl. split; [reflexivity|]. split.
    + intros other Hne.
      erewrite get_candidate_result_eq by apply lookup_insert_eq.
      rewrite (get_candidate_result_eq _ _ _ Ht). simpl.
      rewrite lookup_insert_ne by congruence. reflexivity.
    + erewrite get_tally_summary_eq by apply lookup_insert_eq.
      rewrite (get_tally_summary_eq _ _ Ht). simpl. rewrite Hopen. reflexivity.
Qed.

(** X18. [finalize_tally] checks the admin and the finalized flag only.
    On a record that is not finalized it commits for the admin at every
    block time, before the end of polling and without [start_tally]
    included, and for every pair of valid and invalid counts, whatever the
    total is; the summary, the proof check and the stored proof then
    report its arguments, and the recorded results stay. *)
Theorem finalize_tally_is_unconditional st t now valid invalid h p :
  st !! voting = Some t ->
  t.(is_finalized_flag) = false ->
  exists st',
    finalize_tally st now t.(admin) valid invalid h p
      = Ok (st', [TallyFinalizedEvent t.(election_id) now t.(total_votes) valid])
    /\ get_tally_summary st' = Ok (t.(total_votes), valid, invalid, true, now)
    /\ verify_tally_proof st' h = Ok true
    /\ get_zkp_proof st' = Ok p
    /\ is_finalized st' = Ok true
    /\ forall cid, get_candidate_result st' cid = get_candidate_result st cid.
Proof.
  intros Ht Hopen.
  rewrite (tally_facts.finalize_tally_eq _ _ _ _ _ _ _ _ Ht), Z.eqb_refl, Hopen. simpl.
  eexists. split; [reflexivity|].
  erewrite get_tally_summary_eq by apply lookup_insert_eq. simpl.
  split; [reflexivity|]. split.
  - eapply verify_tally_proof_true; [apply lookup_insert_eq|]. simpl. auto.
  - unfold get_zkp_proof, is_finalized.
    erewrite borrow_global_Some by apply lookup_insert_eq. simpl.
    split; [reflexivity|]. split; [reflexivity|].
    intros cid. erewrite get_candidate_result_eq by apply lookup_insert_eq.
    rewrite (get_candidate_result_eq _ _ _ Ht). reflexivity.
Qed.

(** X19. Starting from a tally that is not finalized, if after a history
    [verify_tally_proof h] answers true, then the history contains a
    [finalize_tally] whose result hash is [h]: no other call makes a hash
    verify. *)
Theorem verified_hash_was_finalized w txs h :
  tally_finalized w = false ->
  verify_tally_proof (replay w txs).(tallies) h = Ok true ->
  exists t valid invalid p,
    In t txs /\ payload t = FinalizeTally valid invalid h p.
Proof.
  intros Hopen Hver.
  destruct (tallies (replay w txs) !! voting) as [tr|] eqn:Ht;
    [|unfold verify_tally_proof, borrow_global in Hver; rewrite Ht in Hver;
      discriminate].
  destruct (proj1 (verify_tally_proof_true _ _ _ Ht) Hver) as [Hfin Hh].
  destruct (finalization_facts.open_replay txs w Hopen)
    as [(_ & Hopen' & _)|(_ & _ & t & valid & invalid & h' & p & Hin & Hpay & Hproof)].
  - rewrite (finalization_facts.tally_finalized_eq _ _ Ht) in Hopen'. congruence.
  - unfold tally_proof in Hproof. rewrite Ht in Hproof. injection Hproof as Hh' _.
    exists t, valid, invalid, p. split; [exact Hin|]. congruence.
Qed.
End facts.

Lemma candidate_results_witness :
  exists st',
    @record_result demo_addresses demo_world.(tallies) 1 "candA" 1 10000
      = Ok (st', [ResultPublishedEvent "candA" 1 10000])
    /\ @get_candidate_result demo_addresses st' "candA" = Ok (true, 1, 10000)
    /\ (forall other, other <> "candA" ->
          @get_candidate_result demo_addresses st' other
          = @get_candidate_result demo_addresses demo_world.(tallies) other)
    /\ @get_tally_summary demo_addresses st'
       = @get_tally_summary demo_addresses demo_world.(tallies).
Proof.
  refine (proj2 (@candidate_results_upsert demo_addresses demo_world.(tallies) demo_tally
                   "candA" 1 10000 _ _)).
  - vm_compute. reflexivity.
  - reflexivity.
Defined.

(** The admin finalizes the demo tally at time 0, before polling has even
    started, with 5 valid and 7 invalid votes against a total of 0. *)
Lemma finalize_tally_witness :
  exists st',
    @finalize_tally demo_addresses demo_world.(tallies) 0 1 5 7 "H" "P"
      = Ok (st', [TallyFinalizedEvent "E2025" 0 0 5])
    /\ @get_tally_summary demo_addresses st' = Ok (0, 5, 7, true, 0)
    /\ @verify_tally_proof demo_addresses st' "H" = Ok true
    /\ @get_zkp_proof demo_addresses st' = Ok "P"
    /\ @is_finalized demo_addresses st' = Ok true
    /\ forall cid, @get_candidate_result demo_addresses st' cid
                   = @get_candidate_result demo_addresses demo_world.(tallies) cid.
Proof.
  refine (@finalize_tally_is_unconditional demo_addresses demo_world.(tallies) demo_tally
            0 5 7 "H" "P" _ _).
  - vm_compute. reflexivity.
  - reflexivity.
Defined.

Lemma verified_hash_witness :
  exists t valid invalid p,
    In t [tx 1 300 (StartTally 1); tx 1 302 (FinalizeTally 1 0 "H" "P")]
    /\ payload t = FinalizeTally valid invalid "H" p.
Proof.
  refine (@verified_hash_was_finalized demo_addresses demo_world
            [tx 1 300 (StartTally 1); tx 1 302 (FinalizeTally 1 0 "H" "P")] "H" _ _).
  - vm_compute. reflexivity.
  - vm_compute. reflexivity.
Defined.
End tally_history.

(** ** Administration, events and counters over histories *)
Module audit_facts.

Section facts.
Context `{NamedAddresses}.

Lemma cast_event_codes_app l1 l2 :
  cast_event_codes (l1 ++ l2) = cast_event_codes l1 ++ cast_event_codes l2.
Proof.
  induction l1 as [|ev l1 IH]; [reflexivity|].
  destruct ev; simpl; rewrite IH; reflexivity.
Qed.

Lemma replaced_events_app l1 l2 :
  replaced_events (l1 ++ l2) = (replaced_events l1 + replaced_events l2)%nat.
Proof.
  induction l1 as [|ev l1 IH]; [reflexivity|].
  destruct ev; simpl; rewrite IH; reflexivity.
Qed.

(** The events one transaction appends: none when it aborts; a vote-cast
    event exactly for a committed [cast_vote]; a vote-replaced event
    exactly when that cast hit a stored code. *)
Lemma commit_events w t :
  exists ev,
    (commit w t).(event_log) = w.(event_log) ++ ev
    /\ cast_event_codes ev = cast_codes w [t]
    /\ replaced_events ev
       = (if is_ok (run w t) && targets_stored_code w (payload t) then 1 else 0)%nat.
Proof.
  unfold commit.
  destruct (run w t) as [w'|f] eqn:Hrun.
  2:{ exists []. rewrite app_nil_r.
      rewrite mirror_facts.cast_codes_aborted by (rewrite Hrun; reflexivity). auto. }
  destruct t as [who now p].
  destruct p as [ | e a b0 | e | e | e | eid | code c | code prf | root | ps pe
                 | e vc vh ipfs code | root | eid pe | total | cid n pct
                 | valid invalid h prf ];
    simpl cast_codes; rewrite ?Hrun;
    unfold run in Hrun; simpl in Hrun; open_run Hrun; simpl;
    eexists; (split; [reflexivity|]).
  - unfold voter_registry.initialize in Hcall. split_call Hcall.
    injection Hcall as _ <-. auto.
  - unfold voter_registry.register_voter in Hcall. split_call Hcall.
    injection Hcall as _ <-. auto.
  - unfold voter_registry.mark_voted in Hcall. split_call Hcall.
    injection Hcall as _ <-. auto.
  - unfold voter_registry.reset_voted_status in Hcall. split_call Hcall.
    injection Hcall as _ <-. auto.
  - unfold voter_registry.deactivate_voter in Hcall. split_call Hcall.
    injection Hcall as _ <-. auto.
  - unfold bulletin_board.initialize in Hcall. split_call Hcall.
    injection Hcall as _ <-. auto.
  - unfold bulletin_board.record_vote in Hcall. split_call Hcall;
      injection Hcall as _ <-; auto.
  - unfold bulletin_board.update_merkle_proof in Hcall. split_call Hcall.
    injection Hcall as _ <-. auto.
  - unfold bulletin_board.update_merkle_root in Hcall. split_call Hcall.
    injection Hcall as _ <-. auto.
  - unfold encrypted_ballot.initialize in Hcall. split_call Hcall.
    injection Hcall as _ <-. auto.
  - apply ballot_facts.cast_vote_Ok in Hcall
      as (bb & voted & Hbb & _ & _ & Hm & _ & _ & ->).
    unfold voter_registry.mark_voted in Hm. split_call Hm. injection Hm as _ <-.
    rewrite Hbb. unfold table.contains.
    destruct (encrypted_ballot.votes bb !! code); simpl; auto.
  - unfold encrypted_ballot.update_merkle_root in Hcall. split_call Hcall.
    injection Hcall as _ <-. auto.
  - unfold tally_validator.initialize in Hcall. split_call Hcall.
    injection Hcall as _ <-. auto.
  - unfold tally_validator.start_tally in Hcall. split_call Hcall.
    injection Hcall as _ <-. auto.
  - unfold tally_validator.record_result in Hcall. split_call Hcall;
      injection Hcall as _ <-; auto.
  - unfold tally_validator.finalize_tally in Hcall. split_call Hcall.
    injection Hcall as _ <-. auto.
Qed.

(** X20. The event stream is append-only and lists the committed casts:
    after any history the stream extends the earlier one, and the tracking
    codes of its vote-cast events are, in order, those of the earlier
    stream followed by those of the [cast_vote] transactions that
    committed. *)
Theorem event_stream_lists_casts w txs :
  (exists ev, (replay w txs).(event_log) = w.(event_log) ++ ev)
  /\ cast_event_codes (replay w txs).(event_log)
     = cast_event_codes w.(event_log) ++ cast_codes w txs.
Proof.
  revert w. induction txs as [|t txs IH]; intros w.
  - simpl. rewrite app_nil_r. split; [exists []; rewrite app_nil_r|]; reflexivity.
  - rewrite ledger_facts.replay_cons, mirror_facts.cast_codes_cons.
    destruct (IH (commit w t)) as [(ev2 & Hlog2) Hcodes2].
    destruct (commit_events w t) as (ev1 & Hlog1 & Hcodes1 & _).
    split.
    + exists (ev1 ++ ev2). rewrite Hlog2, Hlog1, app_assoc. reflexivity.
    + rewrite Hcodes2, Hlog1, cast_event_codes_app, Hcodes1, app_assoc. reflexivity.
Qed.

Lemma counted_votes_step w t :
  counted_votes (commit w t)
    + (if is_ok (run w t) && targets_stored_code w (payload t) then 1 else 0)
  = counted_votes w + Z.of_nat (length (cast_codes w [t])).
Proof.
  unfold commit, counted_votes.
  destruct (run w t) as [w'|f] eqn:Hrun.
  2:{ rewrite mirror_facts.cast_codes_aborted by (rewrite Hrun; reflexivity).
      simpl. lia. }
  destruct t as [who now p].
  destruct p as [ | e a b0 | e | e | e | eid | code c | code prf | root | ps pe
                 | e vc vh ipfs code | root | eid pe | total | cid n pct
                 | valid invalid h prf ];
    simpl cast_codes; rewrite ?Hrun;
    unfold run in Hrun; simpl in Hrun; open_run Hrun; simpl; try lia.
  - (* initialize *)
    unfold encrypted_ballot.initialize in Hcall. peel Hcall as st1 Hm.
    injection Hcall as <- <-.
    apply ledger_facts.move_to_Ok in Hm as [Hnone ->]. unfold signer.address_of in *.
    destruct (decide (who = voting)) as [->|Hne].
    + rewrite lookup_insert_eq, Hnone. simpl. lia.
    + rewrite lookup_insert_ne by exact Hne. lia.
  - (* cast_vote *)
    apply ballot_facts.cast_vote_Ok in Hcall
      as (bb & voted & Hbb & _ & _ & _ & _ & -> & _).
    rewrite lookup_insert_eq, Hbb. simpl.
    destruct (table.contains (encrypted_ballot.votes bb) code); lia.
  - (* update_merkle_root *)
    unfold encrypted_ballot.update_merkle_root in Hcall.
    destruct (ballot_boxes w !! voting) as [bb|] eqn:Hbb;
      [|unfold borrow_global in Hcall; rewrite Hbb in Hcall; discriminate].
    rewrite (borrow_global_Some _ _ _ Hbb) in Hcall. simpl in Hcall.
    peel Hcall as u Hadm. injection Hcall as <- <-.
    unfold write_global. rewrite lookup_insert_eq. simpl. lia.
Qed.

Lemma counted_votes_replay txs : forall w,
  counted_votes (replay w txs)
    + Z.of_nat (replaced_events (replay w txs).(event_log))
  = counted_votes w + Z.of_nat (replaced_events w.(event_log))
    + Z.of_nat (length (cast_codes w txs)).
Proof.
  induction txs as [|t txs IH]; intros w; [simpl; lia|].
  rewrite ledger_facts.replay_cons, mirror_facts.cast_codes_cons, IH.
  destruct (commit_events w t) as (ev & Hlog & _ & Hrep).
  pose proof (counted_votes_step w t) as Hstep.
  rewrite Hlog, replaced_events_app, Hrep, length_app.
  destruct (is_ok (run w t) && targets_stored_code w (payload t)); lia.
Qed.

(** X21. Every committed cast is either counted or a replacement: in every
    history from the empty ledger, the value [get_vote_count] returns plus
    the number of vote-replaced events emitted equals the number of
    [cast_vote] transactions that committed. *)
Theorem casts_are_counted_or_replacements txs n :
  encrypted_ballot.get_vote_count (replay genesis txs).(ballot_boxes) = Ok n ->
  n + Z.of_nat (replaced_events (replay genesis txs).(event_log))
  = Z.of_nat (length (cast_codes genesis txs)).
Proof.
  intros Hn. pose proof (counted_votes_replay txs genesis) as Hsum.
  unfold counted_votes in Hsum at 2. simpl in Hsum. rewrite lookup_empty in Hsum.
  unfold encrypted_ballot.get_vote_count in Hn. peel Hn as bb Hbb.
  apply borrow_global_Ok in Hbb. injection Hn as <-.
  unfold counted_votes in Hsum. rewrite Hbb in Hsum. lia.
Qed.

(** X22. In every history from the empty ledger the admin stored by the
    registry, the ballot box and the tally record at [@voting] is [@voting]
    itself (only that account can publish there), so a call that checks the
    admin never commits for another sender. *)
Theorem only_package_account_administers txs t :
  admin_checked (payload t) = true ->
  sender t <> voting ->
  is_ok (run (replay genesis txs) t) = false.
Proof.
  intros Hchecked Hother.
  assert ((forall r, (replay genesis txs).(registries) !! voting = Some r ->
                     r.(voter_registry.admin) = voting)
          /\ (forall bb, (replay genesis txs).(ballot_boxes) !! voting = Some bb ->
                         bb.(encrypted_ballot.admin) = voting)
          /\ (forall tr, (replay genesis txs).(tallies) !! voting = Some tr ->
                         tr.(tally_validator.admin) = voting))
    as (Hreg & Hbox & Htally).
  { apply (registry_history.replay_preserves
             (fun w =>
                (forall r, w.(registries) !! voting = Some r ->
                           r.(voter_registry.admin) = voting)
                /\ (forall bb, w.(ballot_boxes) !! voting = Some bb ->
                               bb.(encrypted_ballot.admin) = voting)
                /\ (forall tr, w.(tallies) !! voting = Some tr ->
                               tr.(tally_validator.admin) = voting))).
    - intros w t0 (Hr & Hb & Ht). split; [|split].
      + intros r1 Hr1. destruct (registries w !! voting) as [r0|] eqn:Hr0.
        * destruct (registry_history.registry_commit_cases w t0 r0 Hr0)
            as (r' & Hr' & Hadm & _).
          rewrite Hr1 in Hr'. injection Hr' as <-. rewrite Hadm. auto.
        * destruct (registry_history.registry_commit_fresh w t0 Hr0) as [Hn|Hf];
            [congruence|].
          rewrite Hr1 in Hf. injection Hf as ->. reflexivity.
      + intros bb1 Hbb1. destruct (ballot_boxes w !! voting) as [bb0|] eqn:Hbb0.
        * destruct (ballot_history.ballot_commit_cases w t0 bb0 Hbb0)
            as (bb' & Hbb' & _ & _ & Hadm & _).
          rewrite Hbb1 in Hbb'. injection Hbb' as <-. rewrite Hadm. auto.
        * destruct (ballot_history.ballot_commit_fresh w t0 Hbb0)
            as [Hn|(ps & pe & Hf)]; [congruence|].
          rewrite Hbb1 in Hf. injection Hf as ->. reflexivity.
      + intros tr1 Htr1. destruct (tallies w !! voting) as [tr0|] eqn:Htr0.
        * destruct (tally_history.tally_commit_admin w t0 tr0 Htr0)
            as (tr' & Htr' & Hadm).
          rewrite Htr1 in Htr'. injection Htr' as <-. rewrite Hadm. auto.
        * destruct (tally_history.tally_commit_fresh w t0 Htr0)
            as [Hn|(tr' & Htr' & Hadm)]; [congruence|].
          rewrite Htr1 in Htr'. injection Htr' as <-. exact Hadm.
    - simpl. repeat split; intros x Hx; rewrite lookup_empty in Hx; discriminate. }
  destruct t as [who now p]. simpl in Hother. apply Z.eqb_neq in Hother.
  destruct p; try discriminate Hchecked; unfold run, with_registries,
    with_ballot_boxes, with_tallies; simpl.
  - destruct (registries (replay genesis txs) !! voting) as [r|] eqn:Hr.
    + rewrite (registry_history.deactivate_voter_eq _ _ _ _ Hr), (Hreg r eq_refl), Hother.
      reflexivity.
    + unfold voter_registry.deactivate_voter, borrow_global. rewrite Hr. reflexivity.
  - unfold encrypted_ballot.update_merkle_root, borrow_global.
    destruct (ballot_boxes (replay genesis txs) !! voting) as [bb|] eqn:Hbb;
      [|reflexivity].
    simpl. unfold signer.address_of. rewrite (Hbox bb eq_refl), Hother. reflexivity.
  - destruct (tallies (replay genesis txs) !! voting) as [tr|] eqn:Htr.
    + rewrite (tally_facts.start_tally_eq _ _ _ _ _ Htr), (Htally tr eq_refl), Hother.
      reflexivity.
    + unfold tally_validator.start_tally, borrow_global. rewrite Htr. reflexivity.
  - destruct (tallies (replay genesis txs) !! voting) as [tr|] eqn:Htr.
    + rewrite (tally_facts.record_result_eq _ _ _ _ _ _ Htr), (Htally tr eq_refl), Hother.
      reflexivity.
    + unfold tally_validator.record_result, borrow_global. rewrite Htr. reflexivity.
  - destruct (tallies (replay genesis txs) !! voting) as [tr|] eqn:Htr.
    + rewrite (tally_facts.finalize_tally_eq _ _ _ _ _ _ _ _ Htr), (Htally tr eq_refl),
        Hother.
      reflexivity.
    + unfold tally_validator.finalize_tally, borrow_global. rewrite Htr. reflexivity.
Qed.

(** X23. A second initialisation cannot reset a module: once a resource is
    published at [@voting], the [initialize] of its module aborts when
    [@voting] signs it, and signed by any other account it leaves that
    resource as it is. *)
Theorem initialize_cannot_reset w who now :
  (forall r, w.(registries) !! voting = Some r ->
     (commit w (tx who now RegistryInitialize)).(registries) !! voting = Some r
     /\ run w (tx voting now RegistryInitialize) = Err ResourceAlreadyExists)
  /\ (forall bb ps pe, w.(ballot_boxes) !! voting = Some bb ->
     (commit w (tx who now (BallotInitialize ps pe))).(ballot_boxes) !! voting = Some bb
     /\ run w (tx voting now (BallotInitialize ps pe)) = Err ResourceAlreadyExists)
  /\ (forall b eid, w.(boards) !! voting = Some b ->
     (commit w (tx who now (BoardInitialize eid))).(boards) !! voting = Some b
     /\ run w (tx voting now (BoardInitialize eid)) = Err ResourceAlreadyExists)
  /\ (forall tr eid pe, w.(tallies) !! voting = Some tr ->
     (commit w (tx who now (TallyInitialize eid pe))).(tallies) !! voting = Some tr
     /\ run w (tx voting now (TallyInitialize eid pe)) = Err ResourceAlreadyExists).
Proof.
  split; [|split; [|split]].
  - intros r Hr. split.
    + unfold commit. destruct (run w (tx who now RegistryInitialize)) eqn:Hrun; [|auto].
      unfold run in Hrun. simpl in Hrun. open_run Hrun. simpl.
      unfold voter_registry.initialize in Hcall. peel Hcall as st1 Hm.
      injection Hcall as <- <-. eapply ledger_facts.move_to_keeps; eauto.
    + unfold run, with_registries, voter_registry.initialize, move_to,
        signer.address_of. simpl. rewrite Hr. reflexivity.
  - intros bb ps pe Hbb. split.
    + unfold commit.
      destruct (run w (tx who now (BallotInitialize ps pe))) eqn:Hrun; [|auto].
      unfold run in Hrun. simpl in Hrun. open_run Hrun. simpl.
      unfold encrypted_ballot.initialize in Hcall. peel Hcall as st1 Hm.
      injection Hcall as <- <-. eapply ledger_facts.move_to_keeps; eauto.
    + unfold run, with_ballot_boxes, encrypted_ballot.initialize, move_to,
        signer.address_of. simpl. rewrite Hbb. reflexivity.
  - intros b eid Hb. split.
    + unfold commit.
      destruct (run w (tx who now (BoardInitialize eid))) eqn:Hrun; [|auto].
      unfold run in Hrun. simpl in Hrun. open_run Hrun. simpl.
      unfold bulletin_board.initialize in Hcall. peel Hcall as st1 Hm.
      injection Hcall as <- <-. eapply ledger_facts.move_to_keeps; eauto.
    + unfold run, with_boards, bulletin_board.initialize, move_to,
        signer.address_of. simpl. rewrite Hb. reflexivity.
  - intros tr eid pe Htr. split.
    + unfold commit.
      destruct (run w (tx who now (TallyInitialize eid pe))) eqn:Hrun; [|auto].
      unfold run in Hrun. simpl in Hrun. open_run Hrun. simpl.
      unfold tally_validator.initialize in Hcall. peel Hcall as st1 Hm.
      injection Hcall as <- <-. eapply ledger_facts.move_to_keeps; eauto.
    + unfold run, with_tallies, tally_validator.initialize, move_to,
        signer.address_of. simpl. rewrite Htr. reflexivity.
Qed.
End facts.

(** Two committed casts under [T1] on the demo deployment: one counted, one
    replacement. *)
Lemma casts_accounting_witness :
  let history :=
    demo_history ++ [tx 5 160 (ResetVotedStatus "h1");
                     tx 5 170 (CastVote "h1" "vc" "v2" "ipfs" "T1")] in
  1 + Z.of_nat (replaced_events (@replay demo_addresses genesis history).(event_log))
  = Z.of_nat (length (@cast_codes demo_addresses genesis history)).
Proof.
  intros history.
  refine (@casts_are_counted_or_replacements demo_addresses history 1 _).
  vm_compute. reflexivity.
Defined.

(** Account 9 cannot finalize the tally of the demo deployment. *)
Lemma package_admin_witness :
  is_ok (@run demo_addresses demo_voted (tx 9 300 (FinalizeTally 1 0 "H" "P"))) = false.
Proof.
  refine (@only_package_account_administers demo_addresses demo_history
            (tx 9 300 (FinalizeTally 1 0 "H" "P")) _ _).
  - reflexivity.
  - vm_compute. discriminate.
Defined.
End audit_facts.
